(** * MikroTik L2TP / IPv6 automation: a shallow embedding of the text-facing core

    The Python sources under [modules/] and [mikrotik_l2tp_automation.py]
    talk to a RouterOS device through a line-oriented session
    ([MikrotikConnection.execute_command]) and recover every fact from the
    text of its replies.  This development embeds

    - the Python string primitives the code relies on ([in], [lower],
      [split], [strip], ...) and the regular expressions it uses,
    - the connection boundary as an oracle plus the log of commands sent,
    - the record parsers, the state queries, the add / remove operations,
      the tunnel lookup, the ping parser, the MTU probe and the loader of
      the tunnel mapping file,

    and states the properties of the specification about them.

    Conventions.  CLI text is modelled as Rocq [string]s of ASCII
    characters: [lower] and [upper] only move the letters A-Z / a-z, and the
    white space of [strip], [split()] and [\s] is the ASCII white space of
    Python's [str.isspace] (codes 9-13, 28-31 and 32).  Python [int]s are
    [Z] (unbounded), Python [float]s are exact rationals [Q]: binary64
    rounding is not modelled, only the value of the decimal literal.  A
    Python exception is a value [Raise e] of the [result] type. *)

From Stdlib Require Import ZArith QArith Strings.String Strings.Ascii List Lia.
From stdpp Require Import base option list strings gmap fin_maps pretty.

Local Open Scope string_scope.
Local Open Scope list_scope.

#[local] Set Warnings "-clear-no-such-hyp".

(** ** Python exceptions *)

Inductive exn : Type :=
| IndexError
| ZeroDivisionError
| ValueError.

Inductive result (A : Type) : Type :=
| Ok (a : A)
| Raise (e : exn).

Arguments Ok {A} a.
Arguments Raise {A} e.

Definition rbind {A B : Type} (r : result A) (f : A -> result B) : result B :=
  match r with
  | Ok a => f a
  | Raise e => Raise e
  end.

(** ** Python string primitives *)

Module Py.

Definition isspace (c : ascii) : bool :=
  let n := nat_of_ascii c in
  (Nat.leb 9 n && Nat.leb n 13) || (Nat.leb 28 n && Nat.leb n 32).

Definition isdigit (c : ascii) : bool :=
  let n := nat_of_ascii c in Nat.leb 48 n && Nat.leb n 57.

Definition lower_char (c : ascii) : ascii :=
  let n := nat_of_ascii c in
  if Nat.leb 65 n && Nat.leb n 90 then ascii_of_nat (n + 32) else c.

Definition upper_char (c : ascii) : ascii :=
  let n := nat_of_ascii c in
  if Nat.leb 97 n && Nat.leb n 122 then ascii_of_nat (n - 32) else c.

(** [s.lower()], [s.upper()] on ASCII text: only the letters A-Z / a-z
    move.  Python also folds the cased letters outside ASCII, which this
    model leaves as they are, so a statement about [lower] speaks of ASCII
    text only. *)
Fixpoint lower (s : string) : string :=
  match s with
  | EmptyString => EmptyString
  | String c s' => String (lower_char c) (lower s')
  end.

Fixpoint upper (s : string) : string :=
  match s with
  | EmptyString => EmptyString
  | String c s' => String (upper_char c) (upper s')
  end.

(** [s.startswith(p)] *)
Fixpoint startswith (p s : string) : bool :=
  match p, s with
  | EmptyString, _ => true
  | String _ _, EmptyString => false
  | String a p', String b s' => Ascii.eqb a b && startswith p' s'
  end.

(** [needle in hay] *)
Fixpoint contains (needle hay : string) : bool :=
  startswith needle hay ||
  match hay with
  | EmptyString => false
  | String _ hay' => contains needle hay'
  end.

(** [s.split(sep)] for a one-character separator: never empty, [""] splits
    to [[""]]. *)
Fixpoint split (sep : ascii) (s : string) : list string :=
  match s with
  | EmptyString => [EmptyString]
  | String c s' =>
      if Ascii.eqb c sep then EmptyString :: split sep s'
      else match split sep s' with
           | w :: ws => String c w :: ws
           | [] => [String c EmptyString]
           end
  end.

(** [s.split()]: maximal runs of non-blank characters. *)
Fixpoint split_ws (s : string) : list string :=
  match s with
  | EmptyString => []
  | String c s' =>
      if isspace c then split_ws s'
      else match s' with
           | EmptyString => [String c EmptyString]
           | String d _ =>
               if isspace d then String c EmptyString :: split_ws s'
               else match split_ws s' with
                    | w :: ws => String c w :: ws
                    | [] => [String c EmptyString]
                    end
           end
  end.

(** [s.strip(chars)], with the character set given as a predicate. *)
Fixpoint lstrip_with (p : ascii -> bool) (s : string) : string :=
  match s with
  | EmptyString => EmptyString
  | String c s' => if p c then lstrip_with p s' else s
  end.

Fixpoint rstrip_with (p : ascii -> bool) (s : string) : string :=
  match s with
  | EmptyString => EmptyString
  | String c s' =>
      match rstrip_with p s' with
      | EmptyString => if p c then EmptyString else String c EmptyString
      | r => String c r
      end
  end.

Definition strip_with (p : ascii -> bool) (s : string) : string :=
  rstrip_with p (lstrip_with p s).

(** [s.strip()] *)
Definition strip (s : string) : string := strip_with isspace s.

(** Truth value of a string, and of an [Optional[str]] such as the reply of
    [execute_command]: [None] and [""] are false. *)
Definition truthy (s : string) : bool :=
  match s with
  | EmptyString => false
  | String _ _ => true
  end.

Definition truthy_opt (o : option string) : bool :=
  match o with
  | None => false
  | Some s => truthy s
  end.

(** [int(s)] for a string of decimal digits, [ValueError] otherwise.  (The
    code only applies it to text matched by [\d+].)  The result is
    unbounded: the [ValueError] that recent Python versions raise for a
    text of more than 4300 digits is not modelled. *)
Definition digit_val (c : ascii) : Z := Z.of_nat (nat_of_ascii c - 48).

Fixpoint digits_acc (acc : Z) (s : string) : option Z :=
  match s with
  | EmptyString => Some acc
  | String c s' =>
      if isdigit c then digits_acc (10 * acc + digit_val c) s' else None
  end.

Definition int (s : string) : result Z :=
  match s with
  | EmptyString => Raise ValueError
  | String _ _ =>
      match digits_acc 0 s with
      | Some z => Ok z
      | None => Raise ValueError
      end
  end.

(** [float(s)] for a decimal literal [digits] or [digits.digits] (the shape
    matched by [\d+(?:\.\d+)?]), as the exact rational it denotes: the
    rounding of binary64, its overflow to infinity and its underflow to
    [0.0] are not modelled. *)
Definition float (s : string) : result Q :=
  match split "." s with
  | [i] =>
      match int i with
      | Ok z => Ok (inject_Z z)
      | Raise e => Raise e
      end
  | [i; f] =>
      match int i, int f with
      | Ok zi, Ok zf =>
          Ok (Qred (inject_Z zi + Qmake zf (Pos.pow 10 (Pos.of_nat (String.length f)))))
      | _, _ => Raise ValueError
      end
  | _ => Raise ValueError
  end.

(** [str(n)] / [f"{n}"] of an [int]. *)
Definition str_of_int (n : Z) : string := pretty n.

End Py.

(** ** Regular expressions

    The fragment of Python's [re] syntax the sources use: literals,
    character classes, greedy repetition of a class, an optional group, a
    capturing group, concatenation and [^].  Matching is the backtracking
    search of [re]: greedy, leftmost, first alternative first. *)

Module Re.

Inductive re : Type :=
| Lit (s : string)                      (* literal text *)
| Star (p : ascii -> bool)              (* [c]*  *)
| Plus (p : ascii -> bool)              (* [c]+  *)
| Opt (r : re)                          (* (?:r)? *)
| Grp (n : nat) (r : re)                (* (r), the n-th group *)
| Cat (r1 r2 : re)
| Bol.                                  (* ^ *)

Definition captures : Type := list (nat * string).

Fixpoint group (n : nat) (c : captures) : option string :=
  match c with
  | [] => None
  | (m, s) :: c' => if Nat.eqb m n then Some s else group n c'
  end.

(** The text of the first [n] characters of [s]. *)
Fixpoint take_str (n : nat) (s : string) : string :=
  match n, s with
  | S n', String c s' => String c (take_str n' s')
  | _, _ => EmptyString
  end.

Section Matcher.
Context {A : Type}.

(** Greedy repetition of a class: take as many characters as possible,
    then give characters back one at a time while the rest fails. *)
Fixpoint star (p : ascii -> bool) (s : string) (pos : nat)
    (k : nat -> string -> option A) : option A :=
  match s with
  | String c s' =>
      if p c then
        match star p s' (S pos) k with
        | Some a => Some a
        | None => k pos s
        end
      else k pos s
  | EmptyString => k pos s
  end.

Fixpoint lit (l : string) (s : string) (pos : nat)
    (k : nat -> string -> option A) : option A :=
  match l with
  | EmptyString => k pos s
  | String a l' =>
      match s with
      | String b s' => if Ascii.eqb a b then lit l' s' (S pos) k else None
      | EmptyString => None
      end
  end.

(** [run r s pos c k]: match [r] at the front of [s], which starts at
    offset [pos] of the subject, then continue with [k]. *)
Fixpoint run (r : re) (s : string) (pos : nat) (c : captures)
    (k : nat -> string -> captures -> option A) : option A :=
  match r with
  | Lit l => lit l s pos (fun pos' s' => k pos' s' c)
  | Star p => star p s pos (fun pos' s' => k pos' s' c)
  | Plus p =>
      match s with
      | String ch s' =>
          if p ch then star p s' (S pos) (fun pos' s'' => k pos' s'' c)
          else None
      | EmptyString => None
      end
  | Opt r' =>
      match run r' s pos c k with
      | Some a => Some a
      | None => k pos s c
      end
  | Grp n r' =>
      run r' s pos c
        (fun pos' s' c' => k pos' s' ((n, take_str (pos' - pos) s) :: c'))
  | Cat r1 r2 =>
      run r1 s pos c (fun pos' s' c' => run r2 s' pos' c' k)
  | Bol => if Nat.eqb pos 0 then k pos s c else None
  end.
End Matcher.

(** [re.match(r, s)]: a match at the start of [s]. *)
Definition rmatch (r : re) (s : string) : option captures :=
  run r s 0 [] (fun _ _ c => Some c).

(** [re.search(r, s)]: the leftmost match. *)
Fixpoint search_from (r : re) (s : string) (pos : nat) : option captures :=
  match run r s pos [] (fun _ _ c => Some c) with
  | Some c => Some c
  | None =>
      match s with
      | String _ s' => search_from r s' (S pos)
      | EmptyString => None
      end
  end.

Definition search (r : re) (s : string) : option captures :=
  search_from r s 0.

(** What a match is, independently of the search: [matches r pos w c c']
    when the text [w], found at offset [pos], is a match of [r] that turns
    the groups [c] into [c']. *)
Fixpoint all (p : ascii -> bool) (w : string) : bool :=
  match w with
  | EmptyString => true
  | String ch w' => p ch && all p w'
  end.

Inductive matches : re -> nat -> string -> captures -> captures -> Prop :=
| M_Lit l pos c : matches (Lit l) pos l c c
| M_Star p pos w c : all p w = true -> matches (Star p) pos w c c
| M_Plus p pos ch w c :
    p ch = true -> all p w = true -> matches (Plus p) pos (String ch w) c c
| M_Opt_some r pos w c c' : matches r pos w c c' -> matches (Opt r) pos w c c'
| M_Opt_none r pos c : matches (Opt r) pos EmptyString c c
| M_Grp n r pos w c c' :
    matches r pos w c c' -> matches (Grp n r) pos w c ((n, w) :: c')
| M_Cat r1 r2 pos w1 w2 c c1 c2 :
    matches r1 pos w1 c c1 ->
    matches r2 (pos + String.length w1) w2 c1 c2 ->
    matches (Cat r1 r2) pos (w1 +:+ w2) c c2
| M_Bol c : matches Bol 0 EmptyString c c.

(** Character classes *)
Definition digit : ascii -> bool := Py.isdigit.                     (* \d *)
Definition space : ascii -> bool := Py.isspace.                     (* \s *)
Definition nonspace : ascii -> bool := fun c => negb (Py.isspace c). (* \S *)
Definition chr (a : ascii) : ascii -> bool := fun c => Ascii.eqb c a.
Definition notchr (a : ascii) : ascii -> bool := fun c => negb (Ascii.eqb c a).
Definition either (p q : ascii -> bool) : ascii -> bool := fun c => p c || q c.

End Re.

Notation "r1 ⋅ r2" := (Re.Cat r1 r2) (at level 41, right associativity).

(** ** The session boundary ([modules/mikrotik_connection.py])

    The transport itself is outside the model.  What the engine sees of a
    device is the reply to each command, which may depend on everything
    sent before: [device c log command] is the reply to [command] after the
    commands of [log] ([None]: the transport failed and [execute_command]
    returned [None]).  Operations thread the log of commands sent. *)

Record MikrotikConnection : Type := {
  connection : bool;   (* [self.connection is not None] *)
  device : list string -> string -> option string
}.

Definition M (A : Type) : Type := list string -> A * list string.

Definition ret {A : Type} (a : A) : M A := fun log => (a, log).

Definition bind {A B : Type} (m : M A) (k : A -> M B) : M B :=
  fun log => let (a, log') := m log in k a log'.

Notation "'let*' x ':=' m 'in' k" := (bind m (fun x => k))
  (at level 10, x name, m at level 100, k at level 200).

Definition is_connected (c : MikrotikConnection) : bool := connection c.

Definition execute_command (c : MikrotikConnection) (command : string)
  : M (option string) :=
  fun log =>
    if connection c then (device c log command, log ++ [command])
    else (None, log).

(** The test repeated after every configuration command:
    [output and ("syntax error" in output.lower() or "failure" in output.lower())] *)
Definition rejected (output : option string) : bool :=
  match output with
  | Some o =>
      Py.truthy o &&
      (Py.contains "syntax error" (Py.lower o) || Py.contains "failure" (Py.lower o))
  | None => false
  end.

Definition dquote : string := String (ascii_of_nat 34) EmptyString.

(** [s.split('/')[0]] and the like *)
Definition item0 (l : list string) : string := hd EmptyString l.

(** ** IPv6 addresses ([modules/mikrotik_ipv6_config.py]) *)

Module IPv6Config.

(** The dictionary built for one line of [/ipv6 address print]. *)
Record AddressRecord : Type := {
  a_id : string;
  a_flags : string;
  a_address : string;
  a_interface : string;
  a_advertise : bool;
  a_comment : option string
}.

(** [^\s*\d+] *)
Definition entry_re : Re.re := Re.Bol ⋅ Re.Star Re.space ⋅ Re.Plus Re.digit.

(** One iteration of the loop of [_parse_ipv6_addresses]; the state is
    [(addresses, current_entry)], an empty [current_entry] is [None]. *)
Definition parse_line (st : list AddressRecord * option AddressRecord)
    (line : string) : result (list AddressRecord * option AddressRecord) :=
  let line := Py.strip line in
  if negb (Py.truthy line) || Py.contains "Flags:" line
     || (Py.contains "#" line && Py.contains "ADDRESS" line)
  then Ok st
  else
    match Re.rmatch entry_re line with
    | Some _ =>
        let addresses :=
          match snd st with
          | Some e => fst st ++ [e]
          | None => fst st
          end in
        let parts := Py.split_ws line in
        if Nat.ltb 1 (length parts) then
          match parts with
          | p0 :: p1 :: p2 :: p3 :: p4 :: _ =>
              Ok (addresses,
                  Some {| a_id := p0; a_flags := p1; a_address := p2;
                          a_interface := p3;
                          a_advertise := String.eqb p4 "yes";
                          a_comment := nth_error parts 5 |})
          | _ => Raise IndexError
          end
        else Ok (addresses, None)
    | None => Ok st
    end.

Fixpoint parse_lines (st : list AddressRecord * option AddressRecord)
    (lines : list string) : result (list AddressRecord * option AddressRecord) :=
  match lines with
  | [] => Ok st
  | line :: rest => rbind (parse_line st line) (fun st' => parse_lines st' rest)
  end.

(** The loop ends with [return addresses]: the entry still held in
    [current_entry] is not appended. *)
Definition _parse_ipv6_addresses (output : string) : result (list AddressRecord) :=
  rbind (parse_lines ([], None) (Py.split "010" output))
        (fun st => Ok (fst st)).

Definition list_command (interface : option string) : string :=
  match interface with
  | Some i => if Py.truthy i then "/ipv6 address print" +:+ " where interface=" +:+ i
              else "/ipv6 address print"
  | None => "/ipv6 address print"
  end.

Definition list_ipv6_addresses (c : MikrotikConnection) (interface : option string)
  : M (list AddressRecord) :=
  if negb (is_connected c) then ret []
  else
    let* output := execute_command c (list_command interface) in
    match output with
    | Some o =>
        if Py.truthy o then
          match _parse_ipv6_addresses o with
          | Ok addresses => ret addresses
          | Raise _ => ret []            (* except Exception: return [] *)
          end
        else ret []
    | None => ret []
    end.

(** [address.split('/')[0] if '/' in address else address] *)
Definition check_address (address : string) : string :=
  if Py.contains "/" address then item0 (Py.split "/" address) else address.

Definition same_host (address : string) (addr : AddressRecord) : bool :=
  String.eqb (item0 (Py.split "/" (a_address addr))) (check_address address).

Definition _address_exists (c : MikrotikConnection) (interface address : string)
  : M bool :=
  let* addresses := list_ipv6_addresses c (Some interface) in
  ret (existsb (same_host address) addresses).

Definition _find_address_id (c : MikrotikConnection) (interface address : string)
  : M (option string) :=
  let* addresses := list_ipv6_addresses c (Some interface) in
  ret (option_map a_id (List.find (same_host address) addresses)).

Definition add_command (interface address : string) (advertise : bool)
    (comment : option string) : string :=
  let advertise_flag := if advertise then "yes" else "no" in
  let command := "/ipv6 address add address=" +:+ address +:+ " interface=" +:+ interface
                 +:+ " advertise=" +:+ advertise_flag in
  match comment with
  | Some cm => if Py.truthy cm then command +:+ " comment=" +:+ dquote +:+ cm +:+ dquote
               else command
  | None => command
  end.

Definition add_ipv6_address (c : MikrotikConnection) (interface address : string)
    (advertise : bool) (comment : option string) : M bool :=
  if negb (is_connected c) then ret false
  else
    let* found := _address_exists c interface address in
    if found then ret true
    else
      let* output := execute_command c (add_command interface address advertise comment) in
      if rejected output then ret false else ret true.

Definition remove_command (address_id : string) : string :=
  "/ipv6 address remove " +:+ address_id.

Definition remove_ipv6_address (c : MikrotikConnection) (interface address : string)
  : M bool :=
  if negb (is_connected c) then ret false
  else
    let* address_id := _find_address_id c interface address in
    match address_id with
    | Some i =>
        if Py.truthy i then
          let* output := execute_command c (remove_command i) in
          if rejected output then ret false else ret true
        else ret true                     (* [not address_id] *)
    | None => ret true
    end.

End IPv6Config.

(** ** IPv6 routes ([modules/mikrotik_routes.py]) *)

Module Routes.

(** A route is the Python dictionary itself: string keys, string values. *)

(** [key=([^\s]+)] *)
Definition kv_re (key : string) : Re.re :=
  Re.Lit (key +:+ "=") ⋅ Re.Grp 1 (Re.Plus Re.nonspace).

(** [if 'key=' in line: m = re.search(r'key=([^\s]+)', line); if m: route[field] = f(m.group(1))] *)
Definition extract (key field : string) (f : string -> string) (line : string)
    (route : gmap string string) : gmap string string :=
  if Py.contains (key +:+ "=") line then
    match Re.search (kv_re key) line with
    | Some m =>
        match Re.group 1 m with
        | Some v => <[field := f v]> route
        | None => route
        end
    | None => route
    end
  else route.

Definition is_empty (route : gmap string string) : bool :=
  bool_decide (route = ∅).

Definition flush (routes : list (gmap string string)) (current_route : gmap string string)
  : list (gmap string string) :=
  if is_empty current_route then routes else routes ++ [current_route].

Definition new_route (id : string) : gmap string string :=
  <["id" := id]> (<["flags" := ""]> (<["dst_address" := ""]> (<["gateway" := ""]>
    (<["distance" := ""]> (<["comment" := ""]> ∅))))).

(** One iteration of the loop of [_parse_ipv6_routes] on the state
    [(routes, current_route)]. *)
Definition parse_line (st : list (gmap string string) * gmap string string)
    (line : string) : list (gmap string string) * gmap string string :=
  let line := Py.strip line in
  if negb (Py.truthy line) || Py.contains "Flags:" line then st
  else
    match Re.rmatch IPv6Config.entry_re line with
    | Some _ =>
        let routes := flush (fst st) (snd st) in
        (* [current_route = {}] after the append; it was empty otherwise *)
        let current_route : gmap string string :=
          if is_empty (snd st) then snd st else ∅ in
        let parts := Py.split_ws line in
        let current_route :=
          if Nat.leb 1 (length parts) then new_route (item0 parts) else current_route in
        let current_route := extract "dst-address" "dst_address" (fun v => v) line current_route in
        let current_route := extract "gateway" "gateway" (fun v => v) line current_route in
        let current_route := extract "distance" "distance" (fun v => v) line current_route in
        let current_route :=
          extract "comment" "comment" (Py.strip_with (Re.chr (ascii_of_nat 34))) line current_route in
        (routes, current_route)
    | None =>
        if Py.truthy line && negb (is_empty (snd st)) then
          let current_route := extract "dst-address" "dst_address" (fun v => v) line (snd st) in
          let current_route := extract "gateway" "gateway" (fun v => v) line current_route in
          (fst st, current_route)
        else st
    end.

Definition _parse_ipv6_routes (output : string) : list (gmap string string) :=
  let st := fold_left parse_line (Py.split "010" output) ([], ∅) in
  flush (fst st) (snd st).

Definition list_command (dst_address : option string) : string :=
  match dst_address with
  | Some d => if Py.truthy d then "/ipv6 route print" +:+ " where dst-address=" +:+ d
              else "/ipv6 route print"
  | None => "/ipv6 route print"
  end.

Definition list_ipv6_routes (c : MikrotikConnection) (dst_address : option string)
  : M (list (gmap string string)) :=
  if negb (is_connected c) then ret []
  else
    let* output := execute_command c (list_command dst_address) in
    match output with
    | Some o => if Py.truthy o then ret (_parse_ipv6_routes o) else ret []
    | None => ret []
    end.

(** The test of the loop of [_find_route_id]:
    [route.get('dst_address') == dst_address and
     (gateway is None or route.get('gateway') == gateway)] *)
Definition route_matches (dst_address : string) (gateway : option string)
    (route : gmap string string) : bool :=
  bool_decide (route !! "dst_address" = Some dst_address) &&
  match gateway with
  | None => true
  | Some g => bool_decide (route !! "gateway" = Some g)
  end.

Fixpoint find_id (dst_address : string) (gateway : option string)
    (routes : list (gmap string string)) : option string :=
  match routes with
  | [] => None
  | route :: rest =>
      if route_matches dst_address gateway route then route !! "id"
      else find_id dst_address gateway rest
  end.

Definition _find_route_id (c : MikrotikConnection) (dst_address : string)
    (gateway : option string) : M (option string) :=
  let* routes := list_ipv6_routes c None in
  ret (find_id dst_address gateway routes).

Definition remove_command (route_id : string) : string :=
  "/ipv6 route remove " +:+ route_id.

Definition remove_ipv6_route (c : MikrotikConnection) (dst_address : string)
    (gateway : option string) : M bool :=
  if negb (is_connected c) then ret false
  else
    let* route_id := _find_route_id c dst_address gateway in
    match route_id with
    | Some i =>
        if Py.truthy i then
          let* output := execute_command c (remove_command i) in
          if rejected output then ret false else ret true
        else ret true                     (* [not route_id] *)
    | None => ret true
    end.

End Routes.

(** ** L2TP interfaces ([modules/mikrotik_interfaces.py]) *)

Module Interfaces.

Record InterfaceRecord : Type := {
  i_id : string;
  i_flags : string;
  i_name : string;
  i_user : string;
  i_mtu : string;
  i_client_address : string;
  i_status : string
}.

Definition is_header (line : string) : bool :=
  Py.contains "NAME" line && Py.contains "USER" line && Py.contains "CLIENT-ADDRESS" line.

(** [lines[header_line + 1:]] for the first header line, [None] when the
    search loop leaves [header_line == -1]. *)
Fixpoint after_header (lines : list string) : option (list string) :=
  match lines with
  | [] => None
  | line :: rest => if is_header line then Some rest else after_header rest
  end.

(** [\s*(\d+)\s+([DRX\s]+)\s*<([^>]+)>\s+(\S+)\s+(\d+)\s+([\d\.]+)] *)
Definition row_re : Re.re :=
  Re.Star Re.space ⋅ Re.Grp 1 (Re.Plus Re.digit) ⋅ Re.Plus Re.space ⋅
  Re.Grp 2 (Re.Plus (Re.either (Re.chr "D") (Re.either (Re.chr "R")
                        (Re.either (Re.chr "X") Re.space)))) ⋅
  Re.Star Re.space ⋅ Re.Lit "<" ⋅ Re.Grp 3 (Re.Plus (Re.notchr ">")) ⋅ Re.Lit ">" ⋅
  Re.Plus Re.space ⋅ Re.Grp 4 (Re.Plus Re.nonspace) ⋅
  Re.Plus Re.space ⋅ Re.Grp 5 (Re.Plus Re.digit) ⋅
  Re.Plus Re.space ⋅ Re.Grp 6 (Re.Plus (Re.either Re.digit (Re.chr "."))).

Definition grp (n : nat) (m : Re.captures) : string :=
  match Re.group n m with
  | Some g => g
  | None => EmptyString
  end.

Definition interface_info (m : Re.captures) : InterfaceRecord :=
  {| i_id := Py.strip (grp 1 m);
     i_flags := Py.strip (grp 2 m);
     i_name := Py.strip (grp 3 m);
     i_user := Py.strip (grp 4 m);
     i_mtu := Py.strip (grp 5 m);
     i_client_address := Py.strip (grp 6 m);
     i_status := if Py.contains "R" (grp 2 m) then "running" else "disabled" |}.

(** One data line: the records it contributes (none or one). *)
Definition parse_row (line : string) : list InterfaceRecord :=
  let line := Py.strip line in
  if negb (Py.truthy line) then []
  else
    match Re.rmatch row_re line with
    | Some m =>
        let info := interface_info m in
        if Py.contains "R" (i_flags info) then [info] else []
    | None => []
    end.

Definition _parse_l2tp_server_output (output : string) : list InterfaceRecord :=
  match after_header (Py.split "010" output) with
  | None => []
  | Some rows => flat_map parse_row rows
  end.

End Interfaces.

(** ** Connectivity tests ([modules/mikrotik_connectivity_tests.py]) *)

Module ConnectivityTests.

(** The result dictionary of [_parse_ping_output].  Numbers that Python
    holds as [float] (or as the initial [int] 0) are rationals, kept in
    lowest terms. *)
Record PingResult : Type := {
  target : string;
  success : bool;
  packets_sent : Z;
  packets_received : Z;
  packet_loss_percent : Q;
  avg_time_ms : Q;
  min_time_ms : Q;
  max_time_ms : Q;
  times : list Q;
  raw_output : string
}.

(** [\d+(?:\.\d+)?] *)
Definition number_re : Re.re :=
  Re.Plus Re.digit ⋅ Re.Opt (Re.Lit "." ⋅ Re.Plus Re.digit).

(** [time=(\d+(?:\.\d+)?)ms] *)
Definition time_re : Re.re := Re.Lit "time=" ⋅ Re.Grp 1 number_re ⋅ Re.Lit "ms".

(** [(\d+) packets transmitted, (\d+) received, (\d+)% packet loss] *)
Definition stats_re : Re.re :=
  Re.Grp 1 (Re.Plus Re.digit) ⋅ Re.Lit " packets transmitted, " ⋅
  Re.Grp 2 (Re.Plus Re.digit) ⋅ Re.Lit " received, " ⋅
  Re.Grp 3 (Re.Plus Re.digit) ⋅ Re.Lit "% packet loss".

(** [min/avg/max = (\d+(?:\.\d+)?)/(\d+(?:\.\d+)?)/(\d+(?:\.\d+)?) ms] *)
Definition rtt_re : Re.re :=
  Re.Lit "min/avg/max = " ⋅ Re.Grp 1 number_re ⋅ Re.Lit "/" ⋅
  Re.Grp 2 number_re ⋅ Re.Lit "/" ⋅ Re.Grp 3 number_re ⋅ Re.Lit " ms".

Definition grp (n : nat) (m : Re.captures) : string :=
  match Re.group n m with
  | Some g => g
  | None => EmptyString
  end.

(** First loop: the latency of every per-packet line. *)
Definition ping_time (ping_times : list Q) (line : string) : result (list Q) :=
  if Py.contains "time=" line && Py.contains "bytes from" line then
    match Re.search time_re line with
    | Some time_match =>
        rbind (Py.float (grp 1 time_match)) (fun t => Ok (ping_times ++ [t]))
    | None => Ok ping_times
    end
  else Ok ping_times.

Fixpoint collect_times (ping_times : list Q) (lines : list string) : result (list Q) :=
  match lines with
  | [] => Ok ping_times
  | line :: rest => rbind (ping_time ping_times line) (fun ts => collect_times ts rest)
  end.

Definition set_stats (r : PingResult) (sent received loss : Z) : PingResult :=
  {| target := target r; success := Z.ltb loss 100;
     packets_sent := sent; packets_received := received;
     packet_loss_percent := inject_Z loss;
     avg_time_ms := avg_time_ms r; min_time_ms := min_time_ms r;
     max_time_ms := max_time_ms r; times := times r; raw_output := raw_output r |}.

Definition set_rtt (r : PingResult) (mn av mx : Q) : PingResult :=
  {| target := target r; success := success r;
     packets_sent := packets_sent r; packets_received := packets_received r;
     packet_loss_percent := packet_loss_percent r;
     avg_time_ms := av; min_time_ms := mn; max_time_ms := mx;
     times := times r; raw_output := raw_output r |}.

(** Second loop, one line: the summary line, then the round-trip line. *)
Definition summary_line (r : PingResult) (line : string) : result PingResult :=
  rbind
    (if Py.contains "packets transmitted" line then
       match Re.search stats_re line with
       | Some stats_match =>
           rbind (Py.int (grp 1 stats_match)) (fun sent =>
           rbind (Py.int (grp 2 stats_match)) (fun received =>
           rbind (Py.int (grp 3 stats_match)) (fun loss =>
           Ok (set_stats r sent received loss))))
       | None => Ok r
       end
     else Ok r)
    (fun r =>
       if Py.contains "round-trip" line && Py.contains "min/avg/max" line then
         match Re.search rtt_re line with
         | Some time_stats =>
             rbind (Py.float (grp 1 time_stats)) (fun mn =>
             rbind (Py.float (grp 2 time_stats)) (fun av =>
             rbind (Py.float (grp 3 time_stats)) (fun mx =>
             Ok (set_rtt r mn av mx))))
         | None => Ok r
         end
       else Ok r).

Fixpoint summary_lines (r : PingResult) (lines : list string) : result PingResult :=
  match lines with
  | [] => Ok r
  | line :: rest => rbind (summary_line r line) (fun r' => summary_lines r' rest)
  end.

(** [min(l)], [max(l)], [sum(l)] on a non-empty list *)
Definition qmin (a b : Q) : Q := if Qle_bool a b then a else b.
Definition qmax (a b : Q) : Q := if Qle_bool b a then a else b.

Definition list_min (l : list Q) : Q :=
  match l with
  | [] => 0%Q
  | x :: l' => fold_left qmin l' x
  end.

Definition list_max (l : list Q) : Q :=
  match l with
  | [] => 0%Q
  | x :: l' => fold_left qmax l' x
  end.

Definition list_sum (l : list Q) : Q := fold_left Qplus l 0%Q.

(** True division [a / b]: [ZeroDivisionError] on a zero divisor. *)
Definition truediv (a b : Q) : result Q :=
  if Qeq_bool b 0 then Raise ZeroDivisionError else Ok (Qred (a / b)).

(** The block after the loops: when no average was parsed, aggregate the
    per-packet times.  [result.get('packets_sent', 4)] reads the key that
    the initial dictionary always holds. *)
Definition fallback (r : PingResult) (ping_times : list Q) : result PingResult :=
  if negb (Nat.eqb (length ping_times) 0) && Qeq_bool (avg_time_ms r) 0 then
    let n := inject_Z (Z.of_nat (length ping_times)) in
    rbind (truediv (list_sum ping_times) n) (fun avg =>
    rbind (truediv n (inject_Z (packets_sent r))) (fun ratio =>
    Ok {| target := target r;
          success := Nat.ltb 0 (length ping_times);
          packets_sent := packets_sent r;
          packets_received := Z.of_nat (length ping_times);
          packet_loss_percent := qmax 0 (Qred (100 - ratio * 100));
          avg_time_ms := avg;
          min_time_ms := list_min ping_times;
          max_time_ms := list_max ping_times;
          times := ping_times;
          raw_output := raw_output r |}))
  else Ok r.

Definition initial (output tgt : string) : PingResult :=
  {| target := tgt; success := false; packets_sent := 0; packets_received := 0;
     packet_loss_percent := 100; avg_time_ms := 0; min_time_ms := 0;
     max_time_ms := 0; times := []; raw_output := output |}.

Definition _parse_ping_output (output tgt : string) : result PingResult :=
  let lines := Py.split "010" output in
  rbind (collect_times [] lines) (fun ping_times =>
  rbind (summary_lines (initial output tgt) lines) (fun r =>
  fallback r ping_times)).

(** [_ping_ipv6] returns either the parsed dictionary or the short
    dictionary [{'target', 'success': False, 'error'}]; the error text is
    kept as the exception it came from ([None]: no reply). *)
Inductive PingOutcome : Type :=
| Parsed (r : PingResult)
| NoResult (tgt : string) (error : option exn).

Definition ping_success (o : PingOutcome) : bool :=
  match o with
  | Parsed r => success r
  | NoResult _ _ => false
  end.

Definition ping_command (tgt : string) (count : Z) : string :=
  "/ping address=" +:+ tgt +:+ " count=" +:+ Py.str_of_int count +:+ " ipv6=yes".

Definition _ping_ipv6 (c : MikrotikConnection) (tgt : string) (count : Z)
  : M PingOutcome :=
  let* output := execute_command c (ping_command tgt count) in
  match output with
  | Some o =>
      if Py.truthy o then
        match _parse_ping_output o tgt with
        | Ok r => ret (Parsed r)
        | Raise e => ret (NoResult tgt (Some e))   (* except Exception as e *)
        end
      else ret (NoResult tgt None)
  | None => ret (NoResult tgt None)
  end.

(** *** The MTU probe *)

Record MtuResult : Type := {
  max_mtu : Z;
  recommended_mtu : Z;
  tested_sizes : list Z
}.

Definition mtu_sizes : list Z :=
  [1280; 1300; 1400; 1500; 1600; 1700; 1800; 1900; 2000]%Z.

Definition mtu_command (tgt : string) (size : Z) : string :=
  "/ping address=" +:+ tgt +:+ " count=1 size=" +:+ Py.str_of_int size
  +:+ " do-not-fragment=yes ipv6=yes".

(** [output and ('time=' in output or 'received' in output)] *)
Definition responds (output : option string) : bool :=
  match output with
  | Some o => Py.truthy o && (Py.contains "time=" o || Py.contains "received" o)
  | None => false
  end.

(** The [for size in mtu_sizes] loop; [break] leaves with the current
    [max_working_mtu]. *)
Fixpoint scan (c : MikrotikConnection) (tgt : string) (sizes : list Z)
    (max_working_mtu : Z) : M Z :=
  match sizes with
  | [] => ret max_working_mtu
  | size :: rest =>
      let* output := execute_command c (mtu_command tgt size) in
      if responds output then scan c tgt rest size
      else ret max_working_mtu
  end.

(** [l.index(x)] *)
Fixpoint index (x : Z) (l : list Z) : result nat :=
  match l with
  | [] => Raise ValueError
  | y :: l' => if Z.eqb y x then Ok 0%nat else rbind (index x l') (fun i => Ok (S i))
  end.

Definition report (sizes : list Z) (max_working_mtu : Z) : result MtuResult :=
  rbind
    (if Z.ltb 0 max_working_mtu then
       rbind (index max_working_mtu sizes) (fun i => Ok (firstn (i + 1) sizes))
     else Ok [])
    (fun tested =>
       Ok {| max_mtu := max_working_mtu;
             recommended_mtu :=
               if Z.ltb 20 max_working_mtu then (max_working_mtu - 20)%Z
               else max_working_mtu;
             tested_sizes := tested |}).

Definition _test_mtu_ipv6 (c : MikrotikConnection) (tgt : string)
  : M (result MtuResult) :=
  let* max_working_mtu := scan c tgt mtu_sizes 0%Z in
  ret (report mtu_sizes max_working_mtu).

End ConnectivityTests.

(** ** L2TP manager ([modules/mikrotik_l2tp_manager.py]) *)

(** What one configuration step came to.  The code has no such type: the
    three values name the three branches after each add command (error
    logged and [return False]; "already exists" logged; "added" logged). *)
Inductive Outcome : Type :=
| Applied
| Skipped
| Failed.

Module L2TPManager.

(** [marker in output.lower()] *)
Definition has_marker (marker : string) (output : option string) : bool :=
  match output with
  | Some o => Py.contains marker (Py.lower o)
  | None => false
  end.

(** The nested test after an add command:
    [if output and (...): if marker not in output.lower(): return False
                          else: (already exists)
     else: (added)] *)
Definition classify (marker : string) (output : option string) : Outcome :=
  if rejected output then
    if negb (has_marker marker output) then Failed else Skipped
  else Applied.

(** A bracketed token around l2tp: [<], group 1 = [[^>]* l2tp [^>]*], [>] *)
Definition bracket_re : Re.re :=
  Re.Lit "<" ⋅ Re.Grp 1 (Re.Star (Re.notchr ">") ⋅ Re.Lit "l2tp" ⋅ Re.Star (Re.notchr ">"))
  ⋅ Re.Lit ">".

(** The body of the loop of [_find_l2tp_tunnel_by_name]: the interface
    name a line yields for the tunnel name, if any. *)
Definition line_hit (tunnel_name line : string) : option string :=
  let line_lower := Py.lower line in
  let tunnel_name_lower := Py.lower tunnel_name in
  if Py.contains tunnel_name_lower line_lower && Py.contains "l2tp-" line_lower then
    match Re.search bracket_re line with
    | Some m => Re.group 1 m
    | None => None
    end
  else None.

Fixpoint find_in_lines (tunnel_name : string) (lines : list string) : option string :=
  match lines with
  | [] => None
  | line :: rest =>
      match line_hit tunnel_name line with
      | Some interface_name => Some interface_name
      | None => find_in_lines tunnel_name rest
      end
  end.

Definition print_command : string := "/interface l2tp-server print".

Definition _find_l2tp_tunnel_by_name (c : MikrotikConnection) (tunnel_name : string)
  : M (option string) :=
  let* output := execute_command c print_command in
  match output with
  | Some o =>
      if Py.truthy o then ret (find_in_lines tunnel_name (Py.split "010" o))
      else ret None
  | None => ret None
  end.

Definition add_ip_cmd (server_ip tunnel_interface : string) : string :=
  "/ipv6 address add address=" +:+ (server_ip +:+ "/126") +:+ " interface="
  +:+ tunnel_interface +:+ " advertise=no".

Definition route_cmd (tunnel_name route_network route_gateway : string) : string :=
  "/ipv6 route add dst-address=" +:+ route_network +:+ " gateway=" +:+ route_gateway
  +:+ " distance=1 check-gateway=ping comment=" +:+ dquote +:+ "Route-"
  +:+ Py.upper tunnel_name +:+ dquote.

Definition configure_l2tp_server_tunnel (c : MikrotikConnection)
    (tunnel_name server_ip client_ip route_network route_gateway : string) : M bool :=
  if negb (is_connected c) then ret false
  else
    let* tunnel_interface := _find_l2tp_tunnel_by_name c tunnel_name in
    match tunnel_interface with
    | None => ret false
    | Some tunnel_interface =>
        if negb (Py.truthy tunnel_interface) then ret false
        else
          let* output := execute_command c (add_ip_cmd server_ip tunnel_interface) in
          match classify "already have such address" output with
          | Failed => ret false
          | _ =>
              let* output :=
                execute_command c (route_cmd tunnel_name route_network route_gateway) in
              match classify "already have such route" output with
              | Failed => ret false
              | _ => ret true
              end
          end
    end.

End L2TPManager.

(** ** Desired state ([mikrotik_l2tp_automation.py]) *)

Module Automation.

Record TunnelConfig : Type := {
  client_hostname : string;
  server_ip : string;
  client_ip : string;
  route_network : string;
  gateway : string
}.

(** The body of the loop of [load_tunnel_mapping] on one line of the file. *)
Definition load_line (mappings : gmap string TunnelConfig) (line : string)
  : gmap string TunnelConfig :=
  let line := Py.strip line in
  if negb (Py.truthy line) || Py.startswith "#" line then mappings
  else
    let parts := Py.split "," line in
    if negb (Nat.eqb (length parts) 6) then mappings       (* warning, [continue] *)
    else
      match map Py.strip parts with
      | [tunnel_name; client_hostname; server_ip; client_ip; route_network; gateway] =>
          <[tunnel_name := {| client_hostname := client_hostname;
                              server_ip := server_ip;
                              client_ip := client_ip;
                              route_network := route_network;
                              gateway := gateway |}]> mappings
      | _ => mappings
      end.

(** The file is the sequence of lines its iterator yields; [None] is a
    file that cannot be opened ([FileNotFoundError]: [{}] is returned). *)
Definition load_tunnel_mapping (file : option (list string))
  : gmap string TunnelConfig :=
  match file with
  | None => ∅
  | Some lines => fold_left load_line lines ∅
  end.

End Automation.

(** * Properties *)

(** ** Strings *)

Section StringFacts.

Lemma startswith_app (n a t : string) :
  Py.startswith n a = true -> Py.startswith n (a +:+ t) = true.
Proof.
  revert a. induction n as [|x n IH]; intros a H.
  - reflexivity.
  - destruct a as [|y a]; simpl in *; [discriminate|].
    apply andb_true_iff in H as [Hxy Hn].
    rewrite Hxy. simpl. now apply IH.
Qed.

Lemma contains_app (n a t : string) :
  Py.contains n a = true -> Py.contains n (a +:+ t) = true.
Proof.
  induction a as [|y a IH]; intros H.
  - simpl in H. rewrite orb_false_r in H.
    destruct n; [|discriminate]. destruct t; reflexivity.
  - cbn [Py.contains] in H. apply orb_true_iff in H as [H|H].
    + change (String y a +:+ t) with (String y (a +:+ t)).
      cbn [Py.contains].
      change (String y (a +:+ t)) with (String y a +:+ t).
      rewrite (startswith_app _ _ _ H). reflexivity.
    + change (String y a +:+ t) with (String y (a +:+ t)).
      cbn [Py.contains]. rewrite (IH H). apply orb_true_r.
Qed.

Lemma contains_cons (n : string) (y : ascii) (a : string) :
  Py.contains n a = true -> Py.contains n (String y a) = true.
Proof. intros H. cbn [Py.contains]. rewrite H. apply orb_true_r. Qed.

Lemma lstrip_suffix (p : ascii -> bool) (n s : string) :
  Py.contains n (Py.lstrip_with p s) = true -> Py.contains n s = true.
Proof.
  induction s as [|y s IH]; intros H; [exact H|].
  cbn [Py.lstrip_with] in H. destruct (p y); [|exact H].
  apply contains_cons. now apply IH.
Qed.

Lemma rstrip_prefix (p : ascii -> bool) (s : string) :
  exists t, s = Py.rstrip_with p s +:+ t.
Proof.
  induction s as [|y s [t IH]].
  - exists EmptyString. reflexivity.
  - cbn [Py.rstrip_with]. destruct (Py.rstrip_with p s) as [|z r] eqn:E.
    + destruct (p y).
      * exists (String y s). reflexivity.
      * exists t. exact (f_equal (String y) IH).
    + exists t. exact (f_equal (String y) IH).
Qed.

(** What is found in a stripped string is found in the string. *)
Lemma contains_strip_with (p : ascii -> bool) (n s : string) :
  Py.contains n (Py.strip_with p s) = true -> Py.contains n s = true.
Proof.
  unfold Py.strip_with. intros H.
  apply (lstrip_suffix p).
  destruct (rstrip_prefix p (Py.lstrip_with p s)) as [t Ht].
  rewrite Ht. now apply contains_app.
Qed.

End StringFacts.

(** ** The matcher finds matches only *)

Module ReFacts.
Import Re.

Lemma append_cons (ch : ascii) (a b : string) :
  String ch a +:+ b = String ch (a +:+ b).
Proof. reflexivity. Qed.

Lemma append_nil (b : string) : EmptyString +:+ b = b.
Proof. reflexivity. Qed.

Lemma append_nil_r (a : string) : a +:+ EmptyString = a.
Proof.
  induction a as [|ch a IH]; [reflexivity|].
  rewrite append_cons. now rewrite IH.
Qed.

Lemma take_str_app (w s : string) : take_str (String.length w) (w +:+ s) = w.
Proof.
  induction w as [|ch w IH]; [reflexivity|].
  rewrite append_cons. simpl. now rewrite IH.
Qed.

Lemma append_assoc (a b c : string) : (a +:+ b) +:+ c = a +:+ (b +:+ c).
Proof.
  induction a as [|ch a IH]; [reflexivity|].
  rewrite !append_cons. now rewrite IH.
Qed.

Lemma length_append (a b : string) :
  String.length (a +:+ b) = String.length a + String.length b.
Proof.
  induction a as [|ch a IH]; [reflexivity|].
  rewrite append_cons. simpl. now rewrite IH.
Qed.

Section Sound.
Context {A : Type}.

Lemma star_sound (p : ascii -> bool) (s : string) (pos : nat)
    (k : nat -> string -> option A) (a : A) :
  star p s pos k = Some a ->
  exists w s', s = w +:+ s' /\ all p w = true /\ k (pos + String.length w) s' = Some a.
Proof.
  revert pos. induction s as [|ch s IH]; intros pos H; simpl in H.
  - exists EmptyString, EmptyString. rewrite Nat.add_0_r. now repeat split.
  - destruct (p ch) eqn:Hp.
    + destruct (star p s (S pos) k) as [a'|] eqn:Hs.
      * injection H as ->. destruct (IH _ Hs) as (w & s' & -> & Hw & Hk).
        exists (String ch w), s'. simpl. rewrite Hp, Hw.
        rewrite Nat.add_succ_r. now repeat split.
      * exists EmptyString, (String ch s). rewrite Nat.add_0_r. now repeat split.
    + exists EmptyString, (String ch s). rewrite Nat.add_0_r. now repeat split.
Qed.

Lemma lit_sound (l s : string) (pos : nat) (k : nat -> string -> option A) (a : A) :
  lit l s pos k = Some a ->
  exists s', s = l +:+ s' /\ k (pos + String.length l) s' = Some a.
Proof.
  revert s pos. induction l as [|x l IH]; intros s pos H; simpl in H.
  - exists s. rewrite Nat.add_0_r. now split.
  - destruct s as [|y s]; [discriminate|].
    destruct (Ascii.eqb x y) eqn:E; [|discriminate].
    apply Ascii.eqb_eq in E as ->.
    destruct (IH _ _ H) as (s' & -> & Hk).
    exists s'. simpl. rewrite Nat.add_succ_r. now split.
Qed.

(** Soundness of the backtracking search: whenever [run] succeeds, the
    continuation succeeded after a genuine match of the expression. *)
Lemma run_sound (r : re) (s : string) (pos : nat) (c : captures)
    (k : nat -> string -> captures -> option A) (a : A) :
  run r s pos c k = Some a ->
  exists w s' c',
    s = w +:+ s' /\ matches r pos w c c' /\
    k (pos + String.length w) s' c' = Some a.
Proof.
  revert s pos c k.
  induction r as [l|p|p|r IH|n r IH|r1 IH1 r2 IH2|]; intros s pos c k H; simpl in H.
  - apply lit_sound in H as (s' & -> & Hk).
    exists l, s', c. repeat split; [constructor|exact Hk].
  - apply star_sound in H as (w & s' & -> & Hw & Hk).
    exists w, s', c. repeat split; [now constructor|exact Hk].
  - destruct s as [|ch s]; [discriminate|].
    destruct (p ch) eqn:Hp; [|discriminate].
    apply star_sound in H as (w & s' & -> & Hw & Hk).
    exists (String ch w), s', c. simpl. rewrite Nat.add_succ_r.
    repeat split; [now constructor|exact Hk].
  - destruct (run r s pos c k) as [a'|] eqn:Hr.
    + injection H as ->. destruct (IH _ _ _ _ Hr) as (w & s' & c' & -> & Hm & Hk).
      exists w, s', c'. repeat split; [now apply M_Opt_some|exact Hk].
    + exists EmptyString, s, c. rewrite Nat.add_0_r.
      repeat split; [apply M_Opt_none|exact H].
  - destruct (IH _ _ _ _ H) as (w & s' & c' & -> & Hm & Hk).
    exists w, s', ((n, w) :: c'). repeat split; [now constructor|].
    replace (pos + String.length w - pos) with (String.length w) in Hk by lia.
    now rewrite take_str_app in Hk.
  - destruct (IH1 _ _ _ _ H) as (w1 & s1 & c1 & -> & Hm1 & Hk1).
    destruct (IH2 _ _ _ _ Hk1) as (w2 & s2 & c2 & -> & Hm2 & Hk2).
    exists (w1 +:+ w2), s2, c2. rewrite append_assoc, length_append, Nat.add_assoc.
    repeat split; [econstructor; eassumption|exact Hk2].
  - destruct (Nat.eqb pos 0) eqn:E; [|discriminate].
    apply Nat.eqb_eq in E as ->.
    exists EmptyString, s, c. repeat split; [constructor|exact H].
Qed.
End Sound.

Lemma search_from_sound (r : re) (s : string) (pos : nat) (m : captures) :
  search_from r s pos = Some m ->
  exists pre w post,
    s = pre +:+ w +:+ post /\ matches r (pos + String.length pre) w [] m.
Proof.
  revert pos. induction s as [|ch s IH]; intros pos H; simpl in H.
  - destruct (run r EmptyString pos [] _) as [m'|] eqn:Hr; [|discriminate].
    injection H as ->. apply run_sound in Hr as (w & s' & c' & Hs & Hm & Hk).
    injection Hk as ->. exists EmptyString, w, s'. rewrite Nat.add_0_r. now split.
  - destruct (run r (String ch s) pos [] _) as [m'|] eqn:Hr.
    + injection H as ->. apply run_sound in Hr as (w & s' & c' & Hs & Hm & Hk).
      injection Hk as ->. exists EmptyString, w, s'. rewrite Nat.add_0_r. now split.
    + destruct (IH _ H) as (pre & w & post & -> & Hm).
      exists (String ch pre), w, post. split; [reflexivity|].
      simpl. now rewrite Nat.add_succ_r.
Qed.

(** [re.search] returns the groups of a genuine match inside the subject. *)
Lemma search_sound (r : re) (s : string) (m : captures) :
  search r s = Some m ->
  exists pre w post, s = pre +:+ w +:+ post /\ matches r (String.length pre) w [] m.
Proof. apply search_from_sound. Qed.

End ReFacts.

(** ** The session *)

Lemma execute_connected (c : MikrotikConnection) (command : string) (log : list string) :
  connection c = true ->
  execute_command c command log = (device c log command, log ++ [command]).
Proof. intros H. unfold execute_command. now rewrite H. Qed.

(** ** The L2TP server interface parser *)

Module InterfacesFacts.
Import Interfaces.

Lemma parse_row_running (line : string) (r : InterfaceRecord) :
  In r (parse_row line) ->
  Py.contains "R" (i_flags r) = true /\ i_status r = "running".
Proof.
  unfold parse_row.
  destruct (negb (Py.truthy (Py.strip line))); [intros []|].
  destruct (Re.rmatch row_re (Py.strip line)) as [m|]; [|intros []].
  destruct (Py.contains "R" (i_flags (interface_info m))) eqn:HR; [|intros []].
  intros [<-|[]]. split; [exact HR|].
  cbn [interface_info i_status i_flags] in *.
  apply contains_strip_with in HR. now rewrite HR.
Qed.

(** The rows of a listing: the lines after the header line (none when
    there is no header line). *)
Definition rows (output : string) : list string :=
  match after_header (Py.split "010" output) with
  | Some rows => rows
  | None => []
  end.

(** The flag column of a row: the text of group 2 of the row pattern,
    stripped, when the stripped row matches the pattern. *)
Definition flag_column (line : string) : option string :=
  match Re.rmatch row_re (Py.strip line) with
  | Some m => Some (Py.strip (grp 2 m))
  | None => None
  end.

(** A row contributes a record exactly when its flag column holds [R],
    and the record carries that flag column. *)
Lemma parse_row_flags (line : string) :
  map i_flags (parse_row line)
  = List.filter (Py.contains "R") (option_list (flag_column line)).
Proof.
  unfold parse_row, flag_column.
  destruct (Py.strip line) as [|ch rest] eqn:Hs.
  - vm_compute. reflexivity.
  - cbn [Py.truthy negb].
    destruct (Re.rmatch row_re (String ch rest)) as [m|]; [|reflexivity].
    cbn [interface_info i_flags].
    change (option_list (Some (Py.strip (grp 2 m)))) with [Py.strip (grp 2 m)].
    cbn [List.filter].
    now destruct (Py.contains "R" (Py.strip (grp 2 m))).
Qed.

Lemma parse_row_column (line : string) (r : InterfaceRecord) :
  In r (parse_row line) -> flag_column line = Some (i_flags r).
Proof.
  unfold parse_row, flag_column.
  destruct (negb (Py.truthy (Py.strip line))); [intros []|].
  destruct (Re.rmatch row_re (Py.strip line)) as [m|]; [|intros []].
  destruct (Py.contains "R" (i_flags (interface_info m))); [|intros []].
  now intros [<-|[]].
Qed.

(** C9.  Every record returned by [_parse_l2tp_server_output] carries the
    running flag [R] in its flags and has status ["running"], and its
    flags are the flag column of a row of the listing.  Rows whose flag
    column lacks [R] are left out of the result, they are not returned
    with another status: the flags of the records returned are, in order,
    the flag columns of the rows of the listing that hold [R], and no
    others. *)
Theorem parse_l2tp_server_only_running (output : string) :
  (forall r : InterfaceRecord,
      In r (_parse_l2tp_server_output output) ->
      Py.contains "R" (i_flags r) = true /\ i_status r = "running" /\
      exists line, In line (rows output) /\ flag_column line = Some (i_flags r)) /\
  map i_flags (_parse_l2tp_server_output output)
  = List.filter (Py.contains "R") (omap flag_column (rows output)).
Proof.
  unfold _parse_l2tp_server_output, rows.
  destruct (after_header (Py.split "010" output)) as [lines|];
    [|split; [intros r []|reflexivity]].
  split.
  - intros r H. apply in_flat_map in H as (line & Hline & H).
    destruct (parse_row_running _ _ H) as [HR Hst].
    split; [exact HR|]. split; [exact Hst|].
    exists line. split; [exact Hline|]. now apply parse_row_column.
  - induction lines as [|line lines IH]; [reflexivity|].
    cbn [flat_map]. rewrite map_app, IH, parse_row_flags.
    assert (Hcons : omap flag_column (line :: lines)
                    = option_list (flag_column line) ++ omap flag_column lines).
    { cbn. now destruct (flag_column line). }
    rewrite Hcons. symmetry. apply List.filter_app.
Qed.

Definition l2tp_listing : string :=
  "Flags: X - disabled, D - dynamic, R - running" +:+ "
 #     NAME                USER        MTU CLIENT-ADDRESS  UPTIME   ENCODING
 0  DR <l2tp-caetite>      caetite    1450 10.0.0.2        1d2h     cbc(aes)
 1  D  <l2tp-off>          off        1450 10.0.0.3        1d2h     cbc(aes)
 2     <l2tp-none>         none       1450 10.0.0.4        1d2h     cbc(aes)
".

Definition caetite_record : InterfaceRecord :=
  {| i_id := "0"; i_flags := "DR"; i_name := "l2tp-caetite"; i_user := "caetite";
     i_mtu := "1450"; i_client_address := "10.0.0.2"; i_status := "running" |}.

Example parse_l2tp_listing :
  _parse_l2tp_server_output l2tp_listing = [caetite_record].
Proof. vm_compute. reflexivity. Qed.

(** On the listing above: three rows with flag columns [DR], [D] and the
    empty one, and one record, for the row that holds [R]. *)
Lemma parse_l2tp_server_only_running_witness :
  omap flag_column (rows l2tp_listing) = ["DR"; "D"; ""] /\
  map i_flags (_parse_l2tp_server_output l2tp_listing) = ["DR"] /\
  (Py.contains "R" (i_flags caetite_record) = true /\
   i_status caetite_record = "running" /\
   exists line, In line (rows l2tp_listing) /\
                flag_column line = Some (i_flags caetite_record)).
Proof.
  destruct (parse_l2tp_server_only_running l2tp_listing) as [HA HB].
  split; [vm_compute; reflexivity|]. split.
  - rewrite HB. vm_compute. reflexivity.
  - apply HA. vm_compute. left. reflexivity.
Defined.

(** Without a header line the parser returns the empty list. *)
Lemma parse_l2tp_server_no_header (output : string) :
  after_header (Py.split "010" output) = None ->
  _parse_l2tp_server_output output = [].
Proof. unfold _parse_l2tp_server_output. now intros ->. Qed.

Lemma after_header_none (lines : list string) :
  Forall (fun l => is_header l = false) lines -> after_header lines = None.
Proof.
  induction 1 as [|l lines Hl _ IH]; [reflexivity|].
  simpl. now rewrite Hl.
Qed.

End InterfacesFacts.

(** ** Tunnel lookup *)

Module L2TPManagerFacts.
Import L2TPManager.

Lemma lower_char_idem (c : ascii) : Py.lower_char (Py.lower_char c) = Py.lower_char c.
Proof. destruct c as [[] [] [] [] [] [] [] []]; reflexivity. Qed.

Lemma lower_upper_char (c : ascii) : Py.lower_char (Py.upper_char c) = Py.lower_char c.
Proof. destruct c as [[] [] [] [] [] [] [] []]; reflexivity. Qed.

Lemma lower_idem (s : string) : Py.lower (Py.lower s) = Py.lower s.
Proof. induction s as [|c s IH]; simpl; [reflexivity|]. now rewrite lower_char_idem, IH. Qed.

Lemma lower_upper (s : string) : Py.lower (Py.upper s) = Py.lower s.
Proof. induction s as [|c s IH]; simpl; [reflexivity|]. now rewrite lower_upper_char, IH. Qed.

(** The lookup only sees the lower-cased tunnel name. *)
Lemma line_hit_lower (name name' line : string) :
  Py.lower name' = Py.lower name -> line_hit name' line = line_hit name line.
Proof. unfold line_hit. now intros ->. Qed.

Lemma find_in_lines_lower (name name' : string) (lines : list string) :
  Py.lower name' = Py.lower name ->
  find_in_lines name' lines = find_in_lines name lines.
Proof.
  intros H. induction lines as [|l lines IH]; [reflexivity|].
  simpl. now rewrite (line_hit_lower _ _ _ H), IH.
Qed.

(** What the search for the bracketed token returns: the text between a
    [<] and a [>] of the line, free of [>] and containing [l2tp]. *)
Lemma bracket_token (line : string) (m : Re.captures) :
  Re.search bracket_re line = Some m ->
  exists pre a b post,
    line = pre +:+ ("<" +:+ (a +:+ "l2tp" +:+ b) +:+ ">") +:+ post /\
    m = [(1%nat, a +:+ "l2tp" +:+ b)] /\
    Re.all (Re.notchr ">") a = true /\ Re.all (Re.notchr ">") b = true.
Proof.
  intros H. apply ReFacts.search_sound in H as (pre & w & post & -> & Hm).
  unfold bracket_re in Hm.
  repeat match goal with
         | H : Re.matches (Re.Cat _ _) _ _ _ _ |- _ => inversion H; subst; clear H
         | H : Re.matches (Re.Grp _ _) _ _ _ _ |- _ => inversion H; subst; clear H
         | H : Re.matches (Re.Lit _) _ _ _ _ |- _ => inversion H; subst; clear H
         | H : Re.matches (Re.Star _) _ _ _ _ |- _ => inversion H; subst; clear H
         end.
  eauto 10.
Qed.

(** A line is a candidate for a name when the lower-cased name occurs in
    the lower-cased line, the lower-cased line mentions [l2tp-], and the
    line holds a bracketed token around [l2tp]. *)
Definition candidate (name line : string) : Prop :=
  Py.contains (Py.lower name) (Py.lower line) = true /\
  Py.contains "l2tp-" (Py.lower line) = true /\
  Re.search bracket_re line <> None.

Lemma line_hit_none (name line : string) :
  ~ candidate name line -> line_hit name line = None.
Proof.
  unfold candidate, line_hit. intros H.
  destruct (Py.contains (Py.lower name) (Py.lower line)); [|reflexivity].
  destruct (Py.contains "l2tp-" (Py.lower line)); [|reflexivity].
  destruct (Re.search bracket_re line); [|reflexivity].
  exfalso. apply H. repeat split; discriminate.
Qed.

Lemma find_in_lines_first (name : string) (pre post : list string)
    (line tok : string) :
  (forall l, In l pre -> line_hit name l = None) ->
  line_hit name line = Some tok ->
  find_in_lines name (pre ++ line :: post) = Some tok.
Proof.
  intros Hpre Hline. induction pre as [|l pre IH]; simpl.
  - now rewrite Hline.
  - rewrite (Hpre l (or_introl eq_refl)). apply IH.
    intros l' Hl'. apply Hpre. now right.
Qed.

(** Among the candidate lines the first one wins (ASCII text).  Let the
    reply to the listing command split into lines [pre ++ line :: post]
    where no line of [pre] is a candidate for [name], the lower-cased
    [name] occurs in the lower-cased [line], which mentions [l2tp-] and in
    which the case-sensitive pattern finds the bracketed token [tok].
    Then [tok] stands between [<] and [>] in [line], and the lookup of any
    [name'] that equals [name] up to letter case returns [tok], after
    sending exactly the listing command.  A line whose token the pattern
    does not find is no candidate, whatever the case-insensitive tests
    say of it: see [find_tunnel_skips_upper_case_token] below. *)
Theorem find_tunnel_first_match_any_case (c : MikrotikConnection)
    (log : list string) (name output : string) (pre post : list string)
    (line tok : string) (m : Re.captures) :
  connection c = true ->
  device c log print_command = Some output ->
  Py.truthy output = true ->
  Py.split "010" output = pre ++ line :: post ->
  (forall l, In l pre -> ~ candidate name l) ->
  Py.contains (Py.lower name) (Py.lower line) = true ->
  Py.contains "l2tp-" (Py.lower line) = true ->
  Re.search bracket_re line = Some m ->
  Re.group 1 m = Some tok ->
  (exists before after, line = before +:+ ("<" +:+ tok +:+ ">") +:+ after) /\
  forall name', Py.lower name' = Py.lower name ->
    _find_l2tp_tunnel_by_name c name' log = (Some tok, log ++ [print_command]).
Proof.
  intros Hc Hdev Hout Hsplit Hpre Hname Hl2tp Hsearch Hgrp.
  split.
  { destruct (bracket_token _ _ Hsearch) as (before & a & b & after & Hline & -> & _).
    simpl in Hgrp. injection Hgrp as <-. eauto. }
  intros name' Hcase.
  unfold _find_l2tp_tunnel_by_name, bind.
  rewrite (execute_connected _ _ _ Hc), Hdev, Hout, Hsplit.
  unfold ret. f_equal.
  rewrite (find_in_lines_lower _ _ _ Hcase).
  apply find_in_lines_first.
  - intros l Hl. apply line_hit_none. now apply Hpre.
  - unfold line_hit. now rewrite Hname, Hl2tp, Hsearch.
Qed.

Definition caetite_listing : string :=
  "Flags: X - disabled, D - dynamic, R - running" +:+ "
 #     NAME                USER        MTU CLIENT-ADDRESS  UPTIME   ENCODING
 0  DR <l2tp-guanambi>     guanambi   1450 10.0.0.9        1d2h     cbc(aes)
 1  DR <l2tp-caetite>      caetite    1450 10.0.0.2        1d2h     cbc(aes)
 2  DR <l2tp-caetite-2>    caetite2   1450 10.0.0.3        1d2h     cbc(aes)
".

Definition caetite_server : MikrotikConnection :=
  {| connection := true;
     device := fun _ command =>
       if String.eqb command print_command then Some caetite_listing else None |}.

Definition caetite_line : string :=
  " 1  DR <l2tp-caetite>      caetite    1450 10.0.0.2        1d2h     cbc(aes)".

Lemma find_tunnel_first_match_any_case_witness :
  _find_l2tp_tunnel_by_name caetite_server "CAETITE" []
  = (Some "l2tp-caetite", [print_command]).
Proof.
  refine (proj2 (find_tunnel_first_match_any_case caetite_server [] "Caetite" caetite_listing
           ["Flags: X - disabled, D - dynamic, R - running";
            " #     NAME                USER        MTU CLIENT-ADDRESS  UPTIME   ENCODING";
            " 0  DR <l2tp-guanambi>     guanambi   1450 10.0.0.9        1d2h     cbc(aes)"]
           [" 2  DR <l2tp-caetite-2>    caetite2   1450 10.0.0.3        1d2h     cbc(aes)"; ""]
           caetite_line "l2tp-caetite" [(1%nat, "l2tp-caetite")]
           _ _ _ _ _ _ _ _ _) "CAETITE" _).
  - reflexivity.
  - reflexivity.
  - reflexivity.
  - vm_compute. reflexivity.
  - intros l [<-|[<-|[<-|[]]]] (H1 & H2 & H3); vm_compute in H1, H2, H3;
      try discriminate; now apply H3.
  - vm_compute. reflexivity.
  - vm_compute. reflexivity.
  - vm_compute. reflexivity.
  - reflexivity.
  - vm_compute. reflexivity.
Defined.

(** The name may be given in any letter case. *)
Lemma find_tunnel_upper (c : MikrotikConnection) (name : string) (log : list string) :
  _find_l2tp_tunnel_by_name c (Py.upper name) log = _find_l2tp_tunnel_by_name c name log.
Proof.
  unfold _find_l2tp_tunnel_by_name, bind.
  destruct (execute_command c print_command log) as [[o|] log']; [|reflexivity].
  destruct (Py.truthy o); [|reflexivity].
  unfold ret. f_equal. apply find_in_lines_lower, lower_upper.
Qed.

(** A token whose [l2tp] is not in lower case is not extracted, although
    the line passes the case-insensitive tests: the lookup moves on. *)
Example find_tunnel_upper_case_token :
  find_in_lines "Caetite"
    [" 0 R <L2TP-CAETITE> caetite 1450 10.0.0.2";
     " 1 R <l2tp-CAETITE-2> caetite 1450 10.0.0.3"] = Some "l2tp-CAETITE-2".
Proof. vm_compute. reflexivity. Qed.

(** A server that shows the tunnel of Caetite with an upper-case token,
    followed by the tunnel of Guanambi, whose user name mentions
    Caetite. *)
Definition upper_token_line : string :=
  " 0  R  <L2TP-CAETITE>      caetite    1450 10.0.0.2        1d2h     cbc(aes)".

Definition upper_token_listing : string :=
  "Flags: X - disabled, D - dynamic, R - running" +:+ "
 #     NAME                USER        MTU CLIENT-ADDRESS  UPTIME   ENCODING
 0  R  <L2TP-CAETITE>      caetite    1450 10.0.0.2        1d2h     cbc(aes)
 1  R  <l2tp-guanambi>     caetite-gw 1450 10.0.0.9        1d2h     cbc(aes)
".

Definition upper_token_server : MikrotikConnection :=
  {| connection := true;
     device := fun _ command =>
       if String.eqb command print_command then Some upper_token_listing else None |}.

(** The same server when the tunnel of Caetite is the only one. *)
Definition upper_token_only : MikrotikConnection :=
  {| connection := true;
     device := fun _ command =>
       if String.eqb command print_command
       then Some ("Flags: X - disabled, D - dynamic, R - running" +:+ "
 #     NAME                USER        MTU CLIENT-ADDRESS  UPTIME   ENCODING
 0  R  <L2TP-CAETITE>      caetite    1450 10.0.0.2        1d2h     cbc(aes)
")
       else None |}.

(** C7 on the code.  The lookup tests the name and [l2tp-] on the
    lower-cased line, but extracts the token with a case-sensitive pattern
    run on the line as it is.  On [upper_token_listing] the first line that
    mentions the name ["Caetite"], in any case, is the row of
    [<L2TP-CAETITE>]: it passes both case-insensitive tests, the pattern
    finds no token in it, and the loop moves on.  The next row mentions
    [caetite] in its user column only, and the lookup returns its token,
    [l2tp-guanambi]: neither the first matching line nor a token that
    matches the name.  [configure_l2tp_server_tunnel] then puts the
    address of Caetite on the interface of Guanambi and reports success.
    When the upper-case row is the only one, the lookup finds nothing. *)
Theorem find_tunnel_skips_upper_case_token :
  nth_error (Py.split "010" upper_token_listing) 2 = Some upper_token_line /\
  (forall l, In l (firstn 2 (Py.split "010" upper_token_listing)) ->
             Py.contains (Py.lower "Caetite") (Py.lower l) = false) /\
  Py.contains (Py.lower "Caetite") (Py.lower upper_token_line) = true /\
  Py.contains "l2tp-" (Py.lower upper_token_line) = true /\
  Re.search bracket_re upper_token_line = None /\
  _find_l2tp_tunnel_by_name upper_token_server "Caetite" []
  = (Some "l2tp-guanambi", [print_command]) /\
  configure_l2tp_server_tunnel upper_token_server "Caetite" "2804:385c:8700::11"
    "2804:385c:8700::12" "2804:385c:8700::14/126" "2804:385c:8700::12" []
  = (true, [print_command;
            add_ip_cmd "2804:385c:8700::11" "l2tp-guanambi";
            route_cmd "Caetite" "2804:385c:8700::14/126" "2804:385c:8700::12"]) /\
  _find_l2tp_tunnel_by_name upper_token_only "Caetite" [] = (None, [print_command]).
Proof.
  split; [vm_compute; reflexivity|].
  split; [intros l [<-|[<-|[]]]; vm_compute; reflexivity|].
  repeat split; vm_compute; reflexivity.
Qed.

End L2TPManagerFacts.

(** ** The MTU probe *)

Module MtuFacts.
Import ConnectivityTests.

Local Open Scope Z_scope.

Lemma last_cons (l : list Z) (a d : Z) : List.last (a :: l) d = List.last l a.
Proof.
  revert a d. induction l as [|b l IH]; intros a d; [reflexivity|].
  change (List.last (b :: l) d = List.last (b :: l) a).
  now rewrite (IH b d), (IH b a).
Qed.

Section Scan.
Variable c : MikrotikConnection.
Variable tgt : string.
Hypothesis connected : connection c = true.

(** The commands of a run that attempts the sizes [l]. *)
Definition pings (l : list Z) : list string := map (mtu_command tgt) l.

(** The reply to the probe of size [s] sent after the sizes [before]. *)
Definition reply (log : list string) (before : list Z) (s : Z) : option string :=
  device c (log ++ pings before) (mtu_command tgt s).

(** The loop: [n] sizes respond, the next one (if any) does not, the
    commands sent are those of the first [n + 1] sizes and the value
    left in [max_working_mtu] is the last responding size. *)
Lemma scan_spec (sizes : list Z) (m0 : Z) (log : list string) :
  exists n : nat,
    (n <= length sizes)%nat /\
    (forall i s, (i < n)%nat -> nth_error sizes i = Some s ->
                 responds (reply log (firstn i sizes) s) = true) /\
    (forall s, nth_error sizes n = Some s ->
               responds (reply log (firstn n sizes) s) = false) /\
    scan c tgt sizes m0 log
    = (List.last (firstn n sizes) m0, log ++ pings (firstn (S n) sizes)).
Proof.
  revert m0 log. induction sizes as [|size rest IH]; intros m0 log.
  - exists 0%nat. split; [|split; [|split]].
    + lia.
    + intros i s Hi. lia.
    + intros s Hs. discriminate.
    + simpl. unfold ret, pings. simpl. now rewrite app_nil_r.
  - cbn [scan]. unfold bind. rewrite (execute_connected _ _ _ connected).
    destruct (responds (device c log (mtu_command tgt size))) eqn:Hr.
    + destruct (IH size (log ++ [mtu_command tgt size])) as (n & Hn & Hok & Hko & Hscan).
      exists (S n). split; [|split; [|split]].
      * simpl. lia.
      * intros i s Hi Hs. destruct i as [|i].
        -- simpl in Hs. injection Hs as <-. unfold reply, pings. simpl.
           now rewrite app_nil_r.
        -- simpl in Hs. specialize (Hok i s ltac:(lia) Hs).
           unfold reply, pings in *. simpl. now rewrite <- app_assoc in Hok.
      * intros s Hs. simpl in Hs. specialize (Hko s Hs).
        unfold reply, pings in *. simpl. now rewrite <- app_assoc in Hko.
      * rewrite Hscan. f_equal.
        -- cbn [firstn]. now rewrite last_cons.
        -- unfold pings. simpl. now rewrite <- app_assoc.
    + exists 0%nat. split; [|split; [|split]].
      * lia.
      * intros i s Hi. lia.
      * intros s Hs. simpl in Hs. injection Hs as <-.
        unfold reply, pings. simpl. now rewrite app_nil_r.
      * reflexivity.
Qed.
End Scan.

(** The largest of the sizes attempted (0 when none was). *)
Definition largest (l : list Z) : Z := fold_right Z.max 0 l.

(** What [_test_mtu_ipv6] reports when the first [n] candidates respond. *)
Lemma report_prefix (n : nat) :
  (n <= length mtu_sizes)%nat ->
  exists res,
    report mtu_sizes (List.last (firstn n mtu_sizes) 0) = Ok res /\
    max_mtu res = List.last (firstn n mtu_sizes) 0 /\
    max_mtu res <= largest (firstn (S n) mtu_sizes) /\
    recommended_mtu res = (if max_mtu res <=? 20 then max_mtu res else max_mtu res - 20) /\
    tested_sizes res = firstn n mtu_sizes.
Proof.
  intros Hn.
  do 10 (destruct n as [|n];
         [eexists; split; [vm_compute; reflexivity|];
          repeat split; vm_compute; congruence|]).
  simpl in Hn. lia.
Qed.

(** The scan in terms of the code's own test of a reply, [responds]: a
    reply passes when it is not empty and contains [time=] or [received].
    The probe scans the fixed candidate list in ascending order and stops
    at the first size whose reply does not pass: for some [n], the replies
    to the first [n] candidates passed, the next one (if any) did not, and
    the commands sent are the probes of the first [n + 1] candidates.  The reported maximum is the last responding size
    (0 when none responded), never larger than the largest size attempted;
    the recommended size is the maximum minus 20 (the maximum itself when
    it is at most 20).  The reported list of tested sizes is the list of
    the sizes whose reply passed: the failing size is not part of it.  In
    particular, when the replies to 1280 and 1300 pass and the reply to
    1400 does not, the result is max 1300, recommended 1280 and tested
    list [1280; 1300].  Whether a reply that passes reports a packet
    received is another matter: see [mtu_probe_counts_lost_probes]
    below. *)
Theorem mtu_probe_scan (c : MikrotikConnection) (tgt : string) (log : list string) :
  connection c = true ->
  (exists (n : nat) (res : MtuResult),
      (n <= length mtu_sizes)%nat /\
      (forall i s, (i < n)%nat -> nth_error mtu_sizes i = Some s ->
                   responds (reply c tgt log (firstn i mtu_sizes) s) = true) /\
      (forall s, nth_error mtu_sizes n = Some s ->
                 responds (reply c tgt log (firstn n mtu_sizes) s) = false) /\
      _test_mtu_ipv6 c tgt log
      = (Ok res, log ++ pings tgt (firstn (S n) mtu_sizes)) /\
      max_mtu res = List.last (firstn n mtu_sizes) 0 /\
      max_mtu res <= largest (firstn (S n) mtu_sizes) /\
      recommended_mtu res
      = (if max_mtu res <=? 20 then max_mtu res else max_mtu res - 20) /\
      tested_sizes res = firstn n mtu_sizes)
  /\
  (responds (reply c tgt log [] 1280) = true ->
   responds (reply c tgt log [1280] 1300) = true ->
   responds (reply c tgt log [1280; 1300] 1400) = false ->
   _test_mtu_ipv6 c tgt log
   = (Ok {| max_mtu := 1300; recommended_mtu := 1280; tested_sizes := [1280; 1300] |},
      log ++ pings tgt [1280; 1300; 1400])).
Proof.
  intros Hc.
  destruct (scan_spec c tgt Hc mtu_sizes 0 log) as (n & Hn & Hok & Hko & Hscan).
  assert (Hrun : _test_mtu_ipv6 c tgt log
                 = (report mtu_sizes (List.last (firstn n mtu_sizes) 0),
                    log ++ pings tgt (firstn (S n) mtu_sizes))).
  { unfold _test_mtu_ipv6, bind. now rewrite Hscan. }
  split.
  - destruct (report_prefix n Hn) as (res & Hres & Hmax & Hle & Hrec & Htested).
    exists n, res. rewrite Hrun, Hres. repeat split; assumption.
  - intros H1280 H1300 H1400.
    assert (n = 2%nat) as ->.
    { destruct n as [|[|[|n]]].
      - pose proof (Hko 1280 eq_refl) as X.
        change (responds (reply c tgt log [] 1280) = false) in X. congruence.
      - pose proof (Hko 1300 eq_refl) as X.
        change (responds (reply c tgt log [1280] 1300) = false) in X. congruence.
      - reflexivity.
      - pose proof (Hok 2%nat 1400 ltac:(lia) eq_refl) as X.
        change (responds (reply c tgt log [1280; 1300] 1400) = true) in X. congruence. }
    rewrite Hrun. reflexivity.
Qed.

(** A device on which the probes of 1280 and 1300 bytes are answered and
    every larger one times out. *)
Definition path_1300 : MikrotikConnection :=
  {| connection := true;
     device := fun _ command =>
       if Py.contains "size=1280 " command || Py.contains "size=1300 " command
       then Some "1300 bytes from fe80::1: icmp_seq=1 ttl=64 time=1ms"
       else Some "timeout" |}.

Lemma mtu_probe_scan_witness :
  _test_mtu_ipv6 path_1300 "fe80::1" []
  = (Ok {| max_mtu := 1300; recommended_mtu := 1280; tested_sizes := [1280; 1300] |},
     pings "fe80::1" [1280; 1300; 1400]).
Proof.
  apply (proj2 (mtu_probe_scan path_1300 "fe80::1" [] eq_refl));
    vm_compute; reflexivity.
Defined.

(** On the scenario where 1280 and 1300 respond and 1400 does not, the
    tested list of the result is not [1280; 1300; 1400]. *)
Lemma mtu_tested_sizes_counterexample :
  responds (reply path_1300 "fe80::1" [] [] 1280) = true /\
  responds (reply path_1300 "fe80::1" [] [1280] 1300) = true /\
  responds (reply path_1300 "fe80::1" [] [1280; 1300] 1400) = false /\
  ~ (exists res,
       fst (_test_mtu_ipv6 path_1300 "fe80::1" []) = Ok res /\
       max_mtu res = 1300 /\ recommended_mtu res = 1280 /\
       tested_sizes res = [1280; 1300; 1400]).
Proof.
  repeat split; try (vm_compute; reflexivity).
  intros (res & Hres & _ & _ & Htested).
  vm_compute in Hres. injection Hres as <-. discriminate Htested.
Qed.

(** The reply to a probe that was lost, in the format that
    [_parse_ping_output] reads, and as RouterOS words it. *)
Definition lost_reply : string :=
  "1 packets transmitted, 0 received, 100% packet loss".

Definition lost_reply_routeros : string :=
  "sent=1 received=0 packet-loss=100%".

(** A path on which every probe is lost. *)
Definition lossy_path : MikrotikConnection :=
  {| connection := true; device := fun _ _ => Some lost_reply |}.

Definition lossy_path_routeros : MikrotikConnection :=
  {| connection := true; device := fun _ _ => Some lost_reply_routeros |}.

(** C2 on the code.  The probe takes a reply for a response as soon as it
    is not empty and contains [received], so a reply that reports 0
    packets received counts as a response.  On a path that loses every
    probe, no size yields a response (the ping parser of the same module
    reads the reply as 0 received, 100% loss, no success), and still the
    scan does not halt at 1280: it sends all nine probes and reports max
    2000, recommended 1980 and every size as tested.  And on the scenario
    where 1280 and 1300 respond and 1400 does not, the tested list is
    [1280; 1300], without the failing size. *)
Theorem mtu_probe_counts_lost_probes :
  _parse_ping_output lost_reply "fe80::1"
  = Ok {| target := "fe80::1"; success := false;
          packets_sent := 1; packets_received := 0;
          packet_loss_percent := 100%Q;
          avg_time_ms := 0%Q; min_time_ms := 0%Q; max_time_ms := 0%Q;
          times := []; raw_output := lost_reply |} /\
  responds (Some lost_reply) = true /\
  responds (Some lost_reply_routeros) = true /\
  _test_mtu_ipv6 lossy_path "fe80::1" []
  = (Ok {| max_mtu := 2000; recommended_mtu := 1980; tested_sizes := mtu_sizes |},
     pings "fe80::1" mtu_sizes) /\
  _test_mtu_ipv6 lossy_path_routeros "fe80::1" []
  = (Ok {| max_mtu := 2000; recommended_mtu := 1980; tested_sizes := mtu_sizes |},
     pings "fe80::1" mtu_sizes) /\
  _test_mtu_ipv6 path_1300 "fe80::1" []
  = (Ok {| max_mtu := 1300; recommended_mtu := 1280; tested_sizes := [1280; 1300] |},
     pings "fe80::1" [1280; 1300; 1400]).
Proof. repeat split; vm_compute; reflexivity. Qed.

End MtuFacts.

(** ** Loading the tunnel mapping *)

Module AutomationFacts.
Import Automation.

(** A well-formed line: not blank, not a comment, exactly six
    comma-separated fields. *)
Definition well_formed (line : string) : bool :=
  let line := Py.strip line in
  Py.truthy line && negb (Py.startswith "#" line)
  && Nat.eqb (length (Py.split "," line)) 6.

(** The key a well-formed line is stored under. *)
Definition tunnel_name_of (line : string) : string :=
  Py.strip (item0 (Py.split "," (Py.strip line))).

Lemma load_line_malformed (m : gmap string TunnelConfig) (line : string) :
  well_formed line = false -> load_line m line = m.
Proof.
  unfold well_formed, load_line. intros H.
  destruct (Py.truthy (Py.strip line)); [|reflexivity].
  destruct (Py.startswith "#" (Py.strip line)); [reflexivity|].
  simpl in *. now rewrite H.
Qed.

Lemma load_line_well_formed (m : gmap string TunnelConfig) (line : string) :
  well_formed line = true ->
  exists cfg, load_line m line = <[tunnel_name_of line := cfg]> m.
Proof.
  unfold well_formed, load_line, tunnel_name_of. intros H.
  destruct (Py.truthy (Py.strip line)); [|discriminate].
  destruct (Py.startswith "#" (Py.strip line)); [discriminate|].
  simpl in *. rewrite H. simpl.
  destruct (Py.split "," (Py.strip line)) as [|a [|b [|c0 [|d [|e [|f [|g l]]]]]]];
    try discriminate.
  simpl. eexists. reflexivity.
Qed.

Lemma load_fold_filter (lines : list string) (m : gmap string TunnelConfig) :
  fold_left load_line lines m = fold_left load_line (List.filter well_formed lines) m.
Proof.
  revert m. induction lines as [|line lines IH]; intros m; [reflexivity|].
  simpl. destruct (well_formed line) eqn:E.
  - simpl. apply IH.
  - rewrite (load_line_malformed _ _ E). apply IH.
Qed.

Lemma load_fold_dom (lines : list string) (m : gmap string TunnelConfig) :
  dom (fold_left load_line lines m)
  = list_to_set (map tunnel_name_of (List.filter well_formed lines)) ∪ dom m.
Proof.
  revert m. induction lines as [|line lines IH]; intros m.
  - simpl. set_solver.
  - simpl. rewrite IH. destruct (well_formed line) eqn:E.
    + destruct (load_line_well_formed m line E) as [cfg ->].
      rewrite dom_insert_L. simpl. set_solver.
    + now rewrite (load_line_malformed _ _ E).
Qed.

Lemma size_list_to_set_le (l : list string) :
  size (list_to_set l : gset string) <= length l.
Proof.
  induction l as [|x l IH].
  - rewrite list_to_set_nil, size_empty. simpl. lia.
  - rewrite list_to_set_cons, size_union_alt, size_singleton. simpl.
    pose proof (subseteq_size (list_to_set l ∖ {[x]}) (list_to_set l : gset string)
                  ltac:(set_solver)).
    lia.
Qed.

(** C8 (as the code has it).  Lines that are blank, comments or do not
    have exactly six fields are skipped: loading a file gives the same
    mappings as loading its well-formed lines only.  The mappings are keyed
    by tunnel name, so their count is the number of distinct tunnel names
    on the well-formed lines: never more than the number of well-formed
    lines, and equal to it when no tunnel name is repeated. *)
Theorem load_tunnel_mapping_count (lines : list string) :
  let good := List.filter well_formed lines in
  load_tunnel_mapping (Some lines) = load_tunnel_mapping (Some good) /\
  size (load_tunnel_mapping (Some lines))
  = size (list_to_set (map tunnel_name_of good) : gset string) /\
  size (load_tunnel_mapping (Some lines)) <= length good /\
  (NoDup (map tunnel_name_of good) ->
   size (load_tunnel_mapping (Some lines)) = length good).
Proof.
  intros good. unfold load_tunnel_mapping.
  assert (Hsize : size (fold_left load_line lines ∅)
                  = size (list_to_set (map tunnel_name_of good) : gset string)).
  { rewrite <- size_dom, load_fold_dom, dom_empty_L. f_equal. set_solver. }
  split; [|split; [|split]].
  - subst good. apply load_fold_filter.
  - exact Hsize.
  - rewrite Hsize. etransitivity; [apply size_list_to_set_le|].
    now rewrite length_map.
  - intros Hnd. rewrite Hsize, size_list_to_set by exact Hnd.
    now rewrite length_map.
Qed.

(** A file with a comment, two tunnels and a malformed line. *)
Definition two_tunnels : list string :=
  ["# tunnel_name, client_hostname, server_ip, client_ip, route_network, gateway";
   "caetite, cpe-caetite, 2804:385c:8700::11, 2804:385c:8700::12, 2804:385c:8700::14/126, 2804:385c:8700::12";
   "guanambi, cpe-guanambi";
   "";
   "guanambi, cpe-guanambi, 2804:385c:8700::21, 2804:385c:8700::22, 2804:385c:8700::24/126, 2804:385c:8700::22"].

Lemma load_tunnel_mapping_count_witness :
  NoDup (map tunnel_name_of (List.filter well_formed two_tunnels)) /\
  size (load_tunnel_mapping (Some two_tunnels)) = 2.
Proof.
  assert (H : NoDup (map tunnel_name_of (List.filter well_formed two_tunnels))).
  { vm_compute. repeat constructor; set_solver. }
  split; [exact H|].
  exact (proj2 (proj2 (proj2 (load_tunnel_mapping_count two_tunnels))) H).
Defined.

(** Two well-formed lines for the same tunnel, and a malformed one. *)
Definition repeated_tunnel : list string :=
  ["# tunnel_name, client_hostname, server_ip, client_ip, route_network, gateway";
   "caetite, cpe-caetite, 2804:385c:8700::11, 2804:385c:8700::12, 2804:385c:8700::14/126, 2804:385c:8700::12";
   "caetite, cpe-caetite-b, 2804:385c:8700::21, 2804:385c:8700::22, 2804:385c:8700::24/126, 2804:385c:8700::22";
   "guanambi, cpe-guanambi"].

(** C8 as stated fails: the file has two well-formed lines and one
    mapping is loaded. *)
Lemma load_tunnel_mapping_counterexample :
  length (List.filter well_formed repeated_tunnel) = 2 /\
  size (load_tunnel_mapping (Some repeated_tunnel)) = 1 /\
  ~ (length (List.filter well_formed repeated_tunnel)
     <= size (load_tunnel_mapping (Some repeated_tunnel))).
Proof.
  assert (H1 : length (List.filter well_formed repeated_tunnel) = 2)
    by (vm_compute; reflexivity).
  assert (H2 : size (load_tunnel_mapping (Some repeated_tunnel)) = 1)
    by (vm_compute; reflexivity).
  split; [exact H1|split; [exact H2|]]. rewrite H1, H2. lia.
Qed.

(** The later line replaces the earlier one. *)
Example repeated_tunnel_last_wins :
  client_hostname <$> load_tunnel_mapping (Some repeated_tunnel) !! "caetite"
  = Some "cpe-caetite-b".
Proof. vm_compute. reflexivity. Qed.

End AutomationFacts.

(** ** The two loops of the ping parser *)

Module PingTotal.
Import Re ReFacts ConnectivityTests.

Ltac invert H := inversion H; subst; clear H.

Lemma digit_not_dot (ch : ascii) : digit ch = true -> notchr "." ch = true.
Proof. destruct ch as [[] [] [] [] [] [] [] []]; vm_compute; congruence. Qed.

Lemma digits_not_dot (w : string) : all digit w = true -> all (notchr ".") w = true.
Proof.
  induction w as [|ch w IH]; [reflexivity|]. simpl.
  intros [Hd Hw]%andb_true_iff. now rewrite (digit_not_dot _ Hd), IH.
Qed.

Lemma split_none (sep : ascii) (w : string) :
  all (notchr sep) w = true -> Py.split sep w = [w].
Proof.
  induction w as [|ch w IH]; [reflexivity|]. simpl.
  intros [Hc Hw]%andb_true_iff. unfold notchr in Hc.
  destruct (Ascii.eqb ch sep); [discriminate|]. now rewrite (IH Hw).
Qed.

Lemma split_one (sep : ascii) (w1 w2 : string) :
  all (notchr sep) w1 = true ->
  Py.split sep (w1 +:+ String sep w2) = w1 :: Py.split sep w2.
Proof.
  induction w1 as [|ch w1 IH].
  - intros _. rewrite append_nil. simpl. now rewrite Ascii.eqb_refl.
  - simpl. intros [Hc Hw]%andb_true_iff. unfold notchr in Hc.
    rewrite ?append_cons. simpl.
    destruct (Ascii.eqb ch sep); [discriminate|]. now rewrite (IH Hw).
Qed.

Lemma digits_acc_some (w : string) (acc : Z) :
  all digit w = true -> exists z, Py.digits_acc acc w = Some z.
Proof.
  revert acc. induction w as [|ch w IH]; intros acc; [now exists acc|].
  simpl. intros [Hd Hw]%andb_true_iff. unfold digit in Hd. rewrite Hd. now apply IH.
Qed.

(** [int] of text matched by [\d+] *)
Lemma int_digits (ch : ascii) (w : string) :
  digit ch = true -> all digit w = true -> exists z, Py.int (String ch w) = Ok z.
Proof.
  intros Hd Hw. unfold Py.int.
  destruct (digits_acc_some (String ch w) 0) as [z ->]; [|now exists z].
  simpl. now rewrite Hd, Hw.
Qed.

(** The texts matched by [\d+(?:\.\d+)?] *)
Inductive number : string -> Prop :=
| number_int ch w :
    digit ch = true -> all digit w = true -> number (String ch w)
| number_dec ch w ch' w' :
    digit ch = true -> all digit w = true ->
    digit ch' = true -> all digit w' = true ->
    number (String ch w +:+ String "." (String ch' w')).

Lemma number_re_matches (pos : nat) (w : string) (c c' : captures) :
  matches number_re pos w c c' -> c' = c /\ number w.
Proof.
  unfold number_re. intros H. invert H.
  match goal with H : matches (Plus _) _ _ _ _ |- _ => invert H end.
  match goal with H : matches (Opt _) _ _ _ _ |- _ => invert H end.
  - match goal with H : matches (Cat _ _) _ _ _ _ |- _ => invert H end.
    match goal with H : matches (Lit _) _ _ _ _ |- _ => invert H end.
    match goal with H : matches (Plus _) _ _ _ _ |- _ => invert H end.
    split; [reflexivity|]. now apply number_dec.
  - split; [reflexivity|]. rewrite append_nil_r. now apply number_int.
Qed.

(** [float] of text matched by [\d+(?:\.\d+)?] *)
Lemma float_number (w : string) : number w -> exists q, Py.float w = Ok q.
Proof.
  intros [ch d Hc Hd|ch d ch' d' Hc Hd Hc' Hd']; unfold Py.float.
  - rewrite split_none by (apply digits_not_dot; simpl; now rewrite Hc, Hd).
    destruct (int_digits ch d Hc Hd) as [z ->]. eauto.
  - rewrite split_one by (apply digits_not_dot; simpl; now rewrite Hc, Hd).
    rewrite split_none by (apply digits_not_dot; simpl; now rewrite Hc', Hd').
    destruct (int_digits ch d Hc Hd) as [z ->].
    destruct (int_digits ch' d' Hc' Hd') as [z' ->]. eauto.
Qed.

Local Opaque Py.int Py.float.

Lemma ping_time_total (ping_times : list Q) (line : string) :
  exists ts, ping_time ping_times line = Ok ts.
Proof.
  unfold ping_time.
  destruct (Py.contains "time=" line && Py.contains "bytes from" line); [|eauto].
  destruct (Re.search time_re line) as [m|] eqn:Hs; [|eauto].
  apply search_sound in Hs as (pre & w & post & _ & Hm).
  unfold time_re in Hm. invert Hm.
  match goal with H : matches (Cat _ _) _ _ _ _ |- _ => invert H end.
  match goal with H : matches (Grp _ _) _ _ _ _ |- _ => invert H end.
  match goal with H : matches number_re _ _ _ _ |- _ =>
    apply number_re_matches in H as [-> Hn] end.
  repeat match goal with H : matches (Lit _) _ _ _ _ |- _ => invert H end.
  unfold grp. simpl.
  destruct (float_number _ Hn) as [q ->]. simpl. eauto.
Qed.

Lemma collect_times_total (lines : list string) (ping_times : list Q) :
  exists ts, collect_times ping_times lines = Ok ts.
Proof.
  revert ping_times. induction lines as [|line lines IH]; intros ts; [now exists ts|].
  simpl. destruct (ping_time_total ts line) as [ts' ->]. apply IH.
Qed.

Lemma stats_total (r : PingResult) (line : string) :
  exists r',
    (if Py.contains "packets transmitted" line then
       match Re.search stats_re line with
       | Some stats_match =>
           rbind (Py.int (grp 1 stats_match)) (fun sent =>
           rbind (Py.int (grp 2 stats_match)) (fun received =>
           rbind (Py.int (grp 3 stats_match)) (fun loss =>
           Ok (set_stats r sent received loss))))
       | None => Ok r
       end
     else Ok r) = Ok r' /\
    avg_time_ms r' = avg_time_ms r.
Proof.
  destruct (Py.contains "packets transmitted" line); [|eauto].
  destruct (Re.search stats_re line) as [m|] eqn:Hs; [|eauto].
  apply search_sound in Hs as (pre & w & post & _ & Hm).
  unfold stats_re in Hm.
  repeat match goal with
         | H : matches (Cat _ _) _ _ _ _ |- _ => invert H
         | H : matches (Grp _ _) _ _ _ _ |- _ => invert H
         | H : matches (Lit _) _ _ _ _ |- _ => invert H
         | H : matches (Plus _) _ _ _ _ |- _ => invert H
         end.
  unfold grp. simpl.
  repeat match goal with
         | Hd : digit ?ch = true, Hw : all digit ?w = true |- _ =>
             destruct (int_digits ch w Hd Hw) as [? ->]; clear Hd
         end.
  simpl. eauto.
Qed.

Lemma rtt_total (r : PingResult) (line : string) :
  exists r',
    (if Py.contains "round-trip" line && Py.contains "min/avg/max" line then
       match Re.search rtt_re line with
       | Some time_stats =>
           rbind (Py.float (grp 1 time_stats)) (fun mn =>
           rbind (Py.float (grp 2 time_stats)) (fun av =>
           rbind (Py.float (grp 3 time_stats)) (fun mx =>
           Ok (set_rtt r mn av mx))))
       | None => Ok r
       end
     else Ok r) = Ok r'.
Proof.
  destruct (Py.contains "round-trip" line && Py.contains "min/avg/max" line); [|eauto].
  destruct (Re.search rtt_re line) as [m|] eqn:Hs; [|eauto].
  apply search_sound in Hs as (pre & w & post & _ & Hm).
  unfold rtt_re in Hm.
  repeat match goal with
         | H : matches (Cat _ _) _ _ _ _ |- _ => invert H
         | H : matches (Grp _ _) _ _ _ _ |- _ => invert H
         | H : matches (Lit _) _ _ _ _ |- _ => invert H
         | H : matches number_re _ _ _ _ |- _ =>
             apply number_re_matches in H as [-> ?]
         end.
  unfold grp. simpl.
  repeat match goal with
         | Hn : number ?w |- _ => destruct (float_number w Hn) as [? ->]; clear Hn
         end.
  simpl. eauto.
Qed.

Lemma summary_line_total (r : PingResult) (line : string) :
  exists r', summary_line r line = Ok r'.
Proof.
  unfold summary_line.
  destruct (stats_total r line) as (r1 & -> & _). simpl.
  apply rtt_total.
Qed.

Lemma summary_lines_total (lines : list string) (r : PingResult) :
  exists r', summary_lines r lines = Ok r'.
Proof.
  revert r. induction lines as [|line lines IH]; intros r; [now exists r|].
  simpl. destruct (summary_line_total r line) as [r' ->]. apply IH.
Qed.

(** In this model, where [int] is unbounded and [float] exact, the
    parser runs its two loops to the end whatever the text and hands their
    results to the fallback block. *)
Lemma parse_ping_loops (output tgt : string) :
  exists ping_times r,
    collect_times [] (Py.split "010" output) = Ok ping_times /\
    summary_lines (initial output tgt) (Py.split "010" output) = Ok r /\
    _parse_ping_output output tgt = fallback r ping_times.
Proof.
  destruct (collect_times_total (Py.split "010" output) []) as [ts Hts].
  destruct (summary_lines_total (Py.split "010" output) (initial output tgt)) as [r Hr].
  exists ts, r. unfold _parse_ping_output. now rewrite Hts, Hr.
Qed.

Local Transparent Py.int Py.float.

End PingTotal.

(** ** The ping parser *)

Module PingFacts.
Import ConnectivityTests.

Local Open Scope Q_scope.

Definition summary_text : string :=
  "4 packets transmitted, 4 received, 0% packet loss".

Definition rtt_text : string := "round-trip min/avg/max = 15/15/16 ms".

(** A line that is neither a summary line nor a round-trip line, such as
    a per-packet line. *)
Definition quiet (line : string) : Prop :=
  Py.contains "packets transmitted" line = false /\
  Py.contains "round-trip" line = false.

Definition summary_result (output tgt : string) : PingResult :=
  {| target := tgt; success := true; packets_sent := 4; packets_received := 4;
     packet_loss_percent := 0; avg_time_ms := 15; min_time_ms := 15;
     max_time_ms := 16; times := []; raw_output := output |}.

Lemma summary_line_quiet (r : PingResult) (line : string) :
  quiet line -> summary_line r line = Ok r.
Proof. intros [H1 H2]. unfold summary_line. now rewrite H1, H2. Qed.

Lemma summary_lines_quiet (r : PingResult) (lines : list string) :
  Forall quiet lines -> summary_lines r lines = Ok r.
Proof.
  induction 1 as [|line lines Hq _ IH]; [reflexivity|].
  simpl. now rewrite (summary_line_quiet _ _ Hq).
Qed.

Lemma summary_lines_app (r : PingResult) (l1 l2 : list string) :
  summary_lines r (l1 ++ l2)
  = rbind (summary_lines r l1) (fun r' => summary_lines r' l2).
Proof.
  revert r. induction l1 as [|line l1 IH]; intros r; [reflexivity|].
  simpl. destruct (summary_line r line); [apply IH|reflexivity].
Qed.

(** C6.  Ping output that contains the summary line
    [4 packets transmitted, 4 received, 0% packet loss] and, after it, the
    line [round-trip min/avg/max = 15/15/16 ms], among any lines that are
    not themselves summary or round-trip lines, parses to a record with
    packets_sent 4, packets_received 4, packet_loss 0, success true,
    min 15, avg 15 and max 16. *)
Theorem parse_ping_summary (output tgt : string) (pre mid post : list string) :
  Py.split "010" output = pre ++ summary_text :: mid ++ rtt_text :: post ->
  Forall quiet pre -> Forall quiet mid -> Forall quiet post ->
  exists r,
    _parse_ping_output output tgt = Ok r /\
    packets_sent r = 4%Z /\ packets_received r = 4%Z /\
    packet_loss_percent r = 0 /\ success r = true /\
    min_time_ms r = 15 /\ avg_time_ms r = 15 /\ max_time_ms r = 16.
Proof.
  intros Hsplit Hpre Hmid Hpost.
  destruct (PingTotal.parse_ping_loops output tgt) as (ts & r & _ & Hr & ->).
  assert (r = set_rtt (set_stats (initial output tgt) 4 4 0) 15 15 16) as ->.
  { rewrite Hsplit, summary_lines_app, (summary_lines_quiet _ _ Hpre) in Hr.
    cbn [rbind summary_lines] in Hr.
    change (summary_line (initial output tgt) summary_text)
      with (Ok (set_stats (initial output tgt) 4 4 0)) in Hr.
    cbn [rbind] in Hr.
    rewrite summary_lines_app, (summary_lines_quiet _ _ Hmid) in Hr.
    cbn [rbind summary_lines] in Hr.
    change (summary_line (set_stats (initial output tgt) 4 4 0) rtt_text)
      with (Ok (set_rtt (set_stats (initial output tgt) 4 4 0) 15 15 16)) in Hr.
    cbn [rbind] in Hr.
    rewrite (summary_lines_quiet _ _ Hpost) in Hr. now injection Hr. }
  eexists. split.
  - unfold fallback. cbn [set_rtt avg_time_ms].
    change (Qeq_bool 15 0) with false. rewrite andb_false_r. reflexivity.
  - repeat split.
Qed.

(** Summary line and round-trip line, as a device prints them after the
    per-packet lines. *)
Definition summary_output : string :=
  "64 bytes from 2001:4860:4860::8888: icmp_seq=1 ttl=119 time=15ms
64 bytes from 2001:4860:4860::8888: icmp_seq=2 ttl=119 time=15ms
64 bytes from 2001:4860:4860::8888: icmp_seq=3 ttl=119 time=16ms
64 bytes from 2001:4860:4860::8888: icmp_seq=4 ttl=119 time=15ms
4 packets transmitted, 4 received, 0% packet loss
round-trip min/avg/max = 15/15/16 ms".

Lemma parse_ping_summary_witness :
  exists r,
    _parse_ping_output summary_output "2001:4860:4860::8888" = Ok r /\
    packets_sent r = 4%Z /\ packets_received r = 4%Z /\
    packet_loss_percent r = 0 /\ success r = true /\
    min_time_ms r = 15 /\ avg_time_ms r = 15 /\ max_time_ms r = 16.
Proof.
  apply (parse_ping_summary summary_output "2001:4860:4860::8888"
           ["64 bytes from 2001:4860:4860::8888: icmp_seq=1 ttl=119 time=15ms";
            "64 bytes from 2001:4860:4860::8888: icmp_seq=2 ttl=119 time=15ms";
            "64 bytes from 2001:4860:4860::8888: icmp_seq=3 ttl=119 time=16ms";
            "64 bytes from 2001:4860:4860::8888: icmp_seq=4 ttl=119 time=15ms"]
           [] []).
  - vm_compute. reflexivity.
  - repeat constructor.
  - constructor.
  - constructor.
Defined.

(** The whole record for that output: the per-packet times are not kept
    once a summary was parsed. *)
Example parse_summary_output (tgt : string) :
  _parse_ping_output summary_output tgt = Ok (summary_result summary_output tgt).
Proof. vm_compute. reflexivity. Qed.

(** Whenever the reply has per-packet times and no summary or round-trip
    line at all, the parser raises. *)
Lemma per_packet_only_raises (output tgt : string) (ping_times : list Q) :
  Forall quiet (Py.split "010" output) ->
  collect_times [] (Py.split "010" output) = Ok ping_times ->
  ping_times <> [] ->
  _parse_ping_output output tgt = Raise ZeroDivisionError.
Proof.
  intros Hq Hts Hne. unfold _parse_ping_output.
  rewrite Hts, (summary_lines_quiet _ _ Hq). cbn [rbind].
  destruct ping_times as [|t ts]; [congruence|].
  unfold fallback. cbn [length Nat.eqb negb initial avg_time_ms packets_sent andb].
  change (Qeq_bool 0 0) with true. cbn iota.
  unfold truediv at 1.
  destruct (Qeq_bool (inject_Z (Z.of_nat (S (length ts)))) 0) eqn:E.
  - apply Qeq_bool_iff in E. unfold Qeq, inject_Z in E. simpl in E. lia.
  - reflexivity.
Qed.

(** Three per-packet lines and no summary. *)
Definition per_packet_output : string :=
  "64 bytes from 2001:4860:4860::8888: icmp_seq=1 ttl=119 time=12ms
64 bytes from 2001:4860:4860::8888: icmp_seq=2 ttl=119 time=14ms
64 bytes from 2001:4860:4860::8888: icmp_seq=3 ttl=119 time=10ms".

Definition replies_with (text : string) : MikrotikConnection :=
  {| connection := true; device := fun _ _ => Some text |}.

(** C5 on the code.  The three times are collected and no summary is
    found, so [packets_sent] still holds its initial 0 when the fallback
    divides by it: the parser raises [ZeroDivisionError] instead of
    returning average 12, min 10, max 14 and success; [_ping_ipv6] turns
    the exception into a result without success. *)
Theorem parse_ping_per_packet_only (tgt : string) :
  let lines := Py.split "010" per_packet_output in
  collect_times [] lines = Ok [12; 14; 10] /\
  summary_lines (initial per_packet_output tgt) lines = Ok (initial per_packet_output tgt) /\
  truediv (list_sum [12; 14; 10]) 3 = Ok 12 /\
  list_min [12; 14; 10] = 10 /\ list_max [12; 14; 10] = 14 /\
  _parse_ping_output per_packet_output tgt = Raise ZeroDivisionError /\
  fst (_ping_ipv6 (replies_with per_packet_output) tgt 4 [])
  = NoResult tgt (Some ZeroDivisionError).
Proof. repeat split; vm_compute; reflexivity. Qed.

End PingFacts.

(** ** Parsers and malformed text *)

Module ParserFacts.
Import ConnectivityTests.

(** C4 on the code.  The L2TP server parser and the route parser are
    total, but two record parsers raise on text they can receive: the ping
    parser on a reply that has a per-packet line and no summary
    ([ZeroDivisionError], from the fallback block), and the address parser
    on an entry line of two to four fields ([IndexError]). *)
Theorem record_parsers_raise (tgt : string) :
  _parse_ping_output "64 bytes from fe80::1: icmp_seq=1 ttl=64 time=1ms" tgt
  = Raise ZeroDivisionError /\
  IPv6Config._parse_ipv6_addresses " 0  G ;;; uplink" = Raise IndexError.
Proof. split; vm_compute; reflexivity. Qed.

(** The callers absorb the exception: the address query returns no
    record at all. *)
Example list_addresses_after_index_error :
  fst (IPv6Config.list_ipv6_addresses
         (PingFacts.replies_with " 0  G ;;; uplink
 1  G 2804:385c:8700::11/126 l2tp-caetite no
 2  G 2804:385c:8700::15/126 l2tp-caetite no") (Some "l2tp-caetite") []) = [].
Proof. vm_compute. reflexivity. Qed.

End ParserFacts.

(** ** Adding and removing addresses and routes *)

Module ConfigFacts.
Import IPv6Config.

Lemma list_addresses_log (c : MikrotikConnection) (interface : option string)
    (log : list string) :
  connection c = true ->
  snd (list_ipv6_addresses c interface log) = log ++ [list_command interface].
Proof.
  intros Hc. unfold list_ipv6_addresses, is_connected, bind.
  rewrite Hc. cbn [negb]. cbv beta. rewrite (execute_connected _ _ _ Hc).
  destruct (device c log (list_command interface)) as [o|]; [|reflexivity].
  destruct (Py.truthy o); [|reflexivity].
  destruct (_parse_ipv6_addresses o); reflexivity.
Qed.

Lemma list_addresses_disconnected (c : MikrotikConnection) (interface : option string)
    (log : list string) :
  connection c = false -> list_ipv6_addresses c interface log = ([], log).
Proof. intros Hc. unfold list_ipv6_addresses, is_connected. now rewrite Hc. Qed.

Lemma address_exists_spec (c : MikrotikConnection) (interface address : string)
    (log : list string) :
  _address_exists c interface address log
  = (existsb (same_host address) (fst (list_ipv6_addresses c (Some interface) log)),
     snd (list_ipv6_addresses c (Some interface) log)).
Proof.
  unfold _address_exists, bind.
  now destruct (list_ipv6_addresses c (Some interface) log).
Qed.

Lemma find_address_id_spec (c : MikrotikConnection) (interface address : string)
    (log : list string) :
  _find_address_id c interface address log
  = (option_map a_id
       (List.find (same_host address) (fst (list_ipv6_addresses c (Some interface) log))),
     snd (list_ipv6_addresses c (Some interface) log)).
Proof.
  unfold _find_address_id, bind.
  now destruct (list_ipv6_addresses c (Some interface) log).
Qed.

(** The comparison of [_address_exists] is on the host part: when the
    query returns a record with the host part of the requested address,
    whatever the prefix lengths, [add_ipv6_address] reports success and
    sends nothing but the query. *)
Lemma add_skips_listed_address (c : MikrotikConnection) (interface address : string)
    (advertise : bool) (comment : option string) (log : list string)
    (r : AddressRecord) :
  In r (fst (list_ipv6_addresses c (Some interface) log)) ->
  item0 (Py.split "/" (a_address r)) = check_address address ->
  add_ipv6_address c interface address advertise comment log
  = (true, log ++ [list_command (Some interface)]).
Proof.
  intros Hin Hhost.
  destruct (connection c) eqn:Hc.
  2:{ rewrite (list_addresses_disconnected _ _ _ Hc) in Hin. destruct Hin. }
  unfold add_ipv6_address, is_connected, bind. rewrite Hc. simpl.
  rewrite address_exists_spec, (list_addresses_log _ _ _ Hc).
  assert (E : existsb (same_host address)
                (fst (list_ipv6_addresses c (Some interface) log)) = true).
  { apply existsb_exists. exists r. split; [exact Hin|].
    unfold same_host. rewrite Hhost. apply String.eqb_refl. }
  now rewrite E.
Qed.

(** The listing of an interface that holds one address. *)
Definition one_address_listing : string :=
  "Flags: X - disabled, I - invalid, D - dynamic, G - global, L - link-local" +:+ "
 #    ADDRESS                                     FROM-POOL INTERFACE      ADVERTISE
 0  G 2804:385c:8700::11/126                                l2tp-caetite   no
".

Definition two_address_listing : string :=
  "Flags: X - disabled, I - invalid, D - dynamic, G - global, L - link-local" +:+ "
 #    ADDRESS                                     FROM-POOL INTERFACE      ADVERTISE
 0  G 2804:385c:8700::11/126                                l2tp-caetite   no
 1  G 2804:385c:8700::15/126                                l2tp-caetite   no
".

(** A device that holds the addresses of [listing] and refuses to add an
    address again. *)
Definition holding (listing : string) : MikrotikConnection :=
  {| connection := true;
     device := fun _ command =>
       if Py.startswith "/ipv6 address print" command then Some listing
       else if Py.startswith "/ipv6 address add" command
            then Some "failure: already have such address"
            else None |}.

(** C3 on the code.  The listing of the interface shows
    2804:385c:8700::11/126, yet the parser returns no record for it (the
    entry still held when the loop ends is never appended), the existence
    check fails and the add command is sent.  With a second entry after
    it the same address is found and the request is skipped. *)
Theorem add_address_listed_last :
  _parse_ipv6_addresses one_address_listing = Ok [] /\
  add_ipv6_address (holding one_address_listing)
    "l2tp-caetite" "2804:385c:8700::11/64" false None []
  = (false,
     ["/ipv6 address print where interface=l2tp-caetite";
      "/ipv6 address add address=2804:385c:8700::11/64 interface=l2tp-caetite advertise=no"]) /\
  add_ipv6_address (holding two_address_listing)
    "l2tp-caetite" "2804:385c:8700::11/64" false None []
  = (true, ["/ipv6 address print where interface=l2tp-caetite"]) /\
  add_ipv6_address (holding two_address_listing)
    "l2tp-caetite" "2804:385c:8700::15/64" false None []
  = (false,
     ["/ipv6 address print where interface=l2tp-caetite";
      "/ipv6 address add address=2804:385c:8700::15/64 interface=l2tp-caetite advertise=no"]).
Proof. repeat split; vm_compute; reflexivity. Qed.

End ConfigFacts.

(** ** The reply to an add command *)

Module ReplyFacts.
Import IPv6Config L2TPManager.

Definition address_marker : string := "already have such address".
Definition route_marker : string := "already have such route".

Lemma add_after_query (c : MikrotikConnection) (interface address : string)
    (advertise : bool) (comment : option string) (log log1 : list string) :
  connection c = true ->
  _address_exists c interface address log = (false, log1) ->
  add_ipv6_address c interface address advertise comment log
  = (negb (rejected (device c log1 (add_command interface address advertise comment))),
     log1 ++ [add_command interface address advertise comment]).
Proof.
  intros Hc Hq. unfold add_ipv6_address, is_connected, bind.
  rewrite Hc. cbn [negb]. rewrite Hq. rewrite (execute_connected _ _ _ Hc).
  now destruct (rejected _).
Qed.

Lemma configure_after_lookup (c : MikrotikConnection)
    (tunnel_name server_ip client_ip route_network route_gateway : string)
    (log log1 : list string) (ti : string) :
  connection c = true ->
  _find_l2tp_tunnel_by_name c tunnel_name log = (Some ti, log1) ->
  Py.truthy ti = true ->
  configure_l2tp_server_tunnel c tunnel_name server_ip client_ip route_network
    route_gateway log
  = match classify address_marker (device c log1 (add_ip_cmd server_ip ti)) with
    | Failed => (false, log1 ++ [add_ip_cmd server_ip ti])
    | _ =>
        (match classify route_marker
                 (device c (log1 ++ [add_ip_cmd server_ip ti])
                    (route_cmd tunnel_name route_network route_gateway)) with
         | Failed => false
         | _ => true
         end,
         log1 ++ [add_ip_cmd server_ip ti;
                  route_cmd tunnel_name route_network route_gateway])
    end.
Proof.
  intros Hc Hfind Hti. unfold configure_l2tp_server_tunnel, is_connected, bind.
  rewrite Hc. cbn [negb]. rewrite Hfind, Hti. cbn [negb].
  rewrite (execute_connected _ _ _ Hc).
  fold address_marker route_marker.
  destruct (classify address_marker _); try reflexivity;
    rewrite (execute_connected _ _ _ Hc), <- app_assoc;
    now destruct (classify route_marker _).
Qed.

(** C1 (as the code has it).  A reply with a rejection marker
    (case-insensitive "syntax error" or "failure") and without the
    conflict marker "already have such address" fails the operation, in
    [add_ipv6_address] and in [configure_l2tp_server_tunnel] alike.  A
    reply with the conflict marker is a success of the address step of
    [configure_l2tp_server_tunnel] (already there when it also has a
    rejection marker, added otherwise): the route command is sent next
    and decides the outcome.  [add_ipv6_address] does not look for the
    conflict marker: its outcome is failure exactly when the reply has a
    rejection marker. *)
Theorem add_reply_outcome :
  (forall (c : MikrotikConnection) (interface address : string) (advertise : bool)
          (comment : option string) (log log1 : list string),
      connection c = true ->
      _address_exists c interface address log = (false, log1) ->
      let command := add_command interface address advertise comment in
      add_ipv6_address c interface address advertise comment log
      = (negb (rejected (device c log1 command)), log1 ++ [command]))
  /\
  (forall (c : MikrotikConnection)
          (tunnel_name server_ip client_ip route_network route_gateway : string)
          (log log1 : list string) (ti : string),
      connection c = true ->
      _find_l2tp_tunnel_by_name c tunnel_name log = (Some ti, log1) ->
      Py.truthy ti = true ->
      let add := add_ip_cmd server_ip ti in
      let route := route_cmd tunnel_name route_network route_gateway in
      let reply := device c log1 add in
      let run := configure_l2tp_server_tunnel c tunnel_name server_ip client_ip
                   route_network route_gateway log in
      (rejected reply = true -> has_marker address_marker reply = false ->
       classify address_marker reply = Failed /\ run = (false, log1 ++ [add]))
      /\
      (has_marker address_marker reply = true ->
       classify address_marker reply = (if rejected reply then Skipped else Applied) /\
       run = (match classify route_marker (device c (log1 ++ [add]) route) with
              | Failed => false
              | _ => true
              end, log1 ++ [add; route]))).
Proof.
  split.
  - intros c interface address advertise comment log log1 Hc Hq command.
    now apply add_after_query.
  - intros c tunnel_name server_ip client_ip route_network route_gateway log log1 ti
           Hc Hfind Hti add route reply run.
    subst run.
    rewrite (configure_after_lookup c tunnel_name server_ip client_ip route_network
               route_gateway log log1 ti Hc Hfind Hti).
    fold add route reply. split.
    + intros Hrej Hmark. unfold classify. rewrite Hrej, Hmark. now split.
    + intros Hmark. unfold classify at 1 2. rewrite Hmark.
      destruct (rejected reply); now split.
Qed.

(** A server whose tunnel already carries the address: the add command is
    answered with the conflict, the route command is accepted. *)
Definition tunnel_server : MikrotikConnection :=
  {| connection := true;
     device := fun _ command =>
       if String.eqb command print_command
       then Some L2TPManagerFacts.caetite_listing
       else if Py.startswith "/ipv6 address add" command
            then Some "failure: already have such address"
            else Some EmptyString |}.

Lemma add_reply_outcome_witness :
  configure_l2tp_server_tunnel tunnel_server "Caetite" "2804:385c:8700::11"
    "2804:385c:8700::12" "2804:385c:8700::14/126" "2804:385c:8700::12" []
  = (true,
     [print_command;
      add_ip_cmd "2804:385c:8700::11" "l2tp-caetite";
      route_cmd "Caetite" "2804:385c:8700::14/126" "2804:385c:8700::12"]).
Proof.
  refine (proj2 (proj2 (proj2 add_reply_outcome tunnel_server "Caetite"
            "2804:385c:8700::11" "2804:385c:8700::12" "2804:385c:8700::14/126"
            "2804:385c:8700::12" [] [print_command] "l2tp-caetite" _ _ _) _));
    vm_compute; reflexivity.
Defined.

(** C1 as stated fails in [add_ipv6_address]: the reply to the add
    command carries the conflict marker and the operation returns
    failure. *)
Lemma add_conflict_counterexample :
  has_marker address_marker
    (device (ConfigFacts.holding ConfigFacts.one_address_listing)
       ["/ipv6 address print where interface=l2tp-caetite"]
       (add_command "l2tp-caetite" "2804:385c:8700::11/126" false None)) = true /\
  add_ipv6_address (ConfigFacts.holding ConfigFacts.one_address_listing)
    "l2tp-caetite" "2804:385c:8700::11/126" false None []
  = (false,
     ["/ipv6 address print where interface=l2tp-caetite";
      add_command "l2tp-caetite" "2804:385c:8700::11/126" false None]).
Proof. split; vm_compute; reflexivity. Qed.

End ReplyFacts.

(** ** Removing what is not there *)

Module RemoveFacts.
Import ConfigFacts.

Lemma list_routes_log (c : MikrotikConnection) (dst_address : option string)
    (log : list string) :
  connection c = true ->
  snd (Routes.list_ipv6_routes c dst_address log)
  = log ++ [Routes.list_command dst_address].
Proof.
  intros Hc. unfold Routes.list_ipv6_routes, is_connected, bind.
  rewrite Hc. cbn [negb]. cbv beta. rewrite (execute_connected _ _ _ Hc).
  destruct (device c log (Routes.list_command dst_address)) as [o|]; [|reflexivity].
  now destruct (Py.truthy o).
Qed.

Lemma find_none (address : string) (addresses : list IPv6Config.AddressRecord) :
  (forall r, In r addresses ->
             item0 (Py.split "/" (IPv6Config.a_address r))
             <> IPv6Config.check_address address) ->
  List.find (IPv6Config.same_host address) addresses = None.
Proof.
  intros H. induction addresses as [|r l IH]; [reflexivity|].
  simpl. destruct (IPv6Config.same_host address r) eqn:E.
  - exfalso. apply (H r (or_introl eq_refl)).
    unfold IPv6Config.same_host in E. now apply String.eqb_eq in E.
  - apply IH. intros r' Hr'. apply H. now right.
Qed.

Lemma find_id_none (dst_address : string) (gateway : option string)
    (routes : list (gmap string string)) :
  (forall r, In r routes ->
             ~ (r !! "dst_address" = Some dst_address /\
                (gateway = None \/ r !! "gateway" = gateway))) ->
  Routes.find_id dst_address gateway routes = None.
Proof.
  intros H. induction routes as [|r l IH]; [reflexivity|].
  simpl. destruct (Routes.route_matches dst_address gateway r) eqn:E.
  - exfalso. apply (H r (or_introl eq_refl)).
    unfold Routes.route_matches in E. apply andb_true_iff in E as [Ed Eg].
    apply bool_decide_eq_true in Ed. split; [exact Ed|].
    destruct gateway as [g|]; [right|now left].
    now apply bool_decide_eq_true in Eg.
  - apply IH. intros r' Hr'. apply H. now right.
Qed.

(** C10.  Removal of what is not there succeeds without a remove command.
    When no record of the address query of the interface has the host
    part of the address, [remove_ipv6_address] returns [True] and the only
    command sent is the query; when no record of the route query has the
    destination (and the gateway, if one is given), [remove_ipv6_route]
    returns [True] and the only command sent is the query. *)
Theorem remove_absent_succeeds :
  (forall (c : MikrotikConnection) (interface address : string) (log : list string),
      connection c = true ->
      (forall r, In r (fst (IPv6Config.list_ipv6_addresses c (Some interface) log)) ->
                 item0 (Py.split "/" (IPv6Config.a_address r))
                 <> IPv6Config.check_address address) ->
      IPv6Config.remove_ipv6_address c interface address log
      = (true, log ++ [IPv6Config.list_command (Some interface)]))
  /\
  (forall (c : MikrotikConnection) (dst_address : string) (gateway : option string)
          (log : list string),
      connection c = true ->
      (forall r, In r (fst (Routes.list_ipv6_routes c None log)) ->
                 ~ (r !! "dst_address" = Some dst_address /\
                    (gateway = None \/ r !! "gateway" = gateway))) ->
      Routes.remove_ipv6_route c dst_address gateway log
      = (true, log ++ [Routes.list_command None])).
Proof.
  split.
  - intros c interface address log Hc Habsent.
    unfold IPv6Config.remove_ipv6_address, is_connected, bind.
    rewrite Hc. cbn [negb].
    rewrite find_address_id_spec, (find_none _ _ Habsent),
      (list_addresses_log _ _ _ Hc).
    reflexivity.
  - intros c dst_address gateway log Hc Habsent.
    unfold Routes.remove_ipv6_route, Routes._find_route_id, is_connected, bind.
    rewrite Hc. cbn [negb].
    pose proof (list_routes_log c None log Hc) as Hlog.
    destruct (Routes.list_ipv6_routes c None log) as [routes log1].
    simpl in Hlog, Habsent. subst log1.
    now rewrite (find_id_none _ _ _ Habsent).
Qed.

(** A device with one route and two addresses. *)
Definition route_listing : string :=
  "Flags: X - disabled, A - active, D - dynamic, S - static" +:+ "
 0 A S dst-address=2804:385c:8700::14/126 gateway=2804:385c:8700::12 distance=1
".

Definition router : MikrotikConnection :=
  {| connection := true;
     device := fun _ command =>
       if Py.startswith "/ipv6 address print" command then Some two_address_listing
       else if Py.startswith "/ipv6 route print" command then Some route_listing
       else None |}.

Lemma remove_absent_succeeds_witness :
  IPv6Config.remove_ipv6_address router "l2tp-caetite" "2804:385c:8700::99/126" []
  = (true, ["/ipv6 address print where interface=l2tp-caetite"]) /\
  Routes.remove_ipv6_route router "2804:385c:8700::14/126"
    (Some "2804:385c:8700::13") []
  = (true, ["/ipv6 route print"]).
Proof.
  split.
  - apply (proj1 remove_absent_succeeds router "l2tp-caetite"
                   "2804:385c:8700::99/126" [] eq_refl).
    intros r Hr. vm_compute in Hr. destruct Hr as [<-|[]].
    vm_compute. discriminate.
  - apply (proj2 remove_absent_succeeds router "2804:385c:8700::14/126"
                   (Some "2804:385c:8700::13") [] eq_refl).
    intros r Hr [_ [Hg|Hg]]; [discriminate|].
    vm_compute in Hr. destruct Hr as [<-|[]].
    vm_compute in Hg. discriminate.
Defined.

(** When the record is found, the remove command carries its id. *)
Example remove_listed_route :
  Routes.remove_ipv6_route router "2804:385c:8700::14/126" None []
  = (true, ["/ipv6 route print"; "/ipv6 route remove 0"]).
Proof. vm_compute. reflexivity. Qed.

End RemoveFacts.

(** * Further properties of the code *)

(** ** The address listing parser, in general *)

Module AddressParserFacts.
Import IPv6Config.

(** Lines the loop passes over: blank, the [Flags:] legend, the column
    header. *)
Definition skipped (line : string) : bool :=
  let line := Py.strip line in
  negb (Py.truthy line) || Py.contains "Flags:" line
  || (Py.contains "#" line && Py.contains "ADDRESS" line).

(** Entry lines: not passed over, starting with a number. *)
Definition numbered (line : string) : bool :=
  negb (skipped line) &&
  match Re.rmatch entry_re (Py.strip line) with
  | Some _ => true
  | None => false
  end.

(** The record an entry line of five fields or more stands for. *)
Definition entry_record (line : string) : option AddressRecord :=
  if numbered line then
    match Py.split_ws (Py.strip line) with
    | p0 :: p1 :: p2 :: p3 :: p4 :: rest =>
        Some {| a_id := p0; a_flags := p1; a_address := p2; a_interface := p3;
                a_advertise := String.eqb p4 "yes";
                a_comment := nth_error (p0 :: p1 :: p2 :: p3 :: p4 :: rest) 5 |}
    | _ => None
    end
  else None.

(** Everything the loop holds: the list and the entry in progress. *)
Definition held (st : list AddressRecord * option AddressRecord) : list AddressRecord :=
  fst st ++ option_list (snd st).

Lemma parse_line_entry (st : list AddressRecord * option AddressRecord) (line : string) :
  (numbered line = true -> 5 <= length (Py.split_ws (Py.strip line))) ->
  parse_line st line
  = Ok (match entry_record line with
        | Some r => (held st, Some r)
        | None => st
        end).
Proof.
  intros Hlen. unfold parse_line, entry_record, numbered, skipped in *.
  destruct (negb (Py.truthy (Py.strip line)) || Py.contains "Flags:" (Py.strip line)
            || (Py.contains "#" (Py.strip line) && Py.contains "ADDRESS" (Py.strip line)));
    [reflexivity|].
  cbn [negb andb] in *.
  destruct (Re.rmatch entry_re (Py.strip line)); [|reflexivity].
  specialize (Hlen eq_refl).
  destruct (Py.split_ws (Py.strip line)) as [|p0 [|p1 [|p2 [|p3 [|p4 rest]]]]];
    simpl in Hlen; try lia.
  unfold held. destruct st as [addresses [e|]]; simpl; [reflexivity|].
  now rewrite app_nil_r.
Qed.

Lemma parse_lines_held (lines : list string)
    (st : list AddressRecord * option AddressRecord) :
  (forall line, In line lines -> numbered line = true ->
                5 <= length (Py.split_ws (Py.strip line))) ->
  exists st',
    parse_lines st lines = Ok st' /\
    held st' = held st ++ omap entry_record lines /\
    (omap entry_record lines = [] -> st' = st) /\
    (omap entry_record lines <> [] -> snd st' <> None).
Proof.
  revert st. induction lines as [|line lines IH]; intros st Hlen.
  - exists st. simpl. rewrite app_nil_r. now repeat split.
  - cbn [parse_lines].
    rewrite (parse_line_entry st line (Hlen line (or_introl eq_refl))).
    cbn [rbind omap list_omap].
    destruct (entry_record line) as [r|] eqn:Hr.
    + destruct (IH (held st, Some r)) as (st' & Hrun & Hheld & Hnone & Hsome).
      { intros l Hl. apply Hlen. now right. }
      exists st'. split; [exact Hrun|]. split; [|split].
      * rewrite Hheld. unfold held at 1. simpl. now rewrite <- app_assoc.
      * discriminate.
      * intros _. destruct (omap entry_record lines) eqn:E.
        -- rewrite (Hnone eq_refl). discriminate.
        -- apply Hsome. discriminate.
    + destruct (IH st) as (st' & Hrun & Hheld & Hnone & Hsome).
      { intros l Hl. apply Hlen. now right. }
      exists st'. now repeat split.
Qed.

(** X1.  On a listing whose entry lines all have five fields or more,
    [_parse_ipv6_addresses] returns the records of the entry lines in
    order, all but the last one. *)
Theorem parse_addresses_all_but_last (output : string) :
  (forall line, In line (Py.split "010" output) -> numbered line = true ->
                5 <= length (Py.split_ws (Py.strip line))) ->
  _parse_ipv6_addresses output
  = Ok (removelast (omap entry_record (Py.split "010" output))).
Proof.
  intros Hlen. unfold _parse_ipv6_addresses.
  destruct (parse_lines_held _ ([], None) Hlen) as (st' & -> & Hheld & Hnone & Hsome).
  cbn [rbind]. f_equal.
  destruct (omap entry_record (Py.split "010" output)) as [|r recs] eqn:E.
  - now rewrite (Hnone eq_refl).
  - destruct st' as [addresses [e|]].
    + unfold held in Hheld. simpl in Hheld. rewrite <- Hheld.
      now rewrite removelast_last.
    + exfalso. now apply Hsome.
Qed.

Lemma parse_addresses_all_but_last_witness :
  _parse_ipv6_addresses ConfigFacts.two_address_listing
  = Ok [{| a_id := "0"; a_flags := "G"; a_address := "2804:385c:8700::11/126";
           a_interface := "l2tp-caetite"; a_advertise := false; a_comment := None |}].
Proof.
  refine (eq_trans (parse_addresses_all_but_last ConfigFacts.two_address_listing _) _).
  - intros line Hin Hnum. vm_compute in Hin.
    repeat (destruct Hin as [<-|Hin]; [try (vm_compute in Hnum; discriminate);
                                       vm_compute; lia|]).
    destruct Hin.
  - vm_compute. reflexivity.
Defined.

End AddressParserFacts.

(** ** The route listing parser, in general *)

Module RouteParserFacts.
Import Routes.

Lemma split_ws_nil_blank (s : string) :
  Py.split_ws s = [] -> Re.all Py.isspace s = true.
Proof.
  induction s as [|c s IH]; [reflexivity|]. simpl.
  destruct (Py.isspace c); [exact IH|].
  destruct s as [|d s]; [discriminate|].
  destruct (Py.isspace d); [discriminate|].
  destruct (Py.split_ws (String d s)); discriminate.
Qed.

Lemma rstrip_all (p : ascii -> bool) (s : string) :
  Re.all p (Py.rstrip_with p s) = true -> Py.rstrip_with p s = EmptyString.
Proof.
  induction s as [|c s IH]; [reflexivity|]. cbn [Py.rstrip_with].
  destruct (Py.rstrip_with p s) as [|d r] eqn:E.
  - destruct (p c) eqn:Hc; [reflexivity|]. simpl. now rewrite Hc.
  - intros H. simpl in H. apply andb_true_iff in H as [_ H].
    specialize (IH H). discriminate.
Qed.

(** A stripped line that is not empty has a first field. *)
Lemma stripped_has_field (line : string) :
  Py.truthy (Py.strip line) = true -> Py.split_ws (Py.strip line) <> [].
Proof.
  intros Ht Hnil. apply split_ws_nil_blank in Hnil.
  unfold Py.strip, Py.strip_with in *. apply rstrip_all in Hnil.
  rewrite Hnil in Ht. discriminate.
Qed.

(** Entry lines: not blank, not the legend, starting with a number. *)
Definition numbered (line : string) : bool :=
  let line := Py.strip line in
  Py.truthy line && negb (Py.contains "Flags:" line) &&
  match Re.rmatch IPv6Config.entry_re line with
  | Some _ => true
  | None => false
  end.

Definition first_field (line : string) : string := item0 (Py.split_ws (Py.strip line)).

Definition id_of (route : gmap string string) : option string := route !! "id".

(** The ids of everything the loop holds. *)
Definition ids (st : list (gmap string string) * gmap string string)
  : list (option string) :=
  map id_of (fst st) ++ (if is_empty (snd st) then [] else [id_of (snd st)]).

Lemma extract_id (key field : string) (f : string -> string) (line : string)
    (route : gmap string string) :
  field <> "id" -> id_of (extract key field f line route) = id_of route.
Proof.
  intros Hne. unfold extract, id_of.
  destruct (Py.contains (key +:+ "=") line); [|reflexivity].
  destruct (Re.search (kv_re key) line) as [m|]; [|reflexivity].
  destruct (Re.group 1 m); [|reflexivity].
  now rewrite lookup_insert_ne.
Qed.

Lemma extract_nonempty (key field : string) (f : string -> string) (line : string)
    (route : gmap string string) :
  is_empty route = false -> is_empty (extract key field f line route) = false.
Proof.
  intros Hne. unfold extract.
  destruct (Py.contains (key +:+ "=") line); [|exact Hne].
  destruct (Re.search (kv_re key) line) as [m|]; [|exact Hne].
  destruct (Re.group 1 m); [|exact Hne].
  unfold is_empty. apply bool_decide_eq_false. apply insert_non_empty.
Qed.

Lemma new_route_nonempty (i : string) : is_empty (new_route i) = false.
Proof. unfold is_empty, new_route. apply bool_decide_eq_false, insert_non_empty. Qed.

Lemma ids_flush (st : list (gmap string string) * gmap string string) :
  map id_of (flush (fst st) (snd st)) = ids st.
Proof.
  unfold flush, ids. destruct (is_empty (snd st)).
  - now rewrite app_nil_r.
  - now rewrite map_app.
Qed.

Lemma parse_line_ids (st : list (gmap string string) * gmap string string)
    (line : string) :
  ids (parse_line st line)
  = ids st ++ (if numbered line then [Some (first_field line)] else []).
Proof.
  unfold parse_line, numbered, first_field.
  destruct (Py.truthy (Py.strip line)) eqn:Ht; cbn [negb orb andb];
    [|now rewrite app_nil_r].
  destruct (Py.contains "Flags:" (Py.strip line)); cbn [negb andb];
    [now rewrite app_nil_r|].
  destruct (Re.rmatch IPv6Config.entry_re (Py.strip line)).
  - unfold ids at 1. cbn [fst snd]. rewrite ids_flush. f_equal.
    assert (Hparts : Nat.leb 1 (length (Py.split_ws (Py.strip line))) = true).
    { pose proof (stripped_has_field line Ht).
      destruct (Py.split_ws (Py.strip line)); [congruence|reflexivity]. }
    rewrite Hparts.
    rewrite extract_nonempty
      by (repeat apply extract_nonempty; apply new_route_nonempty).
    now rewrite !extract_id by discriminate.
  - rewrite app_nil_r. destruct (is_empty (snd st)) eqn:He; cbn [negb andb];
      [reflexivity|].
    unfold ids. cbn [fst snd].
    rewrite extract_nonempty by (repeat apply extract_nonempty; exact He).
    rewrite He. now rewrite !extract_id by discriminate.
Qed.

Lemma fold_ids (lines : list string)
    (st : list (gmap string string) * gmap string string) :
  ids (fold_left parse_line lines st)
  = ids st ++ map (fun line => Some (first_field line)) (List.filter numbered lines).
Proof.
  revert st. induction lines as [|line lines IH]; intros st.
  - simpl. now rewrite app_nil_r.
  - simpl. rewrite IH, parse_line_ids.
    destruct (numbered line); simpl; now rewrite <- app_assoc.
Qed.

(** X2.  [_parse_ipv6_routes] returns one route per entry line, the last
    one included, in the order of the lines; the id of each route is the
    first field of its line. *)
Theorem parse_routes_one_per_entry (output : string) :
  map id_of (_parse_ipv6_routes output)
  = map (fun line => Some (first_field line))
        (List.filter numbered (Py.split "010" output)).
Proof.
  unfold _parse_ipv6_routes. cbv zeta. rewrite ids_flush. now rewrite fold_ids.
Qed.

End RouteParserFacts.

(** ** Adding routes ([modules/mikrotik_routes.py], continued) *)

Module RoutesAdd.
Import Routes.

(** The test of the loop of [_route_exists]:
    [route.get('dst_address') == dst_address and route.get('gateway') == gateway] *)
Definition same_route (dst_address gateway : string) (route : gmap string string) : bool :=
  bool_decide (route !! "dst_address" = Some dst_address) &&
  bool_decide (route !! "gateway" = Some gateway).

Definition _route_exists (c : MikrotikConnection) (dst_address gateway : string)
  : M bool :=
  let* routes := list_ipv6_routes c None in
  ret (existsb (same_route dst_address gateway) routes).

Definition add_command (dst_address gateway : string) (distance : Z)
    (check_gateway comment : option string) : string :=
  let command := "/ipv6 route add dst-address=" +:+ dst_address +:+ " gateway=" +:+ gateway
                 +:+ " distance=" +:+ Py.str_of_int distance in
  let command :=
    match check_gateway with
    | Some g => if Py.truthy g then command +:+ " check-gateway=" +:+ g else command
    | None => command
    end in
  match comment with
  | Some cm => if Py.truthy cm then command +:+ " comment=" +:+ dquote +:+ cm +:+ dquote
               else command
  | None => command
  end.

Definition add_ipv6_route (c : MikrotikConnection) (dst_address gateway : string)
    (distance : Z) (check_gateway comment : option string) : M bool :=
  if negb (is_connected c) then ret false
  else
    let* found := _route_exists c dst_address gateway in
    if found then ret true
    else
      let* output :=
        execute_command c (add_command dst_address gateway distance check_gateway comment) in
      if rejected output then ret false else ret true.

(** One dictionary of [route_configs]: the value under each key, [None]
    for a missing key (values, when present, are strings, an [int] for
    the distance). *)
Record RouteConfig : Type := {
  rc_dst_address : option string;
  rc_gateway : option string;
  rc_distance : option Z;
  rc_check_gateway : option string;
  rc_comment : option string
}.

(** The body of the loop of [bulk_configure_routes] on the counters
    [(success_count, failure_count)]. *)
Definition bulk_step (c : MikrotikConnection) (counts : Z * Z) (config : RouteConfig)
  : M (Z * Z) :=
  let distance := default 1%Z (rc_distance config) in
  let check_gateway := Some (default "ping" (rc_check_gateway config)) in
  match rc_dst_address config, rc_gateway config with
  | Some dst_address, Some gateway =>
      if negb (Py.truthy dst_address) || negb (Py.truthy gateway)
      then ret (fst counts, (snd counts + 1)%Z)
      else
        let* success :=
          add_ipv6_route c dst_address gateway distance check_gateway (rc_comment config) in
        if success then ret ((fst counts + 1)%Z, snd counts)
        else ret (fst counts, (snd counts + 1)%Z)
  | _, _ => ret (fst counts, (snd counts + 1)%Z)
  end.

Fixpoint bulk_loop (c : MikrotikConnection) (route_configs : list RouteConfig)
    (counts : Z * Z) : M (Z * Z) :=
  match route_configs with
  | [] => ret counts
  | config :: rest =>
      let* counts' := bulk_step c counts config in
      bulk_loop c rest counts'
  end.

Definition bulk_configure_routes (c : MikrotikConnection)
    (route_configs : list RouteConfig) : M (Z * Z) :=
  bulk_loop c route_configs (0%Z, 0%Z).

End RoutesAdd.

Module RoutesAddFacts.
Import Routes RoutesAdd.

Lemma route_exists_spec (c : MikrotikConnection) (dst_address gateway : string)
    (log : list string) :
  _route_exists c dst_address gateway log
  = (existsb (same_route dst_address gateway) (fst (list_ipv6_routes c None log)),
     snd (list_ipv6_routes c None log)).
Proof.
  unfold _route_exists, bind. now destruct (list_ipv6_routes c None log).
Qed.

(** X3.  [add_ipv6_route] is skipped, with success and nothing sent but
    the query, when the query returns a route with the same destination
    and the same gateway; a route to the same destination through another
    gateway does not count.  When no returned route has both, the add
    command is sent and the outcome is failure exactly when the reply
    carries a rejection marker. *)
Theorem add_route_skips_listed (c : MikrotikConnection) (dst_address gateway : string)
    (distance : Z) (check_gateway comment : option string) (log : list string) :
  connection c = true ->
  let routes := fst (list_ipv6_routes c None log) in
  let log1 := log ++ [list_command None] in
  let command := add_command dst_address gateway distance check_gateway comment in
  ((exists route, In route routes /\
                  route !! "dst_address" = Some dst_address /\
                  route !! "gateway" = Some gateway) ->
   add_ipv6_route c dst_address gateway distance check_gateway comment log = (true, log1))
  /\
  ((forall route, In route routes ->
                  route !! "dst_address" = Some dst_address ->
                  route !! "gateway" <> Some gateway) ->
   add_ipv6_route c dst_address gateway distance check_gateway comment log
   = (negb (rejected (device c log1 command)), log1 ++ [command])).
Proof.
  intros Hc routes log1 command.
  assert (Hrun : add_ipv6_route c dst_address gateway distance check_gateway comment log
                 = if existsb (same_route dst_address gateway) routes then (true, log1)
                   else (negb (rejected (device c log1 command)), log1 ++ [command])).
  { unfold add_ipv6_route, is_connected, bind. rewrite Hc. cbn [negb].
    rewrite route_exists_spec, (RemoveFacts.list_routes_log _ _ _ Hc).
    fold routes log1. destruct (existsb _ routes); [reflexivity|].
    rewrite (execute_connected _ _ _ Hc). fold command.
    now destruct (rejected _). }
  split.
  - intros (route & Hin & Hd & Hg). rewrite Hrun.
    replace (existsb (same_route dst_address gateway) routes) with true; [reflexivity|].
    symmetry. apply existsb_exists. exists route. split; [exact Hin|].
    unfold same_route. now rewrite !bool_decide_eq_true_2.
  - intros Hnone. rewrite Hrun.
    replace (existsb (same_route dst_address gateway) routes) with false; [reflexivity|].
    symmetry. apply not_true_is_false. intros (route & Hin & Hs)%existsb_exists.
    unfold same_route in Hs. apply andb_true_iff in Hs as [Hd Hg].
    apply bool_decide_eq_true in Hd, Hg. now apply (Hnone route Hin Hd).
Qed.

Definition route_router : MikrotikConnection :=
  {| connection := true;
     device := fun _ command =>
       if Py.startswith "/ipv6 route print" command then Some RemoveFacts.route_listing
       else Some "failure: already have such route" |}.

Lemma same_route_listed (dst_address gateway : string)
    (routes : list (gmap string string)) :
  existsb (same_route dst_address gateway) routes = true ->
  exists route, In route routes /\
                route !! "dst_address" = Some dst_address /\
                route !! "gateway" = Some gateway.
Proof.
  intros (route & Hin & Hs)%existsb_exists. exists route. split; [exact Hin|].
  unfold same_route in Hs. apply andb_true_iff in Hs as [Hd Hg].
  now apply bool_decide_eq_true in Hd, Hg.
Qed.

Lemma same_route_not_listed (dst_address gateway : string)
    (routes : list (gmap string string)) :
  existsb (same_route dst_address gateway) routes = false ->
  forall route, In route routes ->
                route !! "dst_address" = Some dst_address ->
                route !! "gateway" <> Some gateway.
Proof.
  intros Hex route Hin Hd Hg.
  assert (existsb (same_route dst_address gateway) routes = true); [|congruence].
  apply existsb_exists. exists route. split; [exact Hin|].
  unfold same_route. now rewrite !bool_decide_eq_true_2.
Qed.

Lemma add_route_skips_listed_witness :
  add_ipv6_route route_router "2804:385c:8700::14/126" "2804:385c:8700::12" 1
    (Some "ping") None []
  = (true, ["/ipv6 route print"]) /\
  add_ipv6_route route_router "2804:385c:8700::14/126" "2804:385c:8700::13" 1
    (Some "ping") None []
  = (false,
     ["/ipv6 route print";
      "/ipv6 route add dst-address=2804:385c:8700::14/126 gateway=2804:385c:8700::13 distance=1 check-gateway=ping"]).
Proof.
  split.
  - apply (proj1 (add_route_skips_listed route_router "2804:385c:8700::14/126"
                    "2804:385c:8700::12" 1 (Some "ping") None [] eq_refl)).
    apply same_route_listed. vm_compute. reflexivity.
  - apply (proj2 (add_route_skips_listed route_router "2804:385c:8700::14/126"
                    "2804:385c:8700::13" 1 (Some "ping") None [] eq_refl)).
    apply same_route_not_listed. vm_compute. reflexivity.
Defined.

Lemma bulk_step_counts (c : MikrotikConnection) (counts : Z * Z) (config : RouteConfig)
    (log : list string) :
  let counts' := fst (bulk_step c counts config log) in
  (fst counts' + snd counts' = fst counts + snd counts + 1)%Z /\
  (fst counts <= fst counts')%Z /\ (snd counts <= snd counts')%Z.
Proof.
  unfold bulk_step, bind, ret.
  destruct (rc_dst_address config) as [d|]; [|simpl; lia].
  destruct (rc_gateway config) as [g|]; [|simpl; lia].
  destruct (negb (Py.truthy d) || negb (Py.truthy g)); [simpl; lia|].
  destruct (add_ipv6_route c d g _ _ _ log) as [[] log']; simpl; lia.
Qed.

Lemma bulk_loop_counts (c : MikrotikConnection) (route_configs : list RouteConfig)
    (counts : Z * Z) (log : list string) :
  let counts' := fst (bulk_loop c route_configs counts log) in
  (fst counts' + snd counts'
   = fst counts + snd counts + Z.of_nat (length route_configs))%Z /\
  (fst counts <= fst counts')%Z /\ (snd counts <= snd counts')%Z.
Proof.
  revert counts log. induction route_configs as [|config rest IH]; intros counts log.
  - simpl. lia.
  - cbn [bulk_loop]. unfold bind.
    pose proof (bulk_step_counts c counts config log) as Hstep.
    destruct (bulk_step c counts config log) as [counts1 log1].
    specialize (IH counts1 log1). cbn [fst] in Hstep.
    cbn zeta in *. rewrite length_cons. lia.
Qed.

(** X4.  [bulk_configure_routes] accounts for every configuration once:
    the two counters it returns are not negative and add up to the number
    of configurations, whatever the device answers. *)
Theorem bulk_counts_add_up (c : MikrotikConnection) (route_configs : list RouteConfig)
    (log : list string) :
  let counts := fst (bulk_configure_routes c route_configs log) in
  (fst counts + snd counts = Z.of_nat (length route_configs))%Z /\
  (0 <= fst counts)%Z /\ (0 <= snd counts)%Z.
Proof.
  unfold bulk_configure_routes.
  pose proof (bulk_loop_counts c route_configs (0%Z, 0%Z) log) as H.
  cbn zeta in *. cbn [fst snd] in H. lia.
Qed.

End RoutesAddFacts.

(** ** Removing what is there *)

Module RemoveFoundFacts.
Import Routes.

Lemma split_ws_fields (s field : string) :
  In field (Py.split_ws s) -> Py.truthy field = true.
Proof.
  revert field. induction s as [|c s IH]; intros field; [intros []|].
  cbn [Py.split_ws]. destruct (Py.isspace c); [apply IH|].
  destruct s as [|d s]; [intros [<-|[]]; reflexivity|].
  destruct (Py.isspace d).
  - intros [<-|H]; [reflexivity|now apply IH].
  - destruct (Py.split_ws (String d s)) as [|w ws].
    + intros [<-|[]]. reflexivity.
    + intros [<-|H]; [reflexivity|]. apply IH. now right.
Qed.

Lemma first_field_truthy (line : string) :
  Py.truthy (Py.strip line) = true ->
  Py.truthy (RouteParserFacts.first_field line) = true.
Proof.
  intros Ht. unfold RouteParserFacts.first_field, item0.
  pose proof (RouteParserFacts.stripped_has_field line Ht) as Hne.
  destruct (Py.split_ws (Py.strip line)) as [|w ws] eqn:E; [congruence|].
  apply (split_ws_fields (Py.strip line)). rewrite E. now left.
Qed.

(** Every route the parser returns has an id, and it is not empty. *)
Lemma parsed_routes_have_ids (output : string) (route : gmap string string) :
  In route (_parse_ipv6_routes output) ->
  exists i, route !! "id" = Some i /\ Py.truthy i = true.
Proof.
  intros Hin.
  assert (Hid : In (RouteParserFacts.id_of route)
                  (map RouteParserFacts.id_of (_parse_ipv6_routes output)))
    by now apply in_map.
  unfold _parse_ipv6_routes in Hid. cbv zeta in Hid.
  rewrite RouteParserFacts.ids_flush, RouteParserFacts.fold_ids in Hid.
  simpl in Hid. apply in_map_iff in Hid as (line & Hline & Hnum).
  apply filter_In in Hnum as [_ Hnum].
  exists (RouteParserFacts.first_field line). split; [now symmetry|].
  apply first_field_truthy.
  unfold RouteParserFacts.numbered in Hnum.
  now destruct (Py.truthy (Py.strip line)).
Qed.

Lemma listed_routes_have_ids (c : MikrotikConnection) (dst_address : option string)
    (log : list string) (route : gmap string string) :
  In route (fst (list_ipv6_routes c dst_address log)) ->
  exists i, route !! "id" = Some i /\ Py.truthy i = true.
Proof.
  unfold list_ipv6_routes, bind, ret.
  destruct (negb (is_connected c)); [intros []|].
  destruct (execute_command c (list_command dst_address) log) as [[o|] log'];
    [|intros []].
  destruct (Py.truthy o); [|intros []].
  apply parsed_routes_have_ids.
Qed.

Lemma find_id_first (dst_address : string) (gateway : option string)
    (routes : list (gmap string string)) :
  (forall route, In route routes -> exists i, route !! "id" = Some i /\ Py.truthy i = true) ->
  existsb (route_matches dst_address gateway) routes = true ->
  exists i, find_id dst_address gateway routes = Some i /\ Py.truthy i = true /\
            (exists route, List.find (route_matches dst_address gateway) routes = Some route /\
                           route !! "id" = Some i).
Proof.
  intros Hids Hex. induction routes as [|route rest IH]; [discriminate|].
  simpl in *. destruct (route_matches dst_address gateway route) eqn:E.
  - destruct (Hids route (or_introl eq_refl)) as (i & Hi & Ht).
    exists i. repeat split; [exact Hi|exact Ht|]. now exists route.
  - apply IH; [|exact Hex]. intros r Hr. apply Hids. now right.
Qed.

(** X5.  A route the query returns can always be removed: when some
    returned route has the destination (and the gateway, if one is
    given), [remove_ipv6_route] sends the remove command with the id of
    the first such route, which is never missing or empty, and the
    outcome is failure exactly when the reply carries a rejection
    marker. *)
Theorem remove_listed_route_sends_remove (c : MikrotikConnection)
    (dst_address : string) (gateway : option string) (log : list string) :
  connection c = true ->
  let routes := fst (list_ipv6_routes c None log) in
  let log1 := log ++ [list_command None] in
  existsb (route_matches dst_address gateway) routes = true ->
  exists i route,
    List.find (route_matches dst_address gateway) routes = Some route /\
    route !! "id" = Some i /\ Py.truthy i = true /\
    remove_ipv6_route c dst_address gateway log
    = (negb (rejected (device c log1 (remove_command i))), log1 ++ [remove_command i]).
Proof.
  intros Hc routes log1 Hex.
  destruct (find_id_first dst_address gateway routes) as (i & Hfind & Ht & route & Hr & Hi);
    [intros r Hr; now apply (listed_routes_have_ids c None log)|exact Hex|].
  exists i, route. repeat split; try assumption.
  unfold remove_ipv6_route, _find_route_id, is_connected, bind.
  rewrite Hc. cbn [negb].
  pose proof (RemoveFacts.list_routes_log c None log Hc) as Hlog.
  fold log1 in Hlog. subst routes.
  destruct (list_ipv6_routes c None log) as [routes log'].
  cbn [fst snd] in *. subst log'. unfold ret at 1. rewrite Hfind, Ht.
  rewrite (execute_connected _ _ _ Hc). now destruct (rejected _).
Qed.

Lemma remove_listed_route_sends_remove_witness :
  exists i route,
    List.find (route_matches "2804:385c:8700::14/126" None)
      (fst (list_ipv6_routes RemoveFacts.router None [])) = Some route /\
    route !! "id" = Some i /\ Py.truthy i = true /\
    remove_ipv6_route RemoveFacts.router "2804:385c:8700::14/126" None []
    = (negb (rejected (device RemoveFacts.router ["/ipv6 route print"] (remove_command i))),
       ["/ipv6 route print"] ++ [remove_command i]).
Proof.
  apply (remove_listed_route_sends_remove RemoveFacts.router
           "2804:385c:8700::14/126" None [] eq_refl).
  vm_compute. reflexivity.
Defined.

End RemoveFoundFacts.

(** ** The other desired-state files ([mikrotik_l2tp_automation.py], continued) *)

Module Inventory.

Record ClientConfig : Type := {
  bridge_interface : string;
  bridge_ip : string;
  gateway : string
}.

(** The body of the loop of [load_client_mapping] on one line. *)
Definition client_line (mappings : gmap string ClientConfig) (line : string)
  : gmap string ClientConfig :=
  let line := Py.strip line in
  if negb (Py.truthy line) || Py.startswith "#" line then mappings
  else
    let parts := Py.split "," line in
    if negb (Nat.eqb (length parts) 4) then mappings
    else
      match map Py.strip parts with
      | [hostname; bridge_interface; bridge_ip; gateway] =>
          <[hostname := {| bridge_interface := bridge_interface;
                           bridge_ip := bridge_ip;
                           gateway := gateway |}]> mappings
      | _ => mappings
      end.

Definition load_client_mapping (file : option (list string))
  : gmap string ClientConfig :=
  match file with
  | None => ∅
  | Some lines => fold_left client_line lines ∅
  end.

(** The body of the loop of [load_hosts] on one line. *)
Definition host_line (hosts : list (string * string * string)) (line : string)
  : list (string * string * string) :=
  let line := Py.strip line in
  if negb (Py.truthy line) || Py.startswith "#" line then hosts
  else
    let parts := Py.split "," line in
    if negb (Nat.eqb (length parts) 3) then hosts
    else
      match map Py.strip parts with
      | [ip; hostname; method] => hosts ++ [(ip, hostname, method)]
      | _ => hosts
      end.

Definition load_hosts (file : option (list string)) : list (string * string * string) :=
  match file with
  | None => []
  | Some lines => fold_left host_line lines []
  end.

End Inventory.

Module InventoryFacts.
Import Automation Inventory.

(** The fields of a line that is neither blank nor a comment. *)
Definition fields (line : string) : option (list string) :=
  let line := Py.strip line in
  if negb (Py.truthy line) || Py.startswith "#" line then None
  else Some (map Py.strip (Py.split "," line)).

Definition tunnel_entry (line : string) : option (string * TunnelConfig) :=
  match fields line with
  | Some [tunnel_name; client_hostname; server_ip; client_ip; route_network; gateway] =>
      Some (tunnel_name,
            {| Automation.client_hostname := client_hostname;
               Automation.server_ip := server_ip;
               Automation.client_ip := client_ip;
               Automation.route_network := route_network;
               Automation.gateway := gateway |})
  | _ => None
  end.

Definition client_entry (line : string) : option (string * ClientConfig) :=
  match fields line with
  | Some [hostname; bridge_interface; bridge_ip; gateway] =>
      Some (hostname,
            {| Inventory.bridge_interface := bridge_interface;
               Inventory.bridge_ip := bridge_ip;
               Inventory.gateway := gateway |})
  | _ => None
  end.

Definition host_entry (line : string) : option (string * string * string) :=
  match fields line with
  | Some [ip; hostname; method] => Some (ip, hostname, method)
  | _ => None
  end.

Lemma load_line_entry (m : gmap string TunnelConfig) (line : string) :
  load_line m line
  = match tunnel_entry line with
    | Some (name, cfg) => <[name := cfg]> m
    | None => m
    end.
Proof.
  unfold load_line, tunnel_entry, fields.
  destruct (negb (Py.truthy (Py.strip line)) || Py.startswith "#" (Py.strip line));
    [reflexivity|].
  destruct (Py.split "," (Py.strip line)) as [|a [|b [|c0 [|d [|e [|f [|g l]]]]]]];
    reflexivity.
Qed.

Lemma client_line_entry (m : gmap string ClientConfig) (line : string) :
  client_line m line
  = match client_entry line with
    | Some (name, cfg) => <[name := cfg]> m
    | None => m
    end.
Proof.
  unfold client_line, client_entry, fields.
  destruct (negb (Py.truthy (Py.strip line)) || Py.startswith "#" (Py.strip line));
    [reflexivity|].
  destruct (Py.split "," (Py.strip line)) as [|a [|b [|c0 [|d [|e l]]]]]; reflexivity.
Qed.

Lemma host_line_entry (hosts : list (string * string * string)) (line : string) :
  host_line hosts line = hosts ++ option_list (host_entry line).
Proof.
  unfold host_line, host_entry, fields.
  destruct (negb (Py.truthy (Py.strip line)) || Py.startswith "#" (Py.strip line));
    [now rewrite app_nil_r|].
  destruct (Py.split "," (Py.strip line)) as [|a [|b [|c0 [|d l]]]];
    simpl; now rewrite ?app_nil_r.
Qed.

Section LastWins.
Context {V : Type}.
Variable entry : string -> option (string * V).

(** The value a line gives to [name], if it is an entry for [name]. *)
Definition value_for (name : string) (line : string) : option V :=
  match entry line with
  | Some (k, v) => if decide (k = name) then Some v else None
  | None => None
  end.

Definition store (m : gmap string V) (line : string) : gmap string V :=
  match entry line with
  | Some (k, v) => <[k := v]> m
  | None => m
  end.

Lemma fold_store_lookup (lines : list string) (m : gmap string V) (name : string) :
  fold_left store lines m !! name
  = match last (omap (value_for name) lines) with
    | Some v => Some v
    | None => m !! name
    end.
Proof.
  revert m. induction lines as [|line lines IH]; intros m; [reflexivity|].
  cbn [fold_left omap list_omap]. rewrite IH. unfold store, value_for at 2.
  destruct (entry line) as [[k v]|]; [|reflexivity].
  destruct (decide (k = name)) as [->|Hne].
  - destruct (omap (value_for name) lines) as [|x l] eqn:E.
    + simpl. now rewrite lookup_insert_eq.
    + rewrite last_cons_cons. destruct (last (x :: l)) eqn:E2; [reflexivity|].
      apply last_None in E2. discriminate.
  - now rewrite lookup_insert_ne.
Qed.
End LastWins.

Lemma fold_ext {A B : Type} (f g : A -> B -> A) (l : list B) (a : A) :
  (forall x y, f x y = g x y) -> fold_left f l a = fold_left g l a.
Proof.
  intros H. revert a. induction l as [|y l IH]; intros a; [reflexivity|].
  simpl. now rewrite H, IH.
Qed.

(** X6.  In [load_tunnel_mapping] the last line wins: the configuration
    stored for a tunnel name is the one of the last well-formed line that
    names it, and a name that no well-formed line carries is absent. *)
Theorem load_tunnel_mapping_last_wins (lines : list string) (name : string) :
  load_tunnel_mapping (Some lines) !! name
  = last (omap (value_for tunnel_entry name) lines).
Proof.
  unfold load_tunnel_mapping.
  rewrite (fold_ext load_line (store tunnel_entry)) by apply load_line_entry.
  rewrite fold_store_lookup, lookup_empty.
  now destruct (last _).
Qed.

(** X7.  In [load_client_mapping] too the last line wins: the
    configuration stored for a host name is the one of the last line of
    exactly four fields that names it, and a host that no such line
    carries is absent. *)
Theorem load_client_mapping_last_wins (lines : list string) (name : string) :
  load_client_mapping (Some lines) !! name
  = last (omap (value_for client_entry name) lines).
Proof.
  unfold load_client_mapping.
  rewrite (fold_ext client_line (store client_entry)) by apply client_line_entry.
  rewrite fold_store_lookup, lookup_empty.
  now destruct (last _).
Qed.

Lemma fold_host_line (lines : list string) (hosts : list (string * string * string)) :
  fold_left host_line lines hosts = hosts ++ omap host_entry lines.
Proof.
  revert hosts. induction lines as [|line lines IH]; intros hosts.
  - simpl. now rewrite app_nil_r.
  - cbn [fold_left omap list_omap]. rewrite IH, host_line_entry.
    rewrite <- app_assoc. f_equal. now destruct (host_entry line).
Qed.

Lemma lstrip_stripped (p : ascii -> bool) (s : string) :
  Py.lstrip_with p (Py.lstrip_with p s) = Py.lstrip_with p s.
Proof.
  induction s as [|c s IH]; [reflexivity|]. cbn [Py.lstrip_with].
  destruct (p c) eqn:E; [exact IH|]. cbn [Py.lstrip_with]. now rewrite E.
Qed.

Lemma rstrip_stripped (p : ascii -> bool) (s : string) :
  Py.rstrip_with p (Py.rstrip_with p s) = Py.rstrip_with p s.
Proof.
  induction s as [|c s IH]; [reflexivity|]. cbn [Py.rstrip_with].
  destruct (Py.rstrip_with p s) as [|d r] eqn:E.
  - destruct (p c) eqn:Hc; [reflexivity|]. cbn [Py.rstrip_with]. now rewrite Hc.
  - cbn [Py.rstrip_with] in *. now rewrite IH.
Qed.

Lemma lstrip_rstrip (p : ascii -> bool) (s : string) :
  Py.lstrip_with p s = s -> Py.lstrip_with p (Py.rstrip_with p s) = Py.rstrip_with p s.
Proof.
  destruct s as [|c s]; [reflexivity|]. cbn [Py.lstrip_with Py.rstrip_with].
  destruct (p c) eqn:Hc.
  - intros H. exfalso.
    assert (Hlen : String.length (Py.lstrip_with p s) <= String.length s).
    { clear. induction s as [|d s IH]; simpl; [lia|]. destruct (p d); simpl; lia. }
    rewrite H in Hlen. simpl in Hlen. lia.
  - intros _. destruct (Py.rstrip_with p s); cbn [Py.lstrip_with]; now rewrite Hc.
Qed.

(** Stripping twice is stripping once. *)
Lemma strip_stripped (s : string) : Py.strip (Py.strip s) = Py.strip s.
Proof.
  unfold Py.strip, Py.strip_with.
  rewrite (lstrip_rstrip _ _ (lstrip_stripped _ s)). apply rstrip_stripped.
Qed.

Lemma host_entry_stripped (line : string) (ip hostname method : string) :
  host_entry line = Some (ip, hostname, method) ->
  Py.strip ip = ip /\ Py.strip hostname = hostname /\ Py.strip method = method.
Proof.
  unfold host_entry, fields.
  destruct (negb (Py.truthy (Py.strip line)) || Py.startswith "#" (Py.strip line));
    [discriminate|].
  destruct (Py.split "," (Py.strip line)) as [|a [|b [|c0 [|d l]]]]; try discriminate.
  simpl. intros [= <- <- <-]. now rewrite !strip_stripped.
Qed.

(** X8.  [load_hosts] keeps one host per line of exactly three fields, in
    file order and without merging repeated hosts, so the number of hosts
    is the number of such lines; the fields of every host come without
    surrounding white space.  A file that cannot be opened gives no
    host. *)
Theorem load_hosts_keeps_every_line (lines : list string) :
  load_hosts (Some lines) = omap host_entry lines /\
  length (load_hosts (Some lines))
  = length (List.filter (fun line => bool_decide (is_Some (host_entry line))) lines) /\
  (forall ip hostname method,
      In (ip, hostname, method) (load_hosts (Some lines)) ->
      Py.strip ip = ip /\ Py.strip hostname = hostname /\ Py.strip method = method) /\
  load_hosts None = [].
Proof.
  assert (H : load_hosts (Some lines) = omap host_entry lines).
  { unfold load_hosts. now rewrite fold_host_line. }
  split; [exact H|]. split; [|split; [|reflexivity]].
  - rewrite H. clear H. induction lines as [|line lines IH]; [reflexivity|].
    cbn [omap list_omap List.filter].
    destruct (host_entry line); simpl; now rewrite IH.
  - intros ip hostname method Hin. rewrite H in Hin.
    apply list_elem_of_In, list_elem_of_omap in Hin as (line & _ & Hline).
    now apply (host_entry_stripped line).
Qed.

End InventoryFacts.

(** ** Interface queries ([modules/mikrotik_interfaces.py], continued) *)

Module InterfaceQueries.
Import Interfaces.

(** The dictionary built for one line of [/interface l2tp-client print]. *)
Record ClientInterface : Type := {
  ci_name : string;
  ci_type : string
}.

(** The characters of [part.strip('<>')] *)
Definition angle : ascii -> bool := Re.either (Re.chr "<") (Re.chr ">").

(** The inner loop over the fields of a line: the first field that
    mentions [l2tp-], stripped of angle brackets. *)
Fixpoint first_l2tp_part (parts : list string) : option string :=
  match parts with
  | [] => None
  | part :: rest =>
      if Py.startswith "l2tp-" part || Py.contains "l2tp-" part
      then Some (Py.strip_with angle part)
      else first_l2tp_part rest
  end.

Definition client_row (line : string) : list ClientInterface :=
  let line := Py.strip line in
  if Py.contains "l2tp-" (Py.lower line) then
    match first_l2tp_part (Py.split_ws line) with
    | Some interface_name => [{| ci_name := interface_name; ci_type := "client" |}]
    | None => []
    end
  else [].

Definition _parse_l2tp_client_output (output : string) : list ClientInterface :=
  flat_map client_row (Py.split "010" output).

Definition list_l2tp_server_interfaces (c : MikrotikConnection)
  : M (list InterfaceRecord) :=
  if negb (is_connected c) then ret []
  else
    let* output := execute_command c "/interface l2tp-server print" in
    match output with
    | Some o => if Py.truthy o then ret (_parse_l2tp_server_output o) else ret []
    | None => ret []
    end.

Definition list_l2tp_client_interfaces (c : MikrotikConnection)
  : M (list ClientInterface) :=
  if negb (is_connected c) then ret []
  else
    let* output := execute_command c "/interface l2tp-client print" in
    match output with
    | Some o => if Py.truthy o then ret (_parse_l2tp_client_output o) else ret []
    | None => ret []
    end.

(** What [get_interface_details] returns: a server record, a client
    record, or [None]. *)
Inductive Details : Type :=
| ServerDetails (i : InterfaceRecord)
| ClientDetails (i : ClientInterface).

Definition get_interface_details (c : MikrotikConnection) (interface_name : string)
  : M (option Details) :=
  if negb (is_connected c) then ret None
  else
    let* server_interfaces := list_l2tp_server_interfaces c in
    match List.find (fun i => String.eqb (i_name i) interface_name) server_interfaces with
    | Some i => ret (Some (ServerDetails i))
    | None =>
        let* client_interfaces := list_l2tp_client_interfaces c in
        match List.find (fun i => String.eqb (ci_name i) interface_name) client_interfaces with
        | Some i => ret (Some (ClientDetails i))
        | None => ret None
        end
    end.

Definition check_interface_exists (c : MikrotikConnection) (interface_name : string)
  : M bool :=
  let* details := get_interface_details c interface_name in
  ret (match details with Some _ => true | None => false end).

End InterfaceQueries.

Module InterfaceQueriesFacts.
Import Interfaces InterfaceQueries.

(** The last character of a text is outside a set of characters. *)
Fixpoint ends_outside (p : ascii -> bool) (n : string) : bool :=
  match n with
  | EmptyString => false
  | String a EmptyString => negb (p a)
  | String _ n' => ends_outside p n'
  end.

Lemma startswith_nonempty (a : ascii) (n s : string) :
  Py.startswith (String a n) s = true -> s <> EmptyString.
Proof. destruct s; [discriminate|discriminate]. Qed.

Lemma contains_nonempty (a : ascii) (n s : string) :
  Py.contains (String a n) s = true -> s <> EmptyString.
Proof. destruct s; [discriminate|discriminate]. Qed.

Lemma startswith_contains (n s : string) :
  Py.startswith n s = true -> Py.contains n s = true.
Proof. intros H. destruct s; simpl; now rewrite H. Qed.

Lemma lstrip_keeps (p : ascii -> bool) (a : ascii) (n s : string) :
  p a = false ->
  Py.contains (String a n) s = true ->
  Py.contains (String a n) (Py.lstrip_with p s) = true.
Proof.
  intros Ha. induction s as [|c s IH]; intros H; [discriminate|].
  cbn [Py.lstrip_with]. destruct (p c) eqn:Hc; [|exact H].
  apply IH. cbn [Py.contains Py.startswith] in H.
  destruct (Ascii.eqb a c) eqn:E.
  - apply Ascii.eqb_eq in E as ->. congruence.
  - exact H.
Qed.

Lemma rstrip_cons (p : ascii -> bool) (c : ascii) (s : string) :
  Py.rstrip_with p s <> EmptyString ->
  Py.rstrip_with p (String c s) = String c (Py.rstrip_with p s).
Proof. cbn [Py.rstrip_with]. destruct (Py.rstrip_with p s); congruence. Qed.

Lemma rstrip_keeps_prefix (p : ascii -> bool) (n s : string) :
  ends_outside p n = true ->
  Py.startswith n s = true ->
  Py.startswith n (Py.rstrip_with p s) = true.
Proof.
  revert s. induction n as [|a n IH]; intros s Hend H; [discriminate|].
  destruct s as [|b s]; [discriminate|].
  cbn [Py.startswith] in H. apply andb_true_iff in H as [Hab Hn].
  destruct n as [|a' n'].
  - cbn [ends_outside] in Hend. apply Ascii.eqb_eq in Hab as <-.
    cbn [Py.rstrip_with]. destruct (Py.rstrip_with p s).
    + destruct (p a); [discriminate|]. simpl. now rewrite Ascii.eqb_refl.
    + simpl. now rewrite Ascii.eqb_refl.
  - specialize (IH s Hend Hn).
    rewrite rstrip_cons by exact (startswith_nonempty _ _ _ IH).
    cbn [Py.startswith]. rewrite Hab. exact IH.
Qed.

Lemma rstrip_keeps (p : ascii -> bool) (a : ascii) (n s : string) :
  ends_outside p (String a n) = true ->
  Py.contains (String a n) s = true ->
  Py.contains (String a n) (Py.rstrip_with p s) = true.
Proof.
  intros Hend. induction s as [|c s IH]; intros H; [discriminate|].
  cbn [Py.contains] in H. apply orb_true_iff in H as [H|H].
  - apply startswith_contains. now apply rstrip_keeps_prefix.
  - specialize (IH H).
    rewrite rstrip_cons by exact (contains_nonempty _ _ _ IH).
    now apply contains_cons.
Qed.

(** Stripping characters that are neither the first nor the last of a
    text does not lose an occurrence of the text. *)
Lemma strip_keeps (p : ascii -> bool) (a : ascii) (n s : string) :
  p a = false -> ends_outside p (String a n) = true ->
  Py.contains (String a n) s = true ->
  Py.contains (String a n) (Py.strip_with p s) = true.
Proof.
  intros Ha Hend H. unfold Py.strip_with.
  apply rstrip_keeps; [exact Hend|]. now apply lstrip_keeps.
Qed.

Lemma strip_with_stripped (p : ascii -> bool) (s : string) :
  Py.strip_with p (Py.strip_with p s) = Py.strip_with p s.
Proof.
  unfold Py.strip_with.
  rewrite (InventoryFacts.lstrip_rstrip _ _ (InventoryFacts.lstrip_stripped _ s)).
  apply InventoryFacts.rstrip_stripped.
Qed.

Lemma first_l2tp_part_name (parts : list string) (name : string) :
  first_l2tp_part parts = Some name ->
  Py.contains "l2tp-" name = true /\ Py.strip_with angle name = name.
Proof.
  induction parts as [|part rest IH]; [discriminate|]. cbn [first_l2tp_part].
  destruct (Py.startswith "l2tp-" part || Py.contains "l2tp-" part) eqn:E; [|exact IH].
  intros [= <-]. split; [|apply strip_with_stripped].
  apply strip_keeps; [reflexivity|reflexivity|].
  apply orb_true_iff in E as [E|E]; [now apply startswith_contains|exact E].
Qed.

Lemma client_row_length (line : string) : length (client_row line) <= 1.
Proof.
  unfold client_row. destruct (Py.contains _ _); [|simpl; lia].
  destruct (first_l2tp_part _); simpl; lia.
Qed.

(** X9.  Every record of [_parse_l2tp_client_output] has a name that
    contains [l2tp-] and carries no angle bracket at either end, and the
    type ["client"]; a line gives at most one record. *)
Theorem parse_l2tp_client_names (output : string) :
  (forall i, In i (_parse_l2tp_client_output output) ->
             Py.contains "l2tp-" (ci_name i) = true /\
             Py.strip_with angle (ci_name i) = ci_name i /\
             ci_type i = "client") /\
  length (_parse_l2tp_client_output output) <= length (Py.split "010" output).
Proof.
  unfold _parse_l2tp_client_output. split.
  - intros i (line & _ & Hi)%in_flat_map. unfold client_row in Hi.
    destruct (Py.contains "l2tp-" (Py.lower (Py.strip line))); [|destruct Hi].
    destruct (first_l2tp_part (Py.split_ws (Py.strip line))) as [name|] eqn:E;
      [|destruct Hi].
    destruct Hi as [<-|[]]. cbn [ci_name ci_type].
    destruct (first_l2tp_part_name _ _ E). now repeat split.
  - induction (Py.split "010" output) as [|line lines IH]; [reflexivity|].
    cbn [flat_map]. rewrite length_app. pose proof (client_row_length line).
    cbn [length]. lia.
Qed.

End InterfaceQueriesFacts.

Module InterfaceExistsFacts.
Import Interfaces InterfaceQueries.

Definition server_print : string := "/interface l2tp-server print".
Definition client_print : string := "/interface l2tp-client print".

Lemma server_list_log (c : MikrotikConnection) (log : list string) :
  connection c = true ->
  snd (list_l2tp_server_interfaces c log) = log ++ [server_print].
Proof.
  intros Hc. unfold list_l2tp_server_interfaces, is_connected, bind.
  rewrite Hc. cbn [negb]. cbv beta. rewrite (execute_connected _ _ _ Hc).
  destruct (device c log _) as [o|]; [|reflexivity]. now destruct (Py.truthy o).
Qed.

Lemma client_list_log (c : MikrotikConnection) (log : list string) :
  connection c = true ->
  snd (list_l2tp_client_interfaces c log) = log ++ [client_print].
Proof.
  intros Hc. unfold list_l2tp_client_interfaces, is_connected, bind.
  rewrite Hc. cbn [negb]. cbv beta. rewrite (execute_connected _ _ _ Hc).
  destruct (device c log _) as [o|]; [|reflexivity]. now destruct (Py.truthy o).
Qed.

Lemma find_name {A : Type} (name_of : A -> string) (name : string) (l : list A) :
  (exists i, List.find (fun i => String.eqb (name_of i) name) l = Some i)
  <-> (exists i, In i l /\ name_of i = name).
Proof.
  split.
  - intros (i & Hi). apply find_some in Hi as [Hin Heq].
    exists i. split; [exact Hin|]. now apply String.eqb_eq.
  - intros (i & Hin & Heq).
    destruct (List.find (fun i => String.eqb (name_of i) name) l) as [j|] eqn:E; [eauto|].
    exfalso. pose proof (find_none _ _ E i Hin) as H. cbv beta in H.
    rewrite Heq, String.eqb_refl in H. discriminate.
Qed.

(** X10.  [check_interface_exists] answers [True] exactly for the name of
    a server interface that the server listing shows as running or, else,
    of an interface of the client listing; it asks the server listing
    first and the client listing only when the server listing does not
    settle it. *)
Theorem check_interface_exists_iff (c : MikrotikConnection) (name : string)
    (log : list string) :
  connection c = true ->
  let servers := fst (list_l2tp_server_interfaces c log) in
  let log1 := log ++ [server_print] in
  let clients := fst (list_l2tp_client_interfaces c log1) in
  let run := check_interface_exists c name log in
  (fst run = true <->
   (exists i, In i servers /\ i_name i = name /\ Py.contains "R" (i_flags i) = true) \/
   (exists i, In i clients /\ ci_name i = name)) /\
  ((exists i, In i servers /\ i_name i = name) -> snd run = log1) /\
  (~ (exists i, In i servers /\ i_name i = name) -> snd run = log1 ++ [client_print]).
Proof.
  intros Hc servers log1 clients run.
  pose proof (server_list_log c log Hc) as Hs.
  pose proof (client_list_log c log1 Hc) as Hcl.
  assert (Hrunning : forall i, In i servers -> Py.contains "R" (i_flags i) = true).
  { intros i Hi. subst servers. unfold list_l2tp_server_interfaces, bind, ret in Hi.
    destruct (negb (is_connected c)); [destruct Hi|].
    destruct (execute_command c _ log) as [[o|] l']; [|destruct Hi].
    destruct (Py.truthy o); [|destruct Hi].
    unfold _parse_l2tp_server_output in Hi.
    destruct (after_header _); [|destruct Hi].
    apply in_flat_map in Hi as (line & _ & Hi).
    now apply InterfacesFacts.parse_row_running in Hi. }
  subst run. unfold check_interface_exists, get_interface_details, is_connected, bind.
  rewrite Hc. cbn [negb]. subst servers clients.
  destruct (list_l2tp_server_interfaces c log) as [servers log'].
  cbn [fst snd] in *. subst log'.
  destruct (List.find (fun i => String.eqb (i_name i) name) servers) as [i|] eqn:Ef.
  - assert (Hex : exists i, In i servers /\ i_name i = name).
    { apply (find_name i_name). eauto. }
    cbn [ret fst snd]. split; [|split; [reflexivity|tauto]].
    split; [|reflexivity]. intros _. left.
    destruct Hex as (j & Hj & Hn). exists j. repeat split; auto.
  - assert (Hno : ~ exists i, In i servers /\ i_name i = name).
    { intros H. apply (find_name i_name) in H as (j & Hj). congruence. }
    subst log1.
    destruct (list_l2tp_client_interfaces c (log ++ [server_print])) as [clients log''].
    cbn [fst snd] in *. subst log''.
    destruct (List.find (fun i => String.eqb (ci_name i) name) clients) as [i|] eqn:Eg;
      cbn [ret fst snd]; (split; [|split; [tauto|reflexivity]]).
    + split; [|reflexivity]. intros _. right. apply (find_name ci_name). eauto.
    + split; [discriminate|]. intros [(j & Hj & Hn & _)|H].
      * exfalso. apply Hno. eauto.
      * apply (find_name ci_name) in H as (j & Hj). congruence.
Qed.

Lemma check_interface_exists_iff_witness :
  fst (check_interface_exists L2TPManagerFacts.caetite_server "l2tp-caetite" []) = true /\
  snd (check_interface_exists L2TPManagerFacts.caetite_server "l2tp-caetite" [])
  = [server_print].
Proof.
  pose proof (check_interface_exists_iff L2TPManagerFacts.caetite_server
                "l2tp-caetite" [] eq_refl) as (Hiff & Hlog & _).
  assert (Hex : exists i, In i (fst (list_l2tp_server_interfaces
                                       L2TPManagerFacts.caetite_server [])) /\
                          i_name i = "l2tp-caetite" /\
                          Py.contains "R" (i_flags i) = true).
  { eexists. split; [vm_compute; right; left; reflexivity|]. split; reflexivity. }
  split.
  - apply Hiff. now left.
  - apply Hlog. destruct Hex as (i & Hi & Hn & _). eauto.
Defined.

End InterfaceExistsFacts.

(** ** The tunnel listing ([modules/mikrotik_l2tp_manager.py], continued) *)

Module TunnelListing.
Import L2TPManager.

(** The dictionary built for one active tunnel. *)
Record Tunnel : Type := {
  t_interface : string;
  t_user : string;
  t_client_ip : string;
  t_status : string
}.

(** [\d+\.\d+\.\d+\.\d+] *)
Definition ipv4_re : Re.re :=
  Re.Plus Re.digit ⋅ Re.Lit "." ⋅ Re.Plus Re.digit ⋅ Re.Lit "." ⋅
  Re.Plus Re.digit ⋅ Re.Lit "." ⋅ Re.Plus Re.digit.

(** The loop over the fields of a line: the first field that starts like
    an IPv4 address is the client address, the field before it (if any)
    the user; [prev] is the field before the current one. *)
Fixpoint user_and_ip (prev : option string) (parts : list string) : string * string :=
  match parts with
  | [] => (EmptyString, EmptyString)
  | part :: rest =>
      match Re.rmatch ipv4_re part with
      | Some _ => (default EmptyString prev, part)
      | None => user_and_ip (Some part) rest
      end
  end.

Definition tunnel_row (line : string) : list Tunnel :=
  if Py.contains "l2tp-" (Py.lower line) &&
     (Py.contains "R" line || Py.contains "running" (Py.lower line))
  then
    match Re.search bracket_re line with
    | Some m =>
        match Re.group 1 m with
        | Some tunnel_name =>
            let found := user_and_ip None (Py.split_ws line) in
            [{| t_interface := tunnel_name; t_user := fst found;
                t_client_ip := snd found; t_status := "running" |}]
        | None => []
        end
    | None => []
    end
  else [].

Definition list_l2tp_server_tunnels (c : MikrotikConnection) : M (list Tunnel) :=
  let* output := execute_command c print_command in
  match output with
  | Some o => if Py.truthy o then ret (flat_map tunnel_row (Py.split "010" o)) else ret []
  | None => ret []
  end.

End TunnelListing.

Module TunnelListingFacts.
Import L2TPManager TunnelListing.









End TunnelListingFacts.

(** ** The connectivity report ([modules/mikrotik_connectivity_tests.py], continued) *)

Module ConnectivityReport.
Import ConnectivityTests.

(** The summary dictionary; [overall_ok] stands for the status text of a
    successful run. *)
Record Summary : Type := {
  overall_ok : bool;
  gateway_reachable : bool;
  external_reachable : bool;
  mtu_adequate : bool;
  summary_max_mtu : Z
}.

Record Results : Type := {
  gateway_test : PingOutcome;
  external_tests : gmap string PingOutcome;
  mtu_test : MtuResult;
  summary : Summary
}.

Definition _generate_connectivity_summary (gateway_test : PingOutcome)
    (external_tests : gmap string PingOutcome) (mtu_test : MtuResult) : Summary :=
  let gateway_ok := ping_success gateway_test in
  let external_ok := existsb ping_success (map snd (map_to_list external_tests)) in
  let mtu_ok := Z.leb 1280 (max_mtu mtu_test) in
  {| overall_ok := gateway_ok && external_ok && mtu_ok;
     gateway_reachable := gateway_ok;
     external_reachable := external_ok;
     mtu_adequate := mtu_ok;
     summary_max_mtu := max_mtu mtu_test |}.

(** The loop [for target in test_targets: results['external_tests'][target] = ...] *)
Fixpoint ping_targets (c : MikrotikConnection) (test_targets : list string)
    (external_tests : gmap string PingOutcome) : M (gmap string PingOutcome) :=
  match test_targets with
  | [] => ret external_tests
  | tgt :: rest =>
      let* r := _ping_ipv6 c tgt 4 in
      ping_targets c rest (<[tgt := r]> external_tests)
  end.

Definition default_targets : list string := ["2001:4860:4860::8888"].

(** [None] is the empty dictionary returned on a closed connection; an
    exception of the MTU probe would leave the function. *)
Definition test_ipv6_connectivity (c : MikrotikConnection) (gateway : string)
    (test_targets : list string) : M (result (option Results)) :=
  if negb (is_connected c) then ret (Ok None)
  else
    let test_targets :=
      match test_targets with
      | [] => default_targets
      | _ => test_targets
      end in
    let* gateway_test := _ping_ipv6 c gateway 4 in
    let* external_tests := ping_targets c test_targets ∅ in
    let* mtu := _test_mtu_ipv6 c gateway in
    match mtu with
    | Ok mtu_test =>
        ret (Ok (Some {| gateway_test := gateway_test;
                         external_tests := external_tests;
                         mtu_test := mtu_test;
                         summary := _generate_connectivity_summary
                                      gateway_test external_tests mtu_test |}))
    | Raise e => ret (Raise e)
    end.

End ConnectivityReport.

Module ConnectivityReportFacts.
Import ConnectivityTests ConnectivityReport.

Lemma ping_log (c : MikrotikConnection) (tgt : string) (count : Z) (log : list string) :
  connection c = true ->
  snd (_ping_ipv6 c tgt count log) = log ++ [ping_command tgt count].
Proof.
  intros Hc. unfold _ping_ipv6, bind. rewrite (execute_connected _ _ _ Hc).
  destruct (device c log _) as [o|]; [|reflexivity].
  destruct (Py.truthy o); [|reflexivity].
  now destruct (_parse_ping_output o tgt).
Qed.

Lemma ping_targets_log (c : MikrotikConnection) (test_targets : list string)
    (acc : gmap string PingOutcome) (log : list string) :
  connection c = true ->
  snd (ping_targets c test_targets acc log)
  = log ++ map (fun tgt => ping_command tgt 4) test_targets.
Proof.
  intros Hc. revert acc log.
  induction test_targets as [|tgt rest IH]; intros acc log.
  - simpl. now rewrite app_nil_r.
  - cbn [ping_targets]. unfold bind.
    pose proof (ping_log c tgt 4 log Hc) as Hp.
    destruct (_ping_ipv6 c tgt 4 log) as [r log1]. cbn [snd] in Hp. subst log1.
    rewrite IH. simpl. now rewrite <- app_assoc.
Qed.

(** The targets actually pinged. *)
Definition effective_targets (test_targets : list string) : list string :=
  match test_targets with
  | [] => default_targets
  | _ => test_targets
  end.

(** The log when the MTU probe starts. *)
Definition before_mtu (log : list string) (gateway : string) (test_targets : list string)
  : list string :=
  (log ++ [ping_command gateway 4])
  ++ map (fun tgt => ping_command tgt 4) (effective_targets test_targets).

Lemma adequate_iff_first (n : nat) (res : MtuResult) :
  (n <= length mtu_sizes)%nat ->
  max_mtu res = List.last (firstn n mtu_sizes) 0%Z ->
  Z.leb 1280 (max_mtu res) = negb (Nat.eqb n 0).
Proof.
  intros Hn ->.
  do 10 (destruct n as [|n]; [reflexivity|]).
  simpl in Hn. lia.
Qed.

(** X12.  On an open connection [test_ipv6_connectivity] always returns
    a full report.  It pings the gateway, then each target (the default
    target when none is given), then probes the MTU, in this order; and
    the report says the MTU is adequate exactly when the reply to the very
    first probe, of 1280 bytes, is not empty and contains [time=] or
    [received].  That is a test of the text of the reply, not of the
    packet: a reply that reports 0 packets received passes it. *)
Theorem connectivity_report (c : MikrotikConnection) (gateway : string)
    (test_targets : list string) (log : list string) :
  connection c = true ->
  exists (res : Results) (n : nat),
    test_ipv6_connectivity c gateway test_targets log
    = (Ok (Some res),
       before_mtu log gateway test_targets
       ++ MtuFacts.pings gateway (firstn (S n) mtu_sizes)) /\
    mtu_adequate (summary res)
    = match device c (before_mtu log gateway test_targets)
              (mtu_command gateway 1280) with
      | Some o => Py.truthy o && (Py.contains "time=" o || Py.contains "received" o)
      | None => false
      end /\
    overall_ok (summary res)
    = ping_success (gateway_test res)
      && existsb ping_success (map snd (map_to_list (external_tests res)))
      && mtu_adequate (summary res).
Proof.
  intros Hc. unfold test_ipv6_connectivity, is_connected, bind.
  rewrite Hc. cbn [negb].
  pose proof (ping_log c gateway 4 log Hc) as Hg.
  destruct (_ping_ipv6 c gateway 4 log) as [gw log1]. cbn [snd] in Hg. subst log1.
  fold (effective_targets test_targets).
  pose proof (ping_targets_log c (effective_targets test_targets) ∅
                (log ++ [ping_command gateway 4]) Hc) as He.
  destruct (ping_targets c _ ∅ _) as [ext log2]. cbn [snd] in He.
  fold (before_mtu log gateway test_targets) in He. subst log2.
  set (log2 := before_mtu log gateway test_targets).
  destruct (MtuFacts.scan_spec c gateway Hc mtu_sizes 0%Z log2)
    as (n & Hn & Hok & Hko & Hscan).
  destruct (MtuFacts.report_prefix n Hn) as (mtu & Hrep & Hmax & _).
  unfold _test_mtu_ipv6, bind. rewrite Hscan. cbn [ret]. rewrite Hrep.
  eexists. exists n. split; [reflexivity|]. split; [|reflexivity].
  cbn [summary _generate_connectivity_summary mtu_adequate].
  rewrite (adequate_iff_first n mtu Hn Hmax).
  destruct n as [|n].
  - pose proof (Hko 1280%Z eq_refl) as X. unfold MtuFacts.reply, MtuFacts.pings in X.
    simpl in X. rewrite app_nil_r in X. unfold responds in X. now rewrite X.
  - pose proof (Hok 0%nat 1280%Z ltac:(lia) eq_refl) as X.
    unfold MtuFacts.reply, MtuFacts.pings in X.
    simpl in X. rewrite app_nil_r in X. unfold responds in X. now rewrite X.
Qed.

(** On a path that loses every probe the report still says that the MTU
    is adequate. *)
Lemma connectivity_report_witness :
  exists (res : Results) (n : nat),
    test_ipv6_connectivity MtuFacts.lossy_path "fe80::1" [] []
    = (Ok (Some res),
       before_mtu [] "fe80::1" []
       ++ MtuFacts.pings "fe80::1" (firstn (S n) mtu_sizes)) /\
    mtu_adequate (summary res) = true.
Proof.
  destruct (connectivity_report MtuFacts.lossy_path "fe80::1" [] [] eq_refl)
    as (res & n & Hrun & Hmtu & _).
  exists res, n. split; [exact Hrun|].
  rewrite Hmtu. vm_compute. reflexivity.
Defined.

(** X13.  Text without any per-packet, summary or round-trip line parses
    to the initial record: no packet sent or received, 100% loss, no
    success; nothing is made up. *)
Theorem parse_ping_unrelated_text (output tgt : string) :
  (forall line, In line (Py.split "010" output) ->
                Py.contains "time=" line = false /\ PingFacts.quiet line) ->
  _parse_ping_output output tgt = Ok (initial output tgt).
Proof.
  intros H. unfold _parse_ping_output.
  assert (Ht : collect_times [] (Py.split "010" output) = Ok []).
  { induction (Py.split "010" output) as [|line lines IH]; [reflexivity|].
    cbn [collect_times]. unfold ping_time at 1.
    destruct (H line (or_introl eq_refl)) as [-> _]. cbn [andb rbind].
    apply IH. intros l Hl. apply H. now right. }
  rewrite Ht. cbn [rbind].
  rewrite PingFacts.summary_lines_quiet.
  - reflexivity.
  - apply List.Forall_forall. intros l Hl. exact (proj2 (H l Hl)).
Qed.

Lemma parse_ping_unrelated_text_witness :
  _parse_ping_output "no route to host" "fe80::1" = Ok (initial "no route to host" "fe80::1").
Proof.
  apply parse_ping_unrelated_text.
  intros line [<-|[]]. split; [|split]; vm_compute; reflexivity.
Defined.

End ConnectivityReportFacts.

(** ** Configuring a client ([modules/mikrotik_l2tp_manager.py], continued) *)

Module L2TPClient.
Import L2TPManager ConnectivityReport.

Definition interface_query (interface_name : string) : string :=
  "/interface print where name=" +:+ interface_name.

(** [return output and interface_name in output], as a truth value *)
Definition _interface_exists (c : MikrotikConnection) (interface_name : string)
  : M bool :=
  let* output := execute_command c (interface_query interface_name) in
  match output with
  | Some o => ret (Py.truthy o && Py.contains interface_name o)
  | None => ret false
  end.

Definition bridge_print : string := "/interface bridge print".

(** [name=Q([^Q]+)Q] where [Q] is the double quote *)
Definition bridge_name_re : Re.re :=
  Re.Lit ("name=" +:+ dquote) ⋅ Re.Grp 1 (Re.Plus (Re.notchr (ascii_of_nat 34)))
  ⋅ Re.Lit dquote.

Definition bridge_row (line : string) : list string :=
  if Py.contains "name=" line && Py.contains "R" line then
    match Re.search bridge_name_re line with
    | Some m =>
        match Re.group 1 m with
        | Some bridge_name => [bridge_name]
        | None => []
        end
    | None => []
    end
  else [].

Definition _list_available_bridges (c : MikrotikConnection) : M (list string) :=
  let* output := execute_command c bridge_print in
  match output with
  | Some o => if Py.truthy o then ret (flat_map bridge_row (Py.split "010" o)) else ret []
  | None => ret []
  end.

Definition post_check_targets : list string :=
  ["2001:4860:4860::8888"; "2001:4860:4860::8844"].

(** The result of the tests is dropped and an exception is caught and
    logged. *)
Definition _test_connectivity_after_config (c : MikrotikConnection)
    (bridge_interface gateway : string) : M unit :=
  let* test_results := test_ipv6_connectivity c gateway post_check_targets in
  ret tt.

Definition add_ip_cmd (bridge_ip bridge_interface : string) : string :=
  "/ipv6 address add address=" +:+ bridge_ip +:+ " interface=" +:+ bridge_interface
  +:+ " advertise=no".

Definition verify_cmd (bridge_interface : string) : string :=
  "/ipv6 address print where interface=" +:+ bridge_interface.

Definition default_route_cmd (default_gateway : string) : string :=
  "/ipv6 route add dst-address=::/0 gateway=" +:+ default_gateway
  +:+ " distance=1 comment=" +:+ dquote +:+ "Default-via-L2TP" +:+ dquote.

Definition verify_route_cmd : string := "/ipv6 route print where dst-address=::/0".

(** The block that [configure_l2tp_client] has twice, for the address
    and for the default route: the command, the classification of its
    reply and, when the reply shows no rejection, the query that confirms
    the change (its reply is only logged).  [false] is the
    [return False] of the block. *)
Definition step (c : MikrotikConnection) (command marker verify : string) : M bool :=
  let* output := execute_command c command in
  match classify marker output with
  | Failed => ret false
  | Skipped => ret true
  | Applied =>
      let* verify_output := execute_command c verify in
      ret true
  end.

Definition configure_l2tp_client (c : MikrotikConnection)
    (bridge_interface bridge_ip default_gateway : string) : M bool :=
  if negb (is_connected c) then ret false
  else
    let* found := _interface_exists c bridge_interface in
    if negb found then
      let* available_bridges := _list_available_bridges c in
      ret false
    else
      let* ok := step c (add_ip_cmd bridge_ip bridge_interface)
                   "already have such address" (verify_cmd bridge_interface) in
      if negb ok then ret false
      else
        let* ok := step c (default_route_cmd default_gateway)
                     "already have such route" verify_route_cmd in
        if negb ok then ret false
        else
          let* _ := _test_connectivity_after_config c bridge_interface default_gateway in
          ret true.

End L2TPClient.

Module L2TPClientFacts.
Import L2TPManager ConnectivityReport L2TPClient.

Definition is_failed (o : Outcome) : bool :=
  match o with
  | Failed => true
  | _ => false
  end.

(** The commands of one block, given the outcome of its command. *)
Definition block (command verify : string) (o : Outcome) : list string :=
  match o with
  | Applied => [command; verify]
  | _ => [command]
  end.

Lemma step_spec (c : MikrotikConnection) (command marker verify : string)
    (log : list string) :
  connection c = true ->
  step c command marker verify log
  = (negb (is_failed (classify marker (device c log command))),
     log ++ block command verify (classify marker (device c log command))).
Proof.
  intros Hc. unfold step, bind. rewrite (execute_connected _ _ _ Hc).
  destruct (classify marker (device c log command)); cbn [ret is_failed negb block].
  - rewrite (execute_connected _ _ _ Hc). now rewrite <- app_assoc.
  - reflexivity.
  - reflexivity.
Qed.

(** What the interface query says. *)
Definition shows (c : MikrotikConnection) (log : list string) (interface_name : string)
  : bool :=
  match device c log (interface_query interface_name) with
  | Some o => Py.truthy o && Py.contains interface_name o
  | None => false
  end.

Lemma interface_exists_spec (c : MikrotikConnection) (interface_name : string)
    (log : list string) :
  connection c = true ->
  _interface_exists c interface_name log
  = (shows c log interface_name, log ++ [interface_query interface_name]).
Proof.
  intros Hc. unfold _interface_exists, shows, bind.
  rewrite (execute_connected _ _ _ Hc). now destruct (device c log _).
Qed.

Lemma bridges_log (c : MikrotikConnection) (log : list string) :
  connection c = true ->
  snd (_list_available_bridges c log) = log ++ [bridge_print].
Proof.
  intros Hc. unfold _list_available_bridges, bind.
  rewrite (execute_connected _ _ _ Hc).
  destruct (device c log _) as [o|]; [|reflexivity]. now destruct (Py.truthy o).
Qed.

(** X15.  When the reply to the interface query does not show the bridge
    name, [configure_l2tp_client] fails after listing the bridges: the
    query and the bridge listing are the only commands sent, nothing is
    configured. *)
Theorem client_missing_bridge (c : MikrotikConnection)
    (bridge_interface bridge_ip default_gateway : string) (log : list string) :
  connection c = true ->
  shows c log bridge_interface = false ->
  configure_l2tp_client c bridge_interface bridge_ip default_gateway log
  = (false, log ++ [interface_query bridge_interface; bridge_print]).
Proof.
  intros Hc Hshow. unfold configure_l2tp_client, is_connected, bind.
  rewrite Hc. cbn [negb]. rewrite (interface_exists_spec _ _ _ Hc), Hshow. cbn [negb].
  pose proof (bridges_log c (log ++ [interface_query bridge_interface]) Hc) as Hb.
  destruct (_list_available_bridges c _) as [bridges log']. cbn [snd] in Hb. subst log'.
  unfold ret. now rewrite <- app_assoc.
Qed.

Definition no_bridge : MikrotikConnection :=
  {| connection := true;
     device := fun _ command =>
       if Py.startswith "/interface print" command then Some EmptyString
       else Some "0 R name=" |}.

Lemma client_missing_bridge_witness :
  configure_l2tp_client no_bridge "bridge" "2804:385c:8700::15/126" "2804:385c:8700::12" []
  = (false, ["/interface print where name=bridge"; "/interface bridge print"]).
Proof.
  apply (client_missing_bridge no_bridge "bridge" "2804:385c:8700::15/126"
           "2804:385c:8700::12" [] eq_refl).
  reflexivity.
Defined.

(** X16.  When the interface query shows the bridge,
    [configure_l2tp_client] succeeds exactly when neither the address
    command nor the default-route command is answered with a rejection
    that lacks its conflict marker.  A failed address step ends the run
    before the route command; the connectivity tests run only after both
    steps passed, and whatever they find the outcome stays success. *)
Theorem client_outcome (c : MikrotikConnection)
    (bridge_interface bridge_ip default_gateway : string) (log : list string) :
  connection c = true ->
  shows c log bridge_interface = true ->
  let log1 := log ++ [interface_query bridge_interface] in
  let add := add_ip_cmd bridge_ip bridge_interface in
  let out1 := classify "already have such address" (device c log1 add) in
  let log2 := log1 ++ block add (verify_cmd bridge_interface) out1 in
  let route := default_route_cmd default_gateway in
  let out2 := classify "already have such route" (device c log2 route) in
  let log3 := log2 ++ block route verify_route_cmd out2 in
  let run := configure_l2tp_client c bridge_interface bridge_ip default_gateway log in
  fst run = negb (is_failed out1) && negb (is_failed out2) /\
  (out1 = Failed -> snd run = log1 ++ [add]) /\
  (out1 <> Failed -> out2 = Failed -> snd run = log2 ++ [route]) /\
  (out1 <> Failed -> out2 <> Failed ->
   snd run = snd (test_ipv6_connectivity c default_gateway post_check_targets log3)).
Proof.
  intros Hc Hshow log1 add out1 log2 route out2 log3 run.
  subst run. unfold configure_l2tp_client, is_connected, bind.
  rewrite Hc. cbn [negb]. rewrite (interface_exists_spec _ _ _ Hc), Hshow. cbn [negb].
  rewrite (step_spec _ _ _ _ _ Hc). fold log1 add out1 log2.
  destruct out1 eqn:E1; cbn [is_failed negb andb].
  - rewrite (step_spec _ _ _ _ _ Hc). fold route out2 log3.
    destruct out2 eqn:E2; cbn [is_failed negb andb];
      unfold _test_connectivity_after_config, bind, ret;
      try destruct (test_ipv6_connectivity c default_gateway post_check_targets log3);
      cbn [fst snd]; repeat split; try congruence; try reflexivity.
  - rewrite (step_spec _ _ _ _ _ Hc). fold route out2 log3.
    destruct out2 eqn:E2; cbn [is_failed negb andb];
      unfold _test_connectivity_after_config, bind, ret;
      try destruct (test_ipv6_connectivity c default_gateway post_check_targets log3);
      cbn [fst snd]; repeat split; try congruence; try reflexivity.
  - cbn [ret fst snd]. repeat split; congruence.
Qed.

Definition ready_client : MikrotikConnection :=
  {| connection := true;
     device := fun _ command =>
       if Py.startswith "/interface print" command then Some "0 R bridge"
       else if Py.startswith "/ipv6 address add" command
            then Some "failure: already have such address"
            else if Py.startswith "/ipv6 route add" command
                 then Some "failure: already have such route"
                 else None |}.

Lemma client_outcome_witness :
  fst (configure_l2tp_client ready_client "bridge" "2804:385c:8700::15/126"
         "2804:385c:8700::12" []) = true.
Proof.
  exact (proj1 (client_outcome ready_client "bridge" "2804:385c:8700::15/126"
                  "2804:385c:8700::12" [] eq_refl eq_refl)).
Defined.

End L2TPClientFacts.

(** ** A closed connection *)

Module ClosedFacts.
Import ConnectivityTests ConnectivityReport.

Section Closed.
Variable c : MikrotikConnection.
Hypothesis closed : connection c = false.

Lemma execute_closed (command : string) (log : list string) :
  execute_command c command log = (None, log).
Proof. unfold execute_command. now rewrite closed. Qed.

Lemma add_route_closed (dst_address gateway : string) (distance : Z)
    (check_gateway comment : option string) (log : list string) :
  RoutesAdd.add_ipv6_route c dst_address gateway distance check_gateway comment log
  = (false, log).
Proof. unfold RoutesAdd.add_ipv6_route, is_connected. now rewrite closed. Qed.

Lemma bulk_closed (route_configs : list RoutesAdd.RouteConfig) (counts : Z * Z)
    (log : list string) :
  RoutesAdd.bulk_loop c route_configs counts log
  = ((fst counts, (snd counts + Z.of_nat (length route_configs))%Z), log).
Proof.
  revert counts. induction route_configs as [|config rest IH]; intros counts.
  - simpl. unfold ret. destruct counts. simpl. do 2 f_equal. lia.
  - cbn [RoutesAdd.bulk_loop]. unfold bind.
    assert (Hstep : RoutesAdd.bulk_step c counts config log
                    = ((fst counts, (snd counts + 1)%Z), log)).
    { unfold RoutesAdd.bulk_step, bind, ret.
      destruct (RoutesAdd.rc_dst_address config) as [d|]; [|reflexivity].
      destruct (RoutesAdd.rc_gateway config) as [g|]; [|reflexivity].
      destruct (negb (Py.truthy d) || negb (Py.truthy g)); [reflexivity|].
      now rewrite add_route_closed. }
    rewrite Hstep, IH. cbn [fst snd]. rewrite length_cons. do 2 f_equal. lia.
Qed.

Lemma scan_closed (tgt : string) (sizes : list Z) (m : Z) (log : list string) :
  scan c tgt sizes m log = (m, log).
Proof.
  destruct sizes as [|size rest]; [reflexivity|].
  cbn [scan]. unfold bind. now rewrite execute_closed.
Qed.

End Closed.

(** X17.  Nothing is sent on a closed connection, and nothing succeeds:
    the add, remove and configure operations return [False], the
    queries return nothing, a ping has no result, the MTU probe reports
    0, the connectivity report is empty and [bulk_configure_routes]
    counts every configuration as a failure; the log of commands is left
    as it was. *)
Theorem closed_connection_sends_nothing (c : MikrotikConnection) (log : list string) :
  connection c = false ->
  (forall interface address advertise comment,
      IPv6Config.add_ipv6_address c interface address advertise comment log = (false, log)) /\
  (forall interface address,
      IPv6Config.remove_ipv6_address c interface address log = (false, log)) /\
  (forall interface, IPv6Config.list_ipv6_addresses c interface log = ([], log)) /\
  (forall dst_address gateway distance check_gateway comment,
      RoutesAdd.add_ipv6_route c dst_address gateway distance check_gateway comment log
      = (false, log)) /\
  (forall dst_address gateway,
      Routes.remove_ipv6_route c dst_address gateway log = (false, log)) /\
  (forall dst_address, Routes.list_ipv6_routes c dst_address log = ([], log)) /\
  (forall route_configs,
      RoutesAdd.bulk_configure_routes c route_configs log
      = ((0%Z, Z.of_nat (length route_configs)), log)) /\
  (forall tunnel_name server_ip client_ip route_network route_gateway,
      L2TPManager.configure_l2tp_server_tunnel c tunnel_name server_ip client_ip
        route_network route_gateway log = (false, log)) /\
  (forall bridge_interface bridge_ip default_gateway,
      L2TPClient.configure_l2tp_client c bridge_interface bridge_ip default_gateway log
      = (false, log)) /\
  (forall tunnel_name,
      L2TPManager._find_l2tp_tunnel_by_name c tunnel_name log = (None, log)) /\
  (forall interface_name,
      InterfaceQueries.check_interface_exists c interface_name log = (false, log)) /\
  (forall tgt count, _ping_ipv6 c tgt count log = (NoResult tgt None, log)) /\
  (forall tgt,
      _test_mtu_ipv6 c tgt log
      = (Ok {| max_mtu := 0; recommended_mtu := 0; tested_sizes := [] |}, log)) /\
  (forall gateway test_targets,
      test_ipv6_connectivity c gateway test_targets log = (Ok None, log)).
Proof.
  intros Hc. repeat split; intros.
  - unfold IPv6Config.add_ipv6_address, is_connected. now rewrite Hc.
  - unfold IPv6Config.remove_ipv6_address, is_connected. now rewrite Hc.
  - unfold IPv6Config.list_ipv6_addresses, is_connected. now rewrite Hc.
  - now apply add_route_closed.
  - unfold Routes.remove_ipv6_route, is_connected. now rewrite Hc.
  - unfold Routes.list_ipv6_routes, is_connected. now rewrite Hc.
  - unfold RoutesAdd.bulk_configure_routes. now rewrite (bulk_closed c Hc).
  - unfold L2TPManager.configure_l2tp_server_tunnel, is_connected. now rewrite Hc.
  - unfold L2TPClient.configure_l2tp_client, is_connected. now rewrite Hc.
  - unfold L2TPManager._find_l2tp_tunnel_by_name, bind. now rewrite (execute_closed c Hc).
  - unfold InterfaceQueries.check_interface_exists,
      InterfaceQueries.get_interface_details, is_connected, bind. now rewrite Hc.
  - unfold _ping_ipv6, bind. now rewrite (execute_closed c Hc).
  - unfold _test_mtu_ipv6, bind. now rewrite (scan_closed c Hc).
  - unfold test_ipv6_connectivity, is_connected. now rewrite Hc.
Qed.

Definition unplugged : MikrotikConnection :=
  {| connection := false; device := fun _ _ => Some "ok" |}.

Lemma closed_connection_sends_nothing_witness :
  RoutesAdd.bulk_configure_routes unplugged
    [{| RoutesAdd.rc_dst_address := Some "2804:385c:8700::14/126";
        RoutesAdd.rc_gateway := Some "2804:385c:8700::12";
        RoutesAdd.rc_distance := None; RoutesAdd.rc_check_gateway := None;
        RoutesAdd.rc_comment := None |}] []
  = ((0%Z, 1%Z), []).
Proof.
  pose proof (closed_connection_sends_nothing unplugged [] eq_refl)
    as (_ & _ & _ & _ & _ & _ & H & _).
  apply H.
Defined.

End ClosedFacts.

(** ** The batch ([mikrotik_l2tp_automation.py], continued)

    Opening a session is outside the model: [connect_ssh net host] is the
    device behind a host when the connection succeeds, [None] when it
    fails (the credentials play no other part).  Each device gets a fresh
    connection, so its log starts empty. *)

Module Batch.
Import Automation Inventory.

Record Network : Type := {
  connect_ssh : string -> option (list string -> string -> option string);
  connect_telnet : string -> option (list string -> string -> option string)
}.

Definition session (d : list string -> string -> option string) : MikrotikConnection :=
  {| connection := true; device := d |}.

(** The loop over [tunnel_mappings.items()] on the counters
    [(success_count, total_count)]. *)
Fixpoint server_loop (c : MikrotikConnection) (items : list (string * TunnelConfig))
    (counts : Z * Z) : M (Z * Z) :=
  match items with
  | [] => ret counts
  | (tunnel_name, config) :: rest =>
      let* success :=
        L2TPManager.configure_l2tp_server_tunnel c tunnel_name
          (Automation.server_ip config) (Automation.client_ip config)
          (Automation.route_network config) (Automation.gateway config) in
      server_loop c rest
        (if success then (fst counts + 1)%Z else fst counts, (snd counts + 1)%Z)
  end.

(** [configure_l2tp_server]: the mappings are given as the items of the
    dictionary, in its order; the result comes with the commands sent
    over the session. *)
Definition configure_l2tp_server (net : Network) (host : string)
    (tunnel_mappings : list (string * TunnelConfig)) : bool * list string :=
  match connect_ssh net host with
  | None => (false, [])
  | Some d =>
      let c := session d in
      let (tunnels, log) := TunnelListing.list_l2tp_server_tunnels c [] in
      let (counts, log') := server_loop c tunnel_mappings (0%Z, 0%Z) log in
      (Z.eqb (fst counts) (snd counts), log')
  end.

(** The body of the loop of [configure_l2tp_clients] on [success_count]. *)
Definition client_step (net : Network) (client_mappings : gmap string ClientConfig)
    (success_count : Z) (host : string * string * string) : Z :=
  let '(host_ip, hostname, method) := host in
  match client_mappings !! hostname with
  | None => success_count
  | Some config =>
      let connected :=
        if String.eqb (Py.lower method) "ssh" then connect_ssh net host_ip
        else connect_telnet net host_ip in
      match connected with
      | None => success_count
      | Some d =>
          if fst (L2TPClient.configure_l2tp_client (session d)
                    (Inventory.bridge_interface config) (Inventory.bridge_ip config)
                    (Inventory.gateway config) [])
          then (success_count + 1)%Z
          else success_count
      end
  end.

Definition configure_l2tp_clients (net : Network)
    (client_hosts : list (string * string * string))
    (client_mappings : gmap string ClientConfig) : Z * Z :=
  (fold_left (client_step net client_mappings) client_hosts 0%Z,
   Z.of_nat (length client_hosts)).

End Batch.

Module BatchFacts.
Import Automation Inventory Batch L2TPManager.

Lemma add_is_not_print (server_ip ti : string) : add_ip_cmd server_ip ti <> print_command.
Proof. unfold add_ip_cmd, print_command. intros H. discriminate H. Qed.

Lemma route_is_not_print (tunnel_name route_network route_gateway : string) :
  route_cmd tunnel_name route_network route_gateway <> print_command.
Proof. unfold route_cmd, print_command. intros H. discriminate H. Qed.

(** The number of tunnel listings asked for in a log. *)
Definition listings (log : list string) : nat :=
  length (List.filter (String.eqb print_command) log).

Lemma listings_app (l1 l2 : list string) : listings (l1 ++ l2) = listings l1 + listings l2.
Proof. unfold listings. now rewrite List.filter_app, length_app. Qed.

Lemma listings_other (command : string) :
  command <> print_command -> listings [command] = 0.
Proof.
  intros H. unfold listings. cbn [List.filter].
  destruct (String.eqb print_command command) eqn:E; [|reflexivity].
  apply String.eqb_eq in E. congruence.
Qed.

Lemma find_tunnel_log (c : MikrotikConnection) (name : string) (log : list string) :
  connection c = true ->
  snd (_find_l2tp_tunnel_by_name c name log) = log ++ [print_command].
Proof.
  intros Hc. unfold _find_l2tp_tunnel_by_name, bind.
  rewrite (execute_connected _ _ _ Hc).
  destruct (device c log _) as [o|]; [|reflexivity]. now destruct (Py.truthy o).
Qed.

(** Configuring one tunnel asks for the listing once, whatever happens
    next. *)
Lemma configure_tunnel_listings (c : MikrotikConnection)
    (tunnel_name server_ip client_ip route_network route_gateway : string)
    (log : list string) :
  connection c = true ->
  listings (snd (configure_l2tp_server_tunnel c tunnel_name server_ip client_ip
                   route_network route_gateway log))
  = S (listings log).
Proof.
  intros Hc. unfold configure_l2tp_server_tunnel, is_connected, bind.
  rewrite Hc. cbn [negb].
  pose proof (find_tunnel_log c tunnel_name log Hc) as Hf.
  destruct (_find_l2tp_tunnel_by_name c tunnel_name log) as [[ti|] log1];
    cbn [snd] in Hf; subst log1.
  2:{ cbn [ret snd]. rewrite listings_app.
      change (listings [print_command]) with 1. lia. }
  destruct (negb (Py.truthy ti)).
  { cbn [ret snd]. rewrite listings_app.
    change (listings [print_command]) with 1. lia. }
  rewrite (execute_connected _ _ _ Hc).
  destruct (classify "already have such address" _); cbn [ret snd];
    try (rewrite (execute_connected _ _ _ Hc);
         destruct (classify "already have such route" _); cbn [ret snd]);
    rewrite ?listings_app, ?(listings_other _ (add_is_not_print _ _)),
      ?(listings_other _ (route_is_not_print tunnel_name route_network route_gateway));
    change (listings [print_command]) with 1; lia.
Qed.

Lemma server_loop_listings (c : MikrotikConnection)
    (items : list (string * TunnelConfig)) (counts : Z * Z) (log : list string) :
  connection c = true ->
  listings (snd (server_loop c items counts log)) = listings log + length items /\
  snd (fst (server_loop c items counts log)) = (snd counts + Z.of_nat (length items))%Z /\
  (fst counts <= fst (fst (server_loop c items counts log))
   <= fst counts + Z.of_nat (length items))%Z.
Proof.
  intros Hc. revert counts log.
  induction items as [|[name config] rest IH]; intros counts log.
  - simpl. lia.
  - cbn [server_loop]. unfold bind.
    pose proof (configure_tunnel_listings c name (Automation.server_ip config)
                  (Automation.client_ip config) (Automation.route_network config)
                  (Automation.gateway config) log Hc) as Hone.
    destruct (configure_l2tp_server_tunnel c name _ _ _ _ log) as [success log1].
    cbn [snd] in Hone.
    destruct (IH (if success then (fst counts + 1)%Z else fst counts, (snd counts + 1)%Z)
                log1) as (Hl & Ht & Hs).
    rewrite Hl, Ht, Hone. cbn [fst snd] in *. rewrite length_cons.
    destruct success; lia.
Qed.

(** X18.  [configure_l2tp_server] goes through every mapped tunnel,
    whatever happened to the ones before: once the session is open, the
    tunnel listing is asked for once at the start and once for each
    mapping, and the result is [True] only when every mapping succeeded.
    When the session cannot be opened the result is [False] and nothing
    is sent. *)
Theorem server_batch_covers_all (net : Network) (host : string)
    (tunnel_mappings : list (string * TunnelConfig)) :
  (connect_ssh net host = None ->
   configure_l2tp_server net host tunnel_mappings = (false, [])) /\
  (forall d, connect_ssh net host = Some d ->
     listings (snd (configure_l2tp_server net host tunnel_mappings))
     = S (length tunnel_mappings) /\
     (fst (configure_l2tp_server net host tunnel_mappings) = true ->
      fst (fst (server_loop (session d) tunnel_mappings (0%Z, 0%Z) [print_command]))
      = Z.of_nat (length tunnel_mappings))).
Proof.
  split.
  - intros H. unfold configure_l2tp_server. now rewrite H.
  - intros d H. unfold configure_l2tp_server. rewrite H.
    assert (Hlist : snd (TunnelListing.list_l2tp_server_tunnels (session d) [])
                    = [print_command]).
    { unfold TunnelListing.list_l2tp_server_tunnels, bind.
      rewrite (execute_connected (session d) _ _ eq_refl).
      destruct (device (session d) [] _) as [o|]; [|reflexivity].
      now destruct (Py.truthy o). }
    destruct (TunnelListing.list_l2tp_server_tunnels (session d) []) as [tunnels log].
    cbn [snd] in Hlist. subst log.
    destruct (server_loop_listings (session d) tunnel_mappings (0%Z, 0%Z)
                [print_command] eq_refl) as (Hl & Ht & Hs).
    destruct (server_loop (session d) tunnel_mappings (0%Z, 0%Z) [print_command])
      as [counts log']. cbn [fst snd] in *.
    split.
    + rewrite Hl. change (listings [print_command]) with 1. lia.
    + intros Heq. apply Z.eqb_eq in Heq. lia.
Qed.

End BatchFacts.

Module BatchClientFacts.
Import Automation Inventory Batch.

Definition one_server : Network :=
  {| connect_ssh := fun host =>
       if String.eqb host "10.0.0.1"
       then Some (device ReplyFacts.tunnel_server) else None;
     connect_telnet := fun _ => None |}.

Definition two_mappings : list (string * TunnelConfig) :=
  [("nowhere", {| client_hostname := "cpe-nowhere"; server_ip := "2804:385c:8700::21";
                  client_ip := "2804:385c:8700::22";
                  route_network := "2804:385c:8700::24/126";
                  Automation.gateway := "2804:385c:8700::22" |});
   ("caetite", {| client_hostname := "cpe-caetite"; server_ip := "2804:385c:8700::11";
                  client_ip := "2804:385c:8700::12";
                  route_network := "2804:385c:8700::14/126";
                  Automation.gateway := "2804:385c:8700::12" |})].

Lemma server_batch_covers_all_witness :
  BatchFacts.listings (snd (configure_l2tp_server one_server "10.0.0.1" two_mappings)) = 3 /\
  configure_l2tp_server one_server "10.0.0.9" two_mappings = (false, []).
Proof.
  split.
  - exact (proj1 (proj2 (BatchFacts.server_batch_covers_all one_server "10.0.0.1"
                           two_mappings) _ eq_refl)).
  - exact (proj1 (BatchFacts.server_batch_covers_all one_server "10.0.0.9" two_mappings)
             eq_refl).
Defined.

(** The first tunnel is not found, the second is still configured. *)
Example server_batch_continues :
  configure_l2tp_server one_server "10.0.0.1" two_mappings
  = (false,
     [L2TPManager.print_command; L2TPManager.print_command; L2TPManager.print_command;
      L2TPManager.add_ip_cmd "2804:385c:8700::11" "l2tp-caetite";
      L2TPManager.route_cmd "caetite" "2804:385c:8700::14/126" "2804:385c:8700::12"]).
Proof. vm_compute. reflexivity. Qed.

(** Hosts that have a mapping. *)
Definition mapped (client_mappings : gmap string ClientConfig)
    (host : string * string * string) : bool :=
  match client_mappings !! (snd (fst host)) with
  | Some _ => true
  | None => false
  end.

Lemma client_step_bounds (net : Network) (client_mappings : gmap string ClientConfig)
    (n : Z) (host : string * string * string) :
  (n <= client_step net client_mappings n host
   <= n + (if mapped client_mappings host then 1 else 0))%Z.
Proof.
  unfold client_step, mapped. destruct host as [[host_ip hostname] method]. cbn [fst snd].
  destruct (client_mappings !! hostname) as [config|]; [|lia].
  destruct (if String.eqb (Py.lower method) "ssh" then connect_ssh net host_ip
            else connect_telnet net host_ip) as [d|]; [|lia].
  destruct (fst (L2TPClient.configure_l2tp_client _ _ _ _ [])); lia.
Qed.

Lemma client_fold_bounds (net : Network) (client_mappings : gmap string ClientConfig)
    (client_hosts : list (string * string * string)) (n : Z) :
  (n <= fold_left (client_step net client_mappings) client_hosts n
   <= n + Z.of_nat (length (List.filter (mapped client_mappings) client_hosts)))%Z.
Proof.
  revert n. induction client_hosts as [|host rest IH]; intros n; [simpl; lia|].
  cbn [fold_left List.filter].
  pose proof (client_step_bounds net client_mappings n host) as Hstep.
  specialize (IH (client_step net client_mappings n host)).
  destruct (mapped client_mappings host); [rewrite length_cons|]; lia.
Qed.

(** X19.  [configure_l2tp_clients] returns the number of hosts as the
    total, and a success count between 0 and the number of hosts that
    have a mapping: a host without mapping is skipped but still counted
    in the total, so the two counts agree only if every host has a
    mapping. *)
Theorem client_batch_counts (net : Network)
    (client_hosts : list (string * string * string))
    (client_mappings : gmap string ClientConfig) :
  let counts := configure_l2tp_clients net client_hosts client_mappings in
  snd counts = Z.of_nat (length client_hosts) /\
  (0 <= fst counts
   <= Z.of_nat (length (List.filter (mapped client_mappings) client_hosts)))%Z /\
  (fst counts <= snd counts)%Z /\
  (fst counts = snd counts ->
   forall host, In host client_hosts -> is_Some (client_mappings !! (snd (fst host)))).
Proof.
  cbv zeta. unfold configure_l2tp_clients. cbn [fst snd].
  pose proof (client_fold_bounds net client_mappings client_hosts 0) as Hb.
  pose proof (filter_length_le (mapped client_mappings) client_hosts) as Hle.
  split; [reflexivity|]. split; [lia|]. split; [lia|].
  intros Heq host Hin.
  assert (Hall : length (List.filter (mapped client_mappings) client_hosts)
                 = length client_hosts) by lia.
  assert (Hm : mapped client_mappings host = true).
  { clear Hb Heq Hle. induction client_hosts as [|h rest IH]; [destruct Hin|].
    cbn [List.filter] in Hall.
    pose proof (List.filter_length_le (mapped client_mappings) rest) as Hr.
    destruct (mapped client_mappings h) eqn:E.
    - destruct Hin as [->|Hin]; [exact E|]. apply IH; [exact Hin|].
      simpl in Hall. lia.
    - simpl in Hall. lia. }
  unfold mapped in Hm. now destruct (client_mappings !! (snd (fst host))).
Qed.

End BatchClientFacts.
